(** * University Records Management System: the Express handlers of [server.js]

    A shallow embedding of the request handlers of [src/server.js] and of the
    table declarations shipped with the front end, followed by the properties
    of the reporting, listing, mutation and export code.

    Conventions.
    - A JavaScript number that takes part in arithmetic of the dashboard is an
      IEEE 754 binary64 value ([PrimFloat.float]); counters and database
      integers (identifiers, credit hours, row counts) are [Z] or [N].
    - A JavaScript string is a [string]; one character of the model is one
      code unit of the source string.
    - [null] and [undefined] of a nullable column or property are [None]. *)

From Stdlib Require Import ZArith List String Ascii Bool Lia.
From Stdlib Require Import PrimFloat FloatOps SpecFloat.
From Stdlib Require Import DecimalString.
From Stdlib Require Import Sorting.Sorted Permutation.
Import ListNotations.

Set Warnings "-inexact-float".

Open Scope string_scope.
Open Scope Z_scope.

(** ** JavaScript values and coercions used by the handlers *)

Module JS.

(** Values that a JSON request body can carry for a scalar property, together
    with the [undefined] read from an omitted property. *)
Inductive value :=
| Undefined
| Null
| Bool (b : bool)
| Num (n : Z)
| Str (s : string).

(** ToBoolean. *)
Definition truthy (v : value) : bool :=
  match v with
  | Undefined | Null => false
  | Bool b => b
  | Num n => negb (n =? 0)
  | Str s => negb (s =? EmptyString)%string
  end.

(** ToBoolean of a value known to be a string. *)
Definition truthy_string (s : string) : bool := negb (s =? EmptyString)%string.

(** ToBoolean of a number: [0], [-0] and [NaN] are falsy. *)
Definition truthy_number (x : float) : bool := negb (is_zero x || is_nan x).

(** [v !== undefined]. *)
Definition defined (v : value) : bool :=
  match v with Undefined => false | _ => true end.

(** Number::toString for an integer below 10^21. *)
Definition decimal (z : Z) : string := NilZero.string_of_int (Z.to_int z).

(** [String.prototype.includes]. *)
Fixpoint includes (s needle : string) : bool :=
  if prefix needle s then true
  else match s with
       | EmptyString => false
       | String _ rest => includes rest needle
       end.

(** [Array.prototype.join]. *)
Fixpoint join (sep : string) (parts : list string) : string :=
  match parts with
  | [] => EmptyString
  | [p] => p
  | p :: rest => p ++ sep ++ join sep rest
  end.

(** *** [Number.prototype.toFixed(2)] *)

(** The integer [n] for which [n / 100] is nearest to [m * 2^e], the larger
    one when two are equally near. *)
Definition hundredths (m : positive) (e : Z) : Z :=
  if 0 <=? e then 100 * (Z.pos m * 2 ^ e)
  else (200 * Z.pos m + 2 ^ (- e)) / 2 ^ (1 - e).

(** [m * 2^e >= 10^21]: there [toFixed] answers with the exponent notation
    of Number::toString, which is not modelled. *)
Definition exponent_range (m : positive) (e : Z) : bool :=
  (0 <=? e) && (10 ^ 21 <=? Z.pos m * 2 ^ e).

Definition two_digits (k : Z) : string :=
  if k <? 10 then "0" ++ decimal k else decimal k.

Definition fixed_digits (n : Z) : string :=
  decimal (n / 100) ++ "." ++ two_digits (n mod 100).

(** [x.toFixed(2)]; [None] only in the exponent range. *)
Definition toFixed2 (x : float) : option string :=
  match Prim2SF x with
  | S754_nan => Some "NaN"
  | S754_infinity s => Some (if s then "-Infinity" else "Infinity")
  | S754_zero _ => Some "0.00"
  | S754_finite s m e =>
      if exponent_range m e then None
      else Some ((if s then "-" else EmptyString) ++ fixed_digits (hundredths m e))
  end.

(** The text a text column keeps for a JSON scalar. The handlers send only
    truthy values to text columns, so the last case is never reached. *)
Definition text_of (v : value) : string :=
  match v with
  | Str s => s
  | Num n => decimal n
  | Bool true => "true"
  | Bool false => "false"
  | Null | Undefined => EmptyString
  end.

(** ToBoolean of an optional query-string parameter. *)
Definition given (p : option string) : bool :=
  match p with
  | Some s => truthy_string s
  | None => false
  end.

(** ToString of a value that is a string or [null]. *)
Definition to_string (v : option string) : string :=
  match v with
  | Some s => s
  | None => "null"
  end.

(** SameValueZero on values that are strings or [null]. *)
Definition same_value (v w : option string) : bool :=
  match v, w with
  | Some a, Some b => (a =? b)%string
  | None, None => true
  | _, _ => false
  end.

(** The values of [new Set(values)] in insertion order, [seen] being the
    values the set already holds. *)
Fixpoint set_values (seen values : list (option string)) : list (option string) :=
  match values with
  | [] => []
  | v :: rest =>
      if existsb (same_value v) seen
      then set_values seen rest
      else v :: set_values (v :: seen) rest
  end.

(** Stable insertion into a list ordered by [le]. *)
Fixpoint insert_by {A} (le : A -> A -> bool) (x : A) (l : list A) : list A :=
  match l with
  | [] => [x]
  | y :: rest => if le x y then x :: y :: rest else y :: insert_by le x rest
  end.

(** A stable sort by [le]. *)
Definition sort_by {A} (le : A -> A -> bool) (l : list A) : list A :=
  fold_right (insert_by le) [] l.

(** The default comparison of [Array.prototype.sort]: by the code units of
    the string forms. *)
Definition default_le (a b : option string) : bool :=
  String.leb (to_string a) (to_string b).

(** [[...new Set(values)].sort()]. *)
Definition unique_sorted (values : list (option string)) : list (option string) :=
  sort_by default_le (set_values [] values).

(** [Math.ceil(count / size)] for a row count and a positive page size. *)
Definition Math_ceil_div (count size : Z) : Z := - ((- count) / size).

(** The double quote character. *)
Definition dquote : string := String (ascii_of_nat 34) EmptyString.

(** The line feed of ['\n']. *)
Definition newline : string := String (ascii_of_nat 10) EmptyString.

(** The names every object literal inherits from [Object.prototype]. *)
Definition Object_prototype : list string :=
  [ "constructor"; "__defineGetter__"; "__defineSetter__"; "hasOwnProperty";
    "__lookupGetter__"; "__lookupSetter__"; "isPrototypeOf";
    "propertyIsEnumerable"; "toString"; "valueOf"; "__proto__";
    "toLocaleString" ].

Definition inherited (name : string) : bool :=
  existsb (String.eqb name) Object_prototype.

End JS.

(** ** GET /api/dashboard: weighted GPA and grade distribution *)

Module Dashboard.
Import JS.
Open Scope float_scope.

(** The rows of
    [select('grade, status, courses!inner(credits)')]. *)
Record course_ref := { credits : option float }.

Record enrollment_row := {
  grade : option string;
  status : string;
  courses : option course_ref
}.

(** The own properties of the object literal [gradePoints]. *)
Definition gradePoints : list (string * float) :=
  [ ("A+", 4.0); ("A", 4.0); ("A-", 3.7);
    ("B+", 3.3); ("B", 3.0); ("B-", 2.7);
    ("C+", 2.3); ("C", 2.0); ("C-", 1.7);
    ("D+", 1.3); ("D", 1.0); ("D-", 0.7);
    ("F", 0.0) ].

Fixpoint own {A} (o : list (string * A)) (k : string) : option A :=
  match o with
  | [] => None
  | (k', v) :: rest => if (k' =? k)%string then Some v else own rest k
  end.

(** What a property read [o[k]] of an object literal yields: an own value,
    a member of [Object.prototype], or [undefined]. *)
Inductive property (A : Type) :=
| Absent
| Own (v : A)
| Proto.
Arguments Absent {A}.
Arguments Own {A} v.
Arguments Proto {A}.

Definition get {A} (o : list (string * A)) (k : string) : property A :=
  match own o k with
  | Some v => Own v
  | None => if inherited k then Proto else Absent
  end.

(** [gradePoints[g] !== undefined]. *)
Definition has_points (g : string) : bool :=
  match get gradePoints g with Absent => false | _ => true end.

(** ToNumber of [gradePoints[g]]; a member of [Object.prototype] is a
    function or an object, whose number value is NaN. *)
Definition points (g : string) : float :=
  match get gradePoints g with Own p => p | _ => nan end.

(** [e.courses?.credits || 3]. *)
Definition credits_or_3 (e : enrollment_row) : float :=
  match courses e with
  | Some c =>
      match credits c with
      | Some x => if truthy_number x then x else 3
      | None => 3
      end
  | None => 3
  end.

(** A value held by [gradeDistribution]: a count, or the text that [+ 1]
    makes of an inherited member (its source text followed by that many
    characters [1]). *)
Inductive bucket :=
| Count (n : N)
| Text (ones : nat).

Fixpoint set {A} (o : list (string * A)) (k : string) (v : A) : list (string * A) :=
  match o with
  | [] => [(k, v)]
  | (k', v') :: rest =>
      if (k' =? k)%string then (k', v) :: rest else (k', v') :: set rest k v
  end.

(** [gradeDistribution[g] = (gradeDistribution[g] || 0) + 1]. An assignment
    to [__proto__] with a string on the right is dropped by its setter. *)
Definition bump (d : list (string * bucket)) (g : string) : list (string * bucket) :=
  match get d g with
  | Own (Count n) => set d g (Count (n + 1))
  | Own (Text k) => set d g (Text (S k))
  | Proto => if (g =? "__proto__")%string then d else set d g (Text 1)
  | Absent => set d g (Count 1)
  end.

Record totals := {
  totalCredits : float;
  totalGradePoints : float;
  gradeDistribution : list (string * bucket)
}.

Definition start : totals :=
  {| totalCredits := 0; totalGradePoints := 0; gradeDistribution := [] |}.

(** [e.grade && gradePoints[e.grade] !== undefined]. *)
Definition counted (e : enrollment_row) : bool :=
  match grade e with
  | Some g => truthy_string g && has_points g
  | None => false
  end.

(** The body of the [forEach] callback. *)
Definition visit (t : totals) (e : enrollment_row) : totals :=
  match grade e with
  | Some g =>
      if truthy_string g && has_points g then
        let credits := credits_or_3 e in
        {| totalCredits := totalCredits t + credits;
           totalGradePoints := totalGradePoints t + points g * credits;
           gradeDistribution := bump (gradeDistribution t) g |}
      else t
  | None => t
  end.

(** [(allEnrollments || []).forEach(...)]. *)
Definition aggregate (allEnrollments : option (list enrollment_row)) : totals :=
  fold_left visit (match allEnrollments with Some l => l | None => [] end) start.

Definition no_data : string := "—".

(** [totalCredits > 0 ? (totalGradePoints / totalCredits).toFixed(2) : '—'] *)
Definition gpa_of (t : totals) : option string :=
  if 0 <? totalCredits t
  then toFixed2 (totalGradePoints t / totalCredits t)
  else Some no_data.

Definition gpa (allEnrollments : option (list enrollment_row)) : option string :=
  gpa_of (aggregate allEnrollments).

End Dashboard.

(** ** The dashboard aggregation as section 4.2 of the specification words it *)

Module GradeScale.
Import JS Dashboard.
Open Scope float_scope.

(** Membership in the 13-entry Grade Scale and its point value. *)
Definition scale_points (g : string) : option float := own gradePoints g.

(** The grade is present and recognized by the Grade Scale. *)
Definition recognized (e : enrollment_row) : bool :=
  match grade e with
  | Some g => match scale_points g with Some _ => true | None => false end
  | None => false
  end.

Definition row_points (e : enrollment_row) : float :=
  match grade e with
  | Some g => match scale_points g with Some p => p | None => nan end
  | None => nan
  end.

(** Left-to-right sum of JavaScript numbers. *)
Definition sum (xs : list float) : float := fold_left add xs 0.

(** The credit hours of the joined course as the row carries them. *)
Definition course_credits (e : enrollment_row) : float :=
  match courses e with
  | Some c => match credits c with Some x => x | None => nan end
  | None => nan
  end.

(** GPA with the credit hours taken from the course as they are. *)
Definition stated_gpa (es : list enrollment_row) : option string :=
  let graded := filter recognized es in
  let total_credits := sum (map course_credits graded) in
  let total_points := sum (map (fun e => row_points e * course_credits e) graded) in
  if 0 <? total_credits then toFixed2 (total_points / total_credits)
  else Some no_data.

(** GPA with 3 credit hours standing in for absent, missing or zero ones. *)
Definition weighted_gpa (es : list enrollment_row) : option string :=
  let graded := filter recognized es in
  let total_credits := sum (map credits_or_3 graded) in
  let total_points := sum (map (fun e => row_points e * credits_or_3 e) graded) in
  if 0 <? total_credits then toFixed2 (total_points / total_credits)
  else Some no_data.

(** No grade of the list is the name of a member of [Object.prototype]. *)
Definition plain_grade (e : enrollment_row) : Prop :=
  match grade e with
  | Some g => inherited g = false
  | None => True
  end.

(** The course is absent, or its credit hours are missing or zero. *)
Definition lacks_credits (e : enrollment_row) : Prop :=
  match courses e with
  | None => True
  | Some c =>
      match credits c with
      | None => True
      | Some x => is_zero x = true
      end
  end.

(** Sum of the counts held by a distribution. *)
Fixpoint count_sum (d : list (string * bucket)) : N :=
  match d with
  | [] => 0%N
  | (_, Count n) :: rest => (n + count_sum rest)%N
  | (_, Text _) :: rest => count_sum rest
  end.

Definition is_count (kv : string * bucket) : Prop :=
  match snd kv with Count _ => True | Text _ => False end.

Definition graded (g : string) (c : float) : enrollment_row :=
  {| grade := Some g; status := "completed";
     courses := Some {| credits := Some c |} |}.

End GradeScale.

(** ** The Record Store

    The hosted database is not part of the sources; the handlers reach it
    through the query builder. Its tables follow the migration shipped with
    the front end ([courses], [enrollments]) and the columns the handlers
    use ([students]). The queries below give the builder calls their usual
    reading over in-memory tables. *)

Module Store.
Import JS.

Record student := {
  s_id : Z;
  s_name : string;
  s_email : string;
  s_course : string;
  s_created_at : string;
  s_user_id : string
}.

(** [credits INTEGER NOT NULL], [department TEXT NOT NULL]. *)
Record course := {
  c_id : Z;
  c_code : string;
  c_name : string;
  c_credits : Z;
  c_department : string;
  c_user_id : string;
  c_created_at : string
}.

(** [grade TEXT DEFAULT NULL], [semester TEXT NOT NULL],
    [status TEXT NOT NULL], [UNIQUE(student_id, course_id, semester)]. *)
Record enrollment := {
  e_id : Z;
  e_student_id : Z;
  e_course_id : Z;
  e_grade : option string;
  e_semester : string;
  e_status : string;
  e_user_id : string;
  e_enrolled_at : string
}.

Record database := {
  students : list student;
  courses : list course;
  enrollments : list enrollment;
  (** next value of the [BIGSERIAL] sequence of [enrollments.id] *)
  enrollments_id_seq : Z
}.

(** What a query resolves to: [{ data, error, count }]. *)
Record result (A : Type) := {
  data : option A;
  error : option string;
  count : Z
}.
Arguments data {A} _.
Arguments error {A} _.
Arguments count {A} _.

(** Modelled from the spec: the counted, ranged fetch of the Record Store,
    a hosted database that is not in the sources. [.range(from, to)] asks
    for the rows at the zero-based positions [from] to [to], both included;
    positions past the last row hold no row and give no row and no error.
    [i] is the position of the head of [rows]. The specification says this
    of the pages from 1 on, whose ranges start at zero or above. For a range
    that starts below zero it has no words, and neither have the sources:
    the function is total there, but no property of a page below 1 is read
    from it. The module [Listing] gives the handlers over any answer of the
    store for that. *)
Fixpoint range_from {A} (i from to : Z) (rows : list A) : list A :=
  match rows with
  | [] => []
  | r :: rest =>
      if (from <=? i) && (i <=? to)
      then r :: range_from (i + 1) from to rest
      else range_from (i + 1) from to rest
  end.

Definition range {A} (from to : Z) (rows : list A) : list A :=
  range_from 0 from to rows.

(** Modelled from the spec: a select with [{ count: 'exact' }] and a range
    answers with the rows of the range and with the number of all rows the
    filters keep, whatever the range. *)
Definition select_range {A} (kept : list A) (from to : Z) : result (list A) :=
  {| data := Some (range from to kept);
     error := None;
     count := Z.of_nat (List.length kept) |}.

(** A select without count. *)
Definition select_all {A} (kept : list A) : result (list A) :=
  {| data := Some kept; error := None; count := 0 |}.

(** [.single()]: the row when exactly one is kept. *)
Definition single {A} (kept : list A) : option A :=
  match kept with
  | [r] => Some r
  | _ => None
  end.

(** An optional equality filter of a listing: [if (v) query.eq(column, v)]. *)
Definition eq_if_given (v : option string) (column : string) : bool :=
  if given v then (column =? to_string v)%string else true.

Definition pageSize : Z := 10.

(** [Number(page)] with [page = 1] when the query string leaves it out; the
    parameter is taken as a whole number. *)
Definition page_number (page : option Z) : Z :=
  match page with Some p => p | None => 1 end.

(** [(Number(page) - 1) * pageSize]. *)
Definition offset (page : option Z) : Z := (page_number page - 1) * pageSize.

(** The outcome of a handler that answers with JSON: a status with a body,
    or a status with [{ error }]. *)
Inductive reply (A : Type) :=
| Json (status : Z) (body : A)
| Failure (status : Z) (error : string).
Arguments Json {A} status body.
Arguments Failure {A} status error.

(** The body of a mutation: [{ message, <row>: data[0] }]. *)
Record changed (A : Type) := { message : string; row : option A }.
Arguments message {A} _.
Arguments row {A} _.

(** The body of a page of a listing. *)
Record page_of (A : Type) := {
  rows : list A;
  total : Z;
  page : Z;
  totalPages : Z
}.
Arguments rows {A} _.
Arguments total {A} _.
Arguments page {A} _.
Arguments totalPages {A} _.

(** The tail of the three paged listings: 500 on an error of the store,
    else the rows with the counts. *)
Definition paged_reply {A B} (shape : A -> B) (failed : string)
    (r : result (list A)) (page : option Z) : reply (page_of B) :=
  match error r with
  | Some _ => Failure 500 failed
  | None =>
      Json 200
        {| rows := map shape (match data r with Some l => l | None => [] end);
           total := count r;
           page := page_number page;
           totalPages := Math_ceil_div (count r) pageSize |}
  end.

End Store.

(** ** Student routes *)

Module Students.
Import JS Store.

Section Routes.

(** The store's [ILIKE]: pattern, then text. *)
Variable ilike : string -> string -> bool.

(** [req.query] of GET /api/students. *)
Record query := {
  search : option string;
  course : option string;
  page : option Z;
  all : option string
}.

(** [.eq('user_id', req.user.id)], the [or] of the two [ilike] filters and
    [.eq('course', course)]. *)
Definition kept (uid : string) (q : query) (s : student) : bool :=
  (s_user_id s =? uid)%string
  && (if given (search q)
      then ilike ("%" ++ to_string (search q) ++ "%") (s_name s)
           || ilike ("%" ++ to_string (search q) ++ "%") (s_email s)
      else true)
  && eq_if_given (course q) (s_course s).

(** The rows the filters keep, [.order('id', { ascending: false })]. *)
Definition matching (db : database) (uid : string) (q : query) : list student :=
  sort_by (fun a b => s_id b <=? s_id a) (filter (kept uid q) (students db)).

(** The paged branch of GET /api/students. *)
Definition paged (db : database) (uid : string) (q : query)
  : reply (page_of student) :=
  paged_reply (fun s => s) "Failed to fetch students."
    (select_range (matching db uid q)
       (offset (page q)) (offset (page q) + pageSize - 1))
    (page q).

(** The [all === 'true'] branch: [select('id, name, email')] ordered by
    name. *)
Definition everyone (db : database) (uid : string) : list (Z * string * string) :=
  map (fun s => (s_id s, s_name s, s_email s))
    (sort_by (fun a b => String.leb (s_name a) (s_name b))
       (filter (fun s => (s_user_id s =? uid)%string) (students db))).

(** GET /api/students. *)
Definition get (db : database) (uid : string) (q : query)
  : reply (list (Z * string * string)) + reply (page_of student) :=
  match all q with
  | Some "true" => inl (Json 200 (everyone db uid))
  | _ => inr (paged db uid q)
  end.

(** [req.body] of PUT /api/students/:id. *)
Record body := { name : value; email : value; course_ : value }.

Definition targets (uid : string) (id : Z) (s : student) : bool :=
  (s_id s =? id) && (s_user_id s =? uid)%string.

(** [.update({ name, email, course }).eq('id', ...).eq('user_id', ...)]. *)
Definition update (uid : string) (id : Z) (b : body) (s : student) : student :=
  if targets uid id s then
    {| s_id := s_id s;
       s_name := text_of (name b);
       s_email := text_of (email b);
       s_course := text_of (course_ b);
       s_created_at := s_created_at s;
       s_user_id := s_user_id s |}
  else s.

(** PUT /api/students/:id. *)
Definition put (db : database) (uid : string) (id : Z) (b : body)
  : database * reply (changed student) :=
  if negb (truthy (name b)) || negb (truthy (email b))
     || negb (truthy (course_ b))
  then (db, Failure 400 "All fields are required.")
  else
    match single (filter (targets uid id) (students db)) with
    | None => (db, Failure 404 "Student not found.")
    | Some _ =>
        let students' := map (update uid id b) (students db) in
        ({| students := students';
            courses := courses db;
            enrollments := enrollments db;
            enrollments_id_seq := enrollments_id_seq db |},
         Json 200
           {| message := "Student updated successfully!";
              row := hd_error (filter (targets uid id) students') |})
    end.

(** One line of the export: the template literal of the [map]. *)
Definition export_line (s : student) : string :=
  decimal (s_id s) ++ "," ++ dquote ++ s_name s ++ dquote
  ++ "," ++ dquote ++ s_email s ++ dquote
  ++ "," ++ dquote ++ s_course s ++ dquote
  ++ "," ++ dquote ++ s_created_at s ++ dquote.

Definition export_header : string := "ID,Name,Email,Course,Created At".

(** GET /api/export/students: the text sent, for the rows of the tenant in
    ascending order of [id]. *)
Definition export (db : database) (uid : string) : string :=
  let rows :=
    sort_by (fun a b => s_id a <=? s_id b)
      (filter (fun s => (s_user_id s =? uid)%string) (students db)) in
  join newline (export_header :: map export_line rows).

End Routes.
End Students.

(** ** Course routes *)

Module Courses.
Import JS Store.

Section Routes.

Variable ilike : string -> string -> bool.

(** [Number(v)] for a body value, as far as an integer column can keep it:
    [None] stands for NaN and for a number that is no integer. *)
Variable Number : value -> option Z.

(** [req.query] of GET /api/courses. *)
Record query := {
  search : option string;
  department : option string;
  page : option Z;
  all : option string
}.

Definition kept (uid : string) (q : query) (c : course) : bool :=
  (c_user_id c =? uid)%string
  && (if given (search q)
      then ilike ("%" ++ to_string (search q) ++ "%") (c_code c)
           || ilike ("%" ++ to_string (search q) ++ "%") (c_name c)
      else true)
  && eq_if_given (department q) (c_department c).

Definition matching (db : database) (uid : string) (q : query) : list course :=
  sort_by (fun a b => c_id b <=? c_id a) (filter (kept uid q) (courses db)).

(** The paged branch of GET /api/courses. *)
Definition paged (db : database) (uid : string) (q : query)
  : reply (page_of course) :=
  paged_reply (fun c => c) "Failed to fetch courses."
    (select_range (matching db uid q)
       (offset (page q)) (offset (page q) + pageSize - 1))
    (page q).

(** The [all === 'true'] branch: [select('id, code, name, credits')]
    ordered by code. *)
Definition everything (db : database) (uid : string)
  : list (Z * string * string * Z) :=
  map (fun c => (c_id c, c_code c, c_name c, c_credits c))
    (sort_by (fun a b => String.leb (c_code a) (c_code b))
       (filter (fun c => (c_user_id c =? uid)%string) (courses db))).

(** GET /api/courses. *)
Definition get (db : database) (uid : string) (q : query)
  : reply (list (Z * string * string * Z)) + reply (page_of course) :=
  match all q with
  | Some "true" => inl (Json 200 (everything db uid))
  | _ => inr (paged db uid q)
  end.

(** [req.body] of PUT /api/courses/:id. *)
Record body := { code : value; name : value; credits : value; department_ : value }.

Definition targets (uid : string) (id : Z) (c : course) : bool :=
  (c_id c =? id) && (c_user_id c =? uid)%string.

(** [.update({ code, name, credits: Number(credits), department })]. *)
Definition update (uid : string) (id : Z) (b : body) (n : Z) (c : course) : course :=
  if targets uid id c then
    {| c_id := c_id c;
       c_code := text_of (code b);
       c_name := text_of (name b);
       c_credits := n;
       c_department := text_of (department_ b);
       c_user_id := c_user_id c;
       c_created_at := c_created_at c |}
  else c.

(** PUT /api/courses/:id. The store refuses credits that are no integer. *)
Definition put (db : database) (uid : string) (id : Z) (b : body)
  : database * reply (changed course) :=
  if negb (truthy (code b)) || negb (truthy (name b))
     || negb (truthy (credits b)) || negb (truthy (department_ b))
  then (db, Failure 400 "All fields are required.")
  else
    match single (filter (targets uid id) (courses db)) with
    | None => (db, Failure 404 "Course not found.")
    | Some _ =>
        match Number (credits b) with
        | None => (db, Failure 500 "Failed to update course.")
        | Some n =>
            let courses' := map (update uid id b n) (courses db) in
            ({| students := students db;
                courses := courses';
                enrollments := enrollments db;
                enrollments_id_seq := enrollments_id_seq db |},
             Json 200
               {| message := "Course updated successfully!";
                  row := hd_error (filter (targets uid id) courses') |})
        end
    end.

(** GET /api/departments: [select('department')] for the tenant, then
    [[...new Set(...)].sort()] over what the rows carry. *)
Definition departments_of (data : option (list (option string)))
  : list (option string) :=
  unique_sorted (match data with Some l => l | None => [] end).

Definition departments (db : database) (uid : string) : list (option string) :=
  departments_of
    (data (select_all
       (map (fun c => Some (c_department c))
          (filter (fun c => (c_user_id c =? uid)%string) (courses db))))).

End Routes.
End Courses.

(** ** Enrollment routes *)

Module Enrollments.
Import JS Store.

(** An enrollment with its student and its course, as the embedded selects
    return it. *)
Record joined := {
  of_enrollment : enrollment;
  of_student : student;
  of_course : course
}.

(** The flat row of the listing. *)
Record flat := {
  id : Z;
  grade : option string;
  semester : string;
  status : string;
  enrolled_at : string;
  student_id : Z;
  student_name : string;
  student_email : string;
  course_id : Z;
  course_code : string;
  course_name : string;
  course_credits : Z
}.

(** The callback of [(data || []).map(...)]. *)
Definition flatten (j : joined) : flat :=
  {| id := e_id (of_enrollment j);
     grade := e_grade (of_enrollment j);
     semester := e_semester (of_enrollment j);
     status := e_status (of_enrollment j);
     enrolled_at := e_enrolled_at (of_enrollment j);
     student_id := s_id (of_student j);
     student_name := s_name (of_student j);
     student_email := s_email (of_student j);
     course_id := c_id (of_course j);
     course_code := c_code (of_course j);
     course_name := c_name (of_course j);
     course_credits := c_credits (of_course j) |}.

(** [students!inner(...)] and [courses!inner(...)]: an enrollment is kept
    with the student and the course it refers to, among the rows the
    row-level policies show to the tenant, and dropped without them. *)
Definition inner_join (db : database) (uid : string) (e : enrollment)
  : option joined :=
  match find (fun s => (s_id s =? e_student_id e) && (s_user_id s =? uid)%string)
             (students db),
        find (fun c => (c_id c =? e_course_id e) && (c_user_id c =? uid)%string)
             (courses db) with
  | Some s, Some c =>
      Some {| of_enrollment := e; of_student := s; of_course := c |}
  | _, _ => None
  end.

Fixpoint keep_some {A} (l : list (option A)) : list A :=
  match l with
  | [] => []
  | Some x :: rest => x :: keep_some rest
  | None :: rest => keep_some rest
  end.

Definition joined_rows (db : database) (uid : string) : list joined :=
  keep_some
    (map (inner_join db uid)
       (filter (fun e => (e_user_id e =? uid)%string) (enrollments db))).

Section Routes.

Variable ilike : string -> string -> bool.
Variable Number : value -> option Z.

(** [req.query] of GET /api/enrollments. *)
Record query := {
  search : option string;
  semester_ : option string;
  grade_ : option string;
  status_ : option string;
  page : option Z
}.

Definition kept (q : query) (j : joined) : bool :=
  (if given (search q)
   then ilike ("%" ++ to_string (search q) ++ "%") (s_name (of_student j))
        || ilike ("%" ++ to_string (search q) ++ "%") (c_code (of_course j))
        || ilike ("%" ++ to_string (search q) ++ "%") (c_name (of_course j))
   else true)
  && eq_if_given (semester_ q) (e_semester (of_enrollment j))
  && (if given (grade_ q)
      then match e_grade (of_enrollment j) with
           | Some g => (g =? to_string (grade_ q))%string
           | None => false
           end
      else true)
  && eq_if_given (status_ q) (e_status (of_enrollment j)).

Definition matching (db : database) (uid : string) (q : query) : list joined :=
  sort_by (fun a b => e_id (of_enrollment b) <=? e_id (of_enrollment a))
    (filter (kept q) (joined_rows db uid)).

(** GET /api/enrollments. *)
Definition get (db : database) (uid : string) (q : query)
  : reply (page_of flat) :=
  paged_reply flatten "Failed to fetch enrollments."
    (select_range (matching db uid q)
       (offset (page q)) (offset (page q) + pageSize - 1))
    (page q).

(** [req.body] of POST /api/enrollments. *)
Record new_body := {
  new_student_id : value;
  new_course_id : value;
  new_semester : value;
  new_grade : value;
  new_status : value
}.

(** The messages of the store for the constraints of [enrollments]. *)
Definition unique_violation : string :=
  "duplicate key value violates unique constraint "
  ++ dquote ++ "enrollments_student_id_course_id_semester_key" ++ dquote.

Definition not_null_violation : string :=
  "null value in column violates not-null constraint".

Definition foreign_key_violation : string :=
  "insert or update on table " ++ dquote ++ "enrollments" ++ dquote
  ++ " violates foreign key constraint".

(** [UNIQUE(student_id, course_id, semester)]. *)
Definition same_triple (sid cid : Z) (sem : string) (e : enrollment) : bool :=
  (e_student_id e =? sid) && (e_course_id e =? cid)
  && (e_semester e =? sem)%string.

(** [.insert([row]).select()] on [enrollments]: the constraints of the
    table in the order the store checks them, then the new row with the
    next identifier and the time of the insert. An insert that is accepted
    moves the sequence on; a value that the sequence hands out for an
    insert the store then refuses is not followed, so of a refused insert
    only what it leaves in the three tables is to be read here. *)
Definition insert (db : database) (uid now : string)
    (sid cid : option Z) (sem : string) (g : option string) (st : string)
  : database * result (list enrollment) :=
  match sid, cid with
  | Some sid, Some cid =>
      if existsb (same_triple sid cid sem) (enrollments db) then
        (db, {| data := None; error := Some unique_violation; count := 0 |})
      else if existsb (fun s => s_id s =? sid) (students db)
              && existsb (fun c => c_id c =? cid) (courses db) then
        let e := {| e_id := enrollments_id_seq db;
                    e_student_id := sid;
                    e_course_id := cid;
                    e_grade := g;
                    e_semester := sem;
                    e_status := st;
                    e_user_id := uid;
                    e_enrolled_at := now |} in
        ({| students := students db;
            courses := courses db;
            enrollments := enrollments db ++ [e];
            enrollments_id_seq := enrollments_id_seq db + 1 |},
         {| data := Some [e]; error := None; count := 0 |})
      else
        (db, {| data := None; error := Some foreign_key_violation; count := 0 |})
  | _, _ =>
      (db, {| data := None; error := Some not_null_violation; count := 0 |})
  end.

Definition already_enrolled : string :=
  "Student is already enrolled in this course for this semester.".

(** POST /api/enrollments. *)
Definition post (db : database) (uid now : string) (b : new_body)
  : database * reply (changed enrollment) :=
  if negb (truthy (new_student_id b)) || negb (truthy (new_course_id b))
     || negb (truthy (new_semester b))
  then (db, Failure 400 "Student, course, and semester are required.")
  else
    let '(db', r) :=
      insert db uid now
        (Number (new_student_id b)) (Number (new_course_id b))
        (text_of (new_semester b))
        (if truthy (new_grade b) then Some (text_of (new_grade b)) else None)
        (if truthy (new_status b) then text_of (new_status b) else "enrolled") in
    match error r with
    | Some msg =>
        if includes msg "duplicate" || includes msg "unique"
        then (db', Failure 400 already_enrolled)
        else (db', Failure 500 "Failed to create enrollment.")
    | None =>
        (db', Json 201
           {| message := "Student enrolled successfully!";
              row := match data r with Some l => hd_error l | None => None end |})
    end.

(** [req.body] of PUT /api/enrollments/:id. *)
Record body := { grade__ : value; status__ : value; semester__ : value }.

(** The object [updates]: a property is [None] when it is not set. *)
Record updates := {
  u_grade : option (option string);
  u_status : option string;
  u_semester : option string
}.

(** [if (grade !== undefined) updates.grade = grade || null;]
    [if (status) updates.status = status;]
    [if (semester) updates.semester = semester;] *)
Definition updates_of (b : body) : updates :=
  {| u_grade :=
       if defined (grade__ b)
       then Some (if truthy (grade__ b) then Some (text_of (grade__ b)) else None)
       else None;
     u_status := if truthy (status__ b) then Some (text_of (status__ b)) else None;
     u_semester :=
       if truthy (semester__ b) then Some (text_of (semester__ b)) else None |}.

Definition targets (uid : string) (id : Z) (e : enrollment) : bool :=
  (e_id e =? id) && (e_user_id e =? uid)%string.

(** [.update(updates).eq('id', ...).eq('user_id', ...)]: the columns that
    [updates] sets are written, the others are left. *)
Definition update (uid : string) (id : Z) (u : updates) (e : enrollment) : enrollment :=
  if targets uid id e then
    {| e_id := e_id e;
       e_student_id := e_student_id e;
       e_course_id := e_course_id e;
       e_grade := match u_grade u with Some g => g | None => e_grade e end;
       e_semester := match u_semester u with Some s => s | None => e_semester e end;
       e_status := match u_status u with Some s => s | None => e_status e end;
       e_user_id := e_user_id e;
       e_enrolled_at := e_enrolled_at e |}
  else e.

(** [UNIQUE(student_id, course_id, semester)] on an update: the store
    refuses a new semester that gives the row the student, the course and
    the semester of a row the table holds, whoever owns that row. A row
    whose semester stays as it is repeats nothing. *)
Definition repeats (db : database) (u : updates) (e : enrollment) : bool :=
  match u_semester u with
  | Some sem =>
      negb (e_semester e =? sem)%string
      && existsb (same_triple (e_student_id e) (e_course_id e) sem)
           (enrollments db)
  | None => false
  end.

(** PUT /api/enrollments/:id: 404 without the row, 500 when the store
    refuses the update, and nothing is written in either case. *)
Definition put (db : database) (uid : string) (id : Z) (b : body)
  : database * reply (changed enrollment) :=
  match single (filter (targets uid id) (enrollments db)) with
  | None => (db, Failure 404 "Enrollment not found.")
  | Some existing =>
      if repeats db (updates_of b) existing
      then (db, Failure 500 "Failed to update enrollment.")
      else
        let enrollments' := map (update uid id (updates_of b)) (enrollments db) in
        ({| students := students db;
            courses := courses db;
            enrollments := enrollments';
            enrollments_id_seq := enrollments_id_seq db |},
         Json 200
           {| message := "Enrollment updated successfully!";
              row := hd_error (filter (targets uid id) enrollments') |})
  end.

(** GET /api/semesters. *)
Definition semesters_of (data : option (list (option string)))
  : list (option string) :=
  unique_sorted (match data with Some l => l | None => [] end).

Definition semesters (db : database) (uid : string) : list (option string) :=
  semesters_of
    (data (select_all
       (map (fun e => Some (e_semester e))
          (filter (fun e => (e_user_id e =? uid)%string) (enrollments db))))).

(** One line of the export; [r.grade || ''] for the grade. *)
Definition export_line (j : joined) : string :=
  decimal (e_id (of_enrollment j))
  ++ "," ++ dquote ++ s_name (of_student j) ++ dquote
  ++ "," ++ dquote ++ s_email (of_student j) ++ dquote
  ++ "," ++ dquote ++ c_code (of_course j) ++ dquote
  ++ "," ++ dquote ++ c_name (of_course j) ++ dquote
  ++ "," ++ decimal (c_credits (of_course j))
  ++ "," ++ dquote
  ++ (match e_grade (of_enrollment j) with
      | Some g => if truthy_string g then g else EmptyString
      | None => EmptyString
      end)
  ++ dquote
  ++ "," ++ dquote ++ e_semester (of_enrollment j) ++ dquote
  ++ "," ++ dquote ++ e_status (of_enrollment j) ++ dquote
  ++ "," ++ dquote ++ e_enrolled_at (of_enrollment j) ++ dquote.

Definition export_header : string :=
  "ID,Student Name,Student Email,Course Code,Course Name,Credits,Grade,Semester,Status,Enrolled At".

(** GET /api/export/enrollments. *)
Definition export (db : database) (uid : string) : string :=
  let rows :=
    sort_by (fun a b => e_id (of_enrollment a) <=? e_id (of_enrollment b))
      (joined_rows db uid) in
  join newline (export_header :: map export_line rows).

End Routes.
End Enrollments.

(** ** The paged listings over any answer of the store

    [Store.range] reads a range by position, which is what the
    specification says of the pages from 1 on. What the store answers to a
    range that starts below zero, or whose ends are no whole numbers, is
    said neither by the specification nor by the sources, and the handlers
    pass such a range on as they computed it. Here the paged tail of the
    three listings is given with the fetch of the store as a parameter and
    with the page as the double that [Number(page)] yields. *)

Module Listing.
Import JS Store.

(** The counted, ranged fetch as a handler sees it: from the rows that the
    filters keep, in the order of the listing, and from the two arguments of
    [.range(from, to)], to [{ data, error, count }]. *)
Definition fetch : Type :=
  forall A : Type, list A -> float -> float -> result (list A).

(** [Number(page)], with [page = 1] when the query string leaves it out;
    [Some x] is a parameter whose number is [x], NaN for text that is no
    number. *)
Definition Number_page (page : option float) : float :=
  match page with
  | Some x => x
  | None => 1%float
  end.

(** [offset = (Number(page) - 1) * pageSize] and
    [.range(offset, offset + pageSize - 1)] with [pageSize = 10]. *)
Definition asked (page : option float) : float * float :=
  let offset := ((Number_page page - 1) * 10)%float in
  (offset, (offset + 10 - 1)%float).

(** [{ <rows>, total: count, page: Number(page), totalPages }]. *)
Record numbered (A : Type) := {
  n_rows : list A;
  n_total : Z;
  n_page : float;
  n_totalPages : Z
}.
Arguments n_rows {A} _.
Arguments n_total {A} _.
Arguments n_page {A} _.
Arguments n_totalPages {A} _.

(** The tail of a paged listing: the range goes to the store as it was
    computed, an error of the store gives 500, and the rows and the count
    of the store are sent otherwise. *)
Definition paged {A B} (shape : A -> B) (failed : string) (store : fetch)
    (kept : list A) (page : option float) : reply (numbered B) :=
  let r := store A kept (fst (asked page)) (snd (asked page)) in
  match error r with
  | Some _ => Failure 500 failed
  | None =>
      Json 200
        {| n_rows := map shape (match data r with Some l => l | None => [] end);
           n_total := count r;
           n_page := Number_page page;
           n_totalPages := Math_ceil_div (count r) pageSize |}
  end.

Section Routes.

Variable ilike : string -> string -> bool.
Variable store : fetch.

(** The paged branch of GET /api/students, for the filters of [q]. *)
Definition students (db : database) (uid : string) (q : Students.query)
    (page : option float) : reply (numbered student) :=
  paged (fun s => s) "Failed to fetch students." store
    (Students.matching ilike db uid q) page.

(** The paged branch of GET /api/courses. *)
Definition courses (db : database) (uid : string) (q : Courses.query)
    (page : option float) : reply (numbered course) :=
  paged (fun c => c) "Failed to fetch courses." store
    (Courses.matching ilike db uid q) page.

(** GET /api/enrollments. *)
Definition enrollments (db : database) (uid : string) (q : Enrollments.query)
    (page : option float) : reply (numbered Enrollments.flat) :=
  paged Enrollments.flatten "Failed to fetch enrollments." store
    (Enrollments.matching ilike db uid q) page.

End Routes.

(** The double of a whole number. *)
Definition whole (n : Z) : float :=
  SF2Prim (binary_normalize prec emax n 0 false).

(** The rows and the total of a reply; an error carries none. *)
Definition sent {B} (r : reply (numbered B)) : option (list B * Z) :=
  match r with
  | Json _ body => Some (n_rows body, n_total body)
  | Failure _ _ => None
  end.

(** The rows and the count of an answer of the store, the rows in the shape
    of the listing. *)
Definition answered {A B} (shape : A -> B) (r : result (list A))
  : option (list B * Z) :=
  match error r with
  | Some _ => None
  | None =>
      Some (map shape (match data r with Some l => l | None => [] end), count r)
  end.

(** Two stores for the examples. [by_position] reads every range as
    [Store.range] reads those of the pages from 1 on: the rows whose
    zero-based position lies between the two ends. *)
Fixpoint at_positions {A} (i from to : float) (rows : list A) : list A :=
  match rows with
  | [] => []
  | r :: rest =>
      if (from <=? i)%float && (i <=? to)%float
      then r :: at_positions (i + 1)%float from to rest
      else at_positions (i + 1)%float from to rest
  end.

Definition by_position : fetch :=
  fun A kept from to =>
    {| data := Some (at_positions 0%float from to kept);
       error := None;
       count := Z.of_nat (List.length kept) |}.

(** [refusing] turns away a range that starts below zero, as a database
    turns away a negative OFFSET, and reads the others by position. *)
Definition refusing : fetch :=
  fun A kept from to =>
    if (from <? 0)%float
    then {| data := None;
            error := Some "OFFSET must not be negative";
            count := 0 |}
    else by_position A kept from to.

End Listing.

(** ** Vocabulary of the properties *)

Module Contract.
Import JS Store.

(** An update of a student leaves the row apart from the properties the
    body carries. *)
Definition student_kept (b : Students.body) (s s' : student) : Prop :=
  s_id s' = s_id s /\ s_user_id s' = s_user_id s
  /\ s_created_at s' = s_created_at s
  /\ (defined (Students.name b) = false -> s_name s' = s_name s)
  /\ (defined (Students.email b) = false -> s_email s' = s_email s)
  /\ (defined (Students.course_ b) = false -> s_course s' = s_course s).

Definition course_kept (b : Courses.body) (c c' : course) : Prop :=
  c_id c' = c_id c /\ c_user_id c' = c_user_id c
  /\ c_created_at c' = c_created_at c
  /\ (defined (Courses.code b) = false -> c_code c' = c_code c)
  /\ (defined (Courses.name b) = false -> c_name c' = c_name c)
  /\ (defined (Courses.credits b) = false -> c_credits c' = c_credits c)
  /\ (defined (Courses.department_ b) = false ->
      c_department c' = c_department c).

Definition enrollment_kept (b : Enrollments.body) (e e' : enrollment) : Prop :=
  e_id e' = e_id e /\ e_student_id e' = e_student_id e
  /\ e_course_id e' = e_course_id e /\ e_user_id e' = e_user_id e
  /\ e_enrolled_at e' = e_enrolled_at e
  /\ (defined (Enrollments.grade__ b) = false -> e_grade e' = e_grade e)
  /\ (defined (Enrollments.status__ b) = false -> e_status e' = e_status e)
  /\ (defined (Enrollments.semester__ b) = false ->
      e_semester e' = e_semester e).

(** A text field of the export: the text between two double quotes, as it
    is. *)
Definition quoted (s : string) : string := dquote ++ s ++ dquote.

(** The export: the header, then a line feed and a line for every record. *)
Definition blob (header : string) (lines : list string) : string :=
  header ++ String.concat EmptyString (map (fun l => newline ++ l) lines).

Definition student_fields (s : student) : list string :=
  [ decimal (s_id s); quoted (s_name s); quoted (s_email s);
    quoted (s_course s); quoted (s_created_at s) ].

Definition enrollment_fields (j : Enrollments.joined) : list string :=
  [ decimal (e_id (Enrollments.of_enrollment j));
    quoted (s_name (Enrollments.of_student j));
    quoted (s_email (Enrollments.of_student j));
    quoted (c_code (Enrollments.of_course j));
    quoted (c_name (Enrollments.of_course j));
    decimal (c_credits (Enrollments.of_course j));
    quoted (match e_grade (Enrollments.of_enrollment j) with
            | Some g => g
            | None => EmptyString
            end);
    quoted (e_semester (Enrollments.of_enrollment j));
    quoted (e_status (Enrollments.of_enrollment j));
    quoted (e_enrolled_at (Enrollments.of_enrollment j)) ].

(** The rows of the two exports, in ascending order of [id]. *)
Definition exported_students (db : database) (uid : string) : list student :=
  sort_by (fun a b => s_id a <=? s_id b)
    (filter (fun s => (s_user_id s =? uid)%string) (students db)).

Definition exported_enrollments (db : database) (uid : string)
  : list Enrollments.joined :=
  sort_by (fun a b => e_id (Enrollments.of_enrollment a)
                      <=? e_id (Enrollments.of_enrollment b))
    (Enrollments.joined_rows db uid).

End Contract.

(** ** Sample data *)

Module Sample.
Import JS Store.

Definition tenant : string := "11111111-1111-1111-1111-111111111111".

Definition a_student (i : Z) : student :=
  {| s_id := i; s_name := "Student " ++ decimal i;
     s_email := "s" ++ decimal i ++ "@university.edu";
     s_course := "Computer Science"; s_created_at := "2024-01-01";
     s_user_id := tenant |}.

Definition a_course (i : Z) : course :=
  {| c_id := i; c_code := "CS" ++ decimal (100 + i);
     c_name := "Course " ++ decimal i; c_credits := 3;
     c_department := "Computer Science"; c_user_id := tenant;
     c_created_at := "2024-01-01" |}.

Definition an_enrollment (i : Z) : enrollment :=
  {| e_id := i; e_student_id := i; e_course_id := i; e_grade := Some "B+";
     e_semester := "Fall 2024"; e_status := "completed"; e_user_id := tenant;
     e_enrolled_at := "2024-09-01" |}.

Definition upto (n : nat) : list Z := map Z.of_nat (seq 1 n).

(** A tenant with [n] students, [n] courses and [n] enrollments. *)
Definition campus (n : nat) : database :=
  {| students := map a_student (upto n);
     courses := map a_course (upto n);
     enrollments := map an_enrollment (upto n);
     enrollments_id_seq := Z.of_nat n + 1 |}.

(** [Number] on the numbers of a body; text is left out. *)
Definition number_of (v : value) : option Z :=
  match v with
  | Num n => Some n
  | _ => None
  end.

Definition anything (pattern text : string) : bool := true.

Definition students_page (p : Z) : Students.query :=
  {| Students.search := None; Students.course := None;
     Students.page := Some p; Students.all := None |}.

Definition courses_page (p : Z) : Courses.query :=
  {| Courses.search := None; Courses.department := None;
     Courses.page := Some p; Courses.all := None |}.

Definition enrollments_page (p : Z) : Enrollments.query :=
  {| Enrollments.search := None; Enrollments.semester_ := None;
     Enrollments.grade_ := None; Enrollments.status_ := None;
     Enrollments.page := Some p |}.

(** Student 1 in course 2 for Fall 2024. *)
Definition enroll_1_2 : Enrollments.new_body :=
  {| Enrollments.new_student_id := Num 1;
     Enrollments.new_course_id := Num 2;
     Enrollments.new_semester := Str "Fall 2024";
     Enrollments.new_grade := Null;
     Enrollments.new_status := Str "enrolled" |}.

Definition enrolled_1_2 : enrollment :=
  {| e_id := 3; e_student_id := 1; e_course_id := 2; e_grade := None;
     e_semester := "Fall 2024"; e_status := "enrolled"; e_user_id := tenant;
     e_enrolled_at := "2024-09-01" |}.

(** A body that carries an empty grade and nothing else. *)
Definition clear_grade : Enrollments.body :=
  {| Enrollments.grade__ := Str EmptyString;
     Enrollments.status__ := Undefined;
     Enrollments.semester__ := Undefined |}.

(** Student 1 in course 1 for two semesters. *)
Definition two_semesters : database :=
  {| students := [a_student 1];
     courses := [a_course 1];
     enrollments :=
       [ an_enrollment 1;
         {| e_id := 2; e_student_id := 1; e_course_id := 1; e_grade := Some "A";
            e_semester := "Spring 2025"; e_status := "completed";
            e_user_id := tenant; e_enrolled_at := "2025-01-15" |} ];
     enrollments_id_seq := 3 |}.

(** A body that clears the grade and moves the row to Fall 2024. *)
Definition to_fall_2024 : Enrollments.body :=
  {| Enrollments.grade__ := Str EmptyString;
     Enrollments.status__ := Undefined;
     Enrollments.semester__ := Str "Fall 2024" |}.

(** The tenant owns course 1 and enrollment 1; student 1 belongs to another
    tenant. *)
Definition shared_number : database :=
  {| students :=
       [ {| s_id := 1; s_name := "Grace"; s_email := "grace@college.edu";
            s_course := "Physics"; s_created_at := "2024-01-01";
            s_user_id := "22222222-2222-2222-2222-222222222222" |} ];
     courses := [a_course 1];
     enrollments := [an_enrollment 1];
     enrollments_id_seq := 2 |}.

(** A row without its grade. *)
Definition cleared (e : enrollment) : enrollment :=
  {| e_id := e_id e; e_student_id := e_student_id e;
     e_course_id := e_course_id e; e_grade := None;
     e_semester := e_semester e; e_status := e_status e;
     e_user_id := e_user_id e; e_enrolled_at := e_enrolled_at e |}.

End Sample.

(** ** Authentication: the middleware and the two public routes *)

Module Auth.
Import JS Store.

(** [String.prototype.split] with a one-character separator. *)
Fixpoint split (sep : ascii) (s : string) : list string :=
  match s with
  | EmptyString => [EmptyString]
  | String c rest =>
      if Ascii.eqb c sep then EmptyString :: split sep rest
      else match split sep rest with
           | part :: parts => String c part :: parts
           | [] => [String c EmptyString]
           end
  end.

(** [authHeader.split(' ')[1]]. *)
Definition token_of (authHeader : string) : option string :=
  nth_error (split " " authHeader) 1.

Definition not_authenticated : string := "Not authenticated. Please log in.".
Definition invalid_token : string := "Invalid or expired token.".

Section Middleware.

(** The user of the identity provider, and [auth.getUser(token)]: the user,
    or [None] when the provider reports an error or no user. *)
Variable user : Type.
Variable getUser : string -> option user.
Variable A : Type.

(** [requireAuth]: [next] stands for the handler behind the middleware,
    run with [req.user]. *)
Definition requireAuth (authorization : option string)
    (next : user -> reply A) : reply A :=
  match authorization with
  | None => Failure 401 not_authenticated
  | Some authHeader =>
      if negb (truthy_string authHeader) || negb (prefix "Bearer " authHeader)
      then Failure 401 not_authenticated
      else
        match token_of authHeader with
        | Some token =>
            match getUser token with
            | Some u => next u
            | None => Failure 401 invalid_token
            end
        | None => Failure 401 invalid_token
        end
  end.

End Middleware.

(** [req.body] of the two public routes. *)
Record credentials := { email : value; password : value }.

(** [{ message, session }]. *)
Record signed (S : Type) := { greeting : string; session : S }.
Arguments greeting {S} _.
Arguments session {S} _.

(** [password.length < 6]: the length of a string; any other truthy value
    has no [length], and [undefined < 6] is false. *)
Definition shorter_than_6 (v : value) : bool :=
  match v with
  | Str s => (String.length s <? 6)%nat
  | _ => false
  end.

Section Public.

(** The session type of the provider, and its two calls: the message of
    the error, or [data.session]. *)
Variable S : Type.
Variable signUp : value -> value -> string + S.
Variable signInWithPassword : value -> value -> string + S.

(** POST /api/auth/signup. *)
Definition signup (b : credentials) : reply (signed S) :=
  if negb (truthy (email b)) || negb (truthy (password b))
  then Failure 400 "Email and password are required."
  else if shorter_than_6 (password b)
  then Failure 400 "Password must be at least 6 characters."
  else
    match signUp (email b) (password b) with
    | inl msg => Failure 400 msg
    | inr s =>
        Json 201 {| greeting := "Account created successfully!"; session := s |}
    end.

(** POST /api/auth/login. *)
Definition login (b : credentials) : reply (signed S) :=
  if negb (truthy (email b)) || negb (truthy (password b))
  then Failure 400 "Email and password are required."
  else
    match signInWithPassword (email b) (password b) with
    | inl msg => Failure 400 msg
    | inr s => Json 200 {| greeting := "Login successful!"; session := s |}
    end.

End Public.
End Auth.

(** ** Creating and deleting rows, and clearing a tenant *)

Module Rows.
Import JS Store.

Definition primary_key_violation : string :=
  "duplicate key value violates unique constraint".

Section Routes.

Variable Number : value -> option Z.

(** POST /api/students. [next_id] and [now] are the identifier and the
    time stamp that the store gives the new row; an identifier that the
    table already holds is refused by the primary key. *)
Definition post_student (db : database) (uid : string) (next_id : Z)
    (now : string) (b : Students.body)
  : database * reply (changed student) :=
  if negb (truthy (Students.name b)) || negb (truthy (Students.email b))
     || negb (truthy (Students.course_ b))
  then (db, Failure 400 "All fields are required.")
  else if existsb (fun s => s_id s =? next_id) (students db)
  then (db, Failure 500 "Failed to add student.")
  else
    let s := {| s_id := next_id;
                s_name := text_of (Students.name b);
                s_email := text_of (Students.email b);
                s_course := text_of (Students.course_ b);
                s_created_at := now;
                s_user_id := uid |} in
    ({| students := students db ++ [s];
        courses := courses db;
        enrollments := enrollments db;
        enrollments_id_seq := enrollments_id_seq db |},
     Json 201 {| message := "Student added successfully!"; row := Some s |}).

(** POST /api/courses, with [credits: Number(credits)]. *)
Definition post_course (db : database) (uid : string) (next_id : Z)
    (now : string) (b : Courses.body)
  : database * reply (changed course) :=
  if negb (truthy (Courses.code b)) || negb (truthy (Courses.name b))
     || negb (truthy (Courses.credits b))
     || negb (truthy (Courses.department_ b))
  then (db, Failure 400 "All fields are required.")
  else
    match Number (Courses.credits b) with
    | None => (db, Failure 500 "Failed to add course.")
    | Some n =>
        if existsb (fun c => c_id c =? next_id) (courses db)
        then (db, Failure 500 "Failed to add course.")
        else
          let c := {| c_id := next_id;
                      c_code := text_of (Courses.code b);
                      c_name := text_of (Courses.name b);
                      c_credits := n;
                      c_department := text_of (Courses.department_ b);
                      c_user_id := uid;
                      c_created_at := now |} in
          ({| students := students db;
              courses := courses db ++ [c];
              enrollments := enrollments db;
              enrollments_id_seq := enrollments_id_seq db |},
           Json 201 {| message := "Course added successfully!"; row := Some c |})
    end.

End Routes.

(** DELETE /api/students/:id. The enrollments that refer to the student go
    with it ([student_id ... ON DELETE CASCADE]). *)
Definition delete_student (db : database) (uid : string) (id : Z)
  : database * reply string :=
  match single (filter (Students.targets uid id) (students db)) with
  | None => (db, Failure 404 "Student not found.")
  | Some _ =>
      ({| students :=
            filter (fun s => negb (Students.targets uid id s)) (students db);
          courses := courses db;
          enrollments :=
            filter (fun e => negb (e_student_id e =? id)) (enrollments db);
          enrollments_id_seq := enrollments_id_seq db |},
       Json 200 "Student deleted successfully!")
  end.

(** DELETE /api/courses/:id, with [course_id ... ON DELETE CASCADE]. *)
Definition delete_course (db : database) (uid : string) (id : Z)
  : database * reply string :=
  match single (filter (Courses.targets uid id) (courses db)) with
  | None => (db, Failure 404 "Course not found.")
  | Some _ =>
      ({| students := students db;
          courses :=
            filter (fun c => negb (Courses.targets uid id c)) (courses db);
          enrollments :=
            filter (fun e => negb (e_course_id e =? id)) (enrollments db);
          enrollments_id_seq := enrollments_id_seq db |},
       Json 200 "Course deleted successfully!")
  end.

(** DELETE /api/enrollments/:id. *)
Definition delete_enrollment (db : database) (uid : string) (id : Z)
  : database * reply string :=
  match single (filter (Enrollments.targets uid id) (enrollments db)) with
  | None => (db, Failure 404 "Enrollment not found.")
  | Some _ =>
      ({| students := students db;
          courses := courses db;
          enrollments :=
            filter (fun e => negb (Enrollments.targets uid id e))
              (enrollments db);
          enrollments_id_seq := enrollments_id_seq db |},
       Json 200 "Enrollment deleted successfully!")
  end.

Definition owned_student_ids (db : database) (uid : string) : list Z :=
  map s_id (filter (fun s => (s_user_id s =? uid)%string) (students db)).

Definition owned_course_ids (db : database) (uid : string) : list Z :=
  map c_id (filter (fun c => (c_user_id c =? uid)%string) (courses db)).

Definition mem (z : Z) (l : list Z) : bool := existsb (Z.eqb z) l.

(** POST /api/clear: the three deletes in the order of the handler, each
    with the cascade of the table's foreign keys; their outcomes are not
    looked at. *)
Definition clear (db : database) (uid : string) : database * reply string :=
  let enrollments1 :=
    filter (fun e => negb (e_user_id e =? uid)%string) (enrollments db) in
  let enrollments2 :=
    filter (fun e => negb (mem (e_course_id e) (owned_course_ids db uid)))
      enrollments1 in
  let enrollments3 :=
    filter (fun e => negb (mem (e_student_id e) (owned_student_ids db uid)))
      enrollments2 in
  ({| students :=
        filter (fun s => negb (s_user_id s =? uid)%string) (students db);
      courses :=
        filter (fun c => negb (c_user_id c =? uid)%string) (courses db);
      enrollments := enrollments3;
      enrollments_id_seq := enrollments_id_seq db |},
   Json 200 "All data cleared successfully.").

End Rows.

(** ** The other aggregations of GET /api/dashboard and of GET /api/stats *)

Module Analytics.
Import JS Dashboard.

(** [counts[key] = (counts[key] || 0) + 1] over the keys in order, from
    the empty object: the loop of [coursePopularity], [departmentCounts]
    and [courseCounts]. *)
Definition tally (keys : list string) : list (string * bucket) :=
  fold_left bump keys [].

(** The rows of [select('courses!inner(code, name)')]. *)
Record course_label := { code : string; name : string }.

Definition coursePopularity (courseEnrollments : option (list course_label))
  : list (string * bucket) :=
  tally (map code (match courseEnrollments with Some l => l | None => [] end)).

(** Over the rows of [select('department')] of [courses]. *)
Definition departmentCounts (allCourses : option (list string))
  : list (string * bucket) :=
  tally (match allCourses with Some l => l | None => [] end).

(** GET /api/stats: over the rows of [select('course')] of [students]. *)
Definition courseCounts (allStudents : option (list string))
  : list (string * bucket) :=
  match allStudents with
  | Some l => tally l
  | None => []
  end.

(** A value of [statusCounts]: a number, or the NaN that [++] makes of an
    inherited member. *)
Inductive counter :=
| Counted (n : N)
| NotANumber.

(** [{ enrolled: 0, completed: 0, dropped: 0 }]. *)
Definition no_status : list (string * counter) :=
  [ ("enrolled", Counted 0); ("completed", Counted 0); ("dropped", Counted 0) ].

(** [if (statusCounts[s] !== undefined) statusCounts[s]++]. *)
Definition count_status (c : list (string * counter)) (s : string)
  : list (string * counter) :=
  match get c s with
  | Absent => c
  | Own (Counted n) => set c s (Counted (n + 1))
  | Own NotANumber => set c s NotANumber
  | Proto => if (s =? "__proto__")%string then c else set c s NotANumber
  end.

Definition statusCounts (allEnrollments : option (list enrollment_row))
  : list (string * counter) :=
  fold_left (fun c e => count_status c (status e))
    (match allEnrollments with Some l => l | None => [] end) no_status.

(** The rows of the select behind [recentActivity]. *)
Record recent_row := {
  r_grade : option string;
  r_semester : string;
  r_enrolled_at : string;
  r_student_name : string;
  r_course_code : string;
  r_course_name : string
}.

Record activity := {
  a_student : string;
  a_course : string;
  a_grade : string;
  a_semester : string;
  a_date : string
}.

(** The callback of [(recentEnrollments || []).map(...)]. *)
Definition as_activity (e : recent_row) : activity :=
  {| a_student := r_student_name e;
     a_course := r_course_code e ++ " — " ++ r_course_name e;
     a_grade := match r_grade e with
                | Some g => if truthy_string g then g else "Pending"
                | None => "Pending"
                end;
     a_semester := r_semester e;
     a_date := r_enrolled_at e |}.

Definition recentActivity (recentEnrollments : option (list recent_row))
  : list activity :=
  map as_activity (match recentEnrollments with Some l => l | None => [] end).

End Analytics.

(** ** The front end: paging buttons and the two text helpers of script.js *)

Module Client.
Import JS.

(** [`Bearer ${token}`] of [authHeaders]. *)
Definition authHeaders (token : string) : string := "Bearer " ++ token.

(** [stuTotalPages = data.totalPages || 1]. *)
Definition shown_pages (totalPages : Z) : Z :=
  if totalPages =? 0 then 1 else totalPages.

(** The body the three page buttons share: the new current page. *)
Definition changePage (currentPage totalPages delta : Z) : Z :=
  let moved := currentPage + delta in
  let raised := if moved <? 1 then 1 else moved in
  if totalPages <? raised then totalPages else raised.

Definition stuChangePage := changePage.
Definition crsChangePage := changePage.
Definition enrChangePage := changePage.

(** [s.replace(/c/g, by)] for a character [c]. *)
Fixpoint replace_all (c : ascii) (by_ : string) (s : string) : string :=
  match s with
  | EmptyString => EmptyString
  | String x rest =>
      if Ascii.eqb x c then by_ ++ replace_all c by_ rest
      else String x (replace_all c by_ rest)
  end.

Definition backslash : string := String (ascii_of_nat 92) EmptyString.
Definition quote : string := String (ascii_of_nat 39) EmptyString.

(** [escapeAttr]. *)
Definition escapeAttr (text : option string) : string :=
  match text with
  | None => EmptyString
  | Some t =>
      if truthy_string t
      then replace_all (ascii_of_nat 34) "&quot;"
             (replace_all (ascii_of_nat 39) (backslash ++ quote) t)
      else EmptyString
  end.

(** [toUpperCase] of one character in the range a to z; the other
    characters of the model are left, none of them has A, B, C, D or F for
    its upper case. *)
Definition upper (c : ascii) : ascii :=
  let n := nat_of_ascii c in
  if ((97 <=? n) && (n <=? 122))%nat then ascii_of_nat (n - 32) else c.

(** [getGradeLetter]. *)
Definition getGradeLetter (grade : option string) : string :=
  match grade with
  | Some (String c _) =>
      let letter := upper c in
      if Ascii.eqb letter "A" then "a"
      else if Ascii.eqb letter "B" then "b"
      else if Ascii.eqb letter "C" then "c"
      else if Ascii.eqb letter "D" then "d"
      else if Ascii.eqb letter "F" then "f"
      else "pending"
  | _ => "pending"
  end.

End Client.

(** ** Walking through the pages of a listing *)

Module Paging.
Import JS Store.

(** The rows of an answer; a failure carries none. *)
Definition page_rows {A} (r : reply (page_of A)) : list A :=
  match r with
  | Json _ body => rows body
  | Failure _ _ => []
  end.

(** The page numbers 1 to [n]. *)
Definition pages (n : Z) : list Z := map Z.of_nat (seq 1 (Z.to_nat n)).

(** The same query for another page. *)
Definition students_at (q : Students.query) (p : Z) : Students.query :=
  {| Students.search := Students.search q;
     Students.course := Students.course q;
     Students.page := Some p;
     Students.all := Students.all q |}.

Definition courses_at (q : Courses.query) (p : Z) : Courses.query :=
  {| Courses.search := Courses.search q;
     Courses.department := Courses.department q;
     Courses.page := Some p;
     Courses.all := Courses.all q |}.

Definition enrollments_at (q : Enrollments.query) (p : Z) : Enrollments.query :=
  {| Enrollments.search := Enrollments.search q;
     Enrollments.semester_ := Enrollments.semester_ q;
     Enrollments.grade_ := Enrollments.grade_ q;
     Enrollments.status_ := Enrollments.status_ q;
     Enrollments.page := Some p |}.

(** The triples of the unique constraint of [enrollments]. *)
Definition triple (e : enrollment) : Z * Z * string :=
  (e_student_id e, e_course_id e, e_semester e).

(** No (student, course, semester) occurs twice in the table of
    enrollments. *)
Definition unique_triples (db : database) : Prop :=
  NoDup (map triple (enrollments db)).

End Paging.

(** ** Vocabulary of the further properties *)

Module Words.

(** The character [c] occurs in [s]. *)
Fixpoint occurs (c : ascii) (s : string) : bool :=
  match s with
  | EmptyString => false
  | String x rest => Ascii.eqb x c || occurs c rest
  end.

(** The number of rows with a given status, grade or key. *)
Definition with_status (s : string) (es : list Dashboard.enrollment_row) : N :=
  N.of_nat (List.length (filter (fun e => (Dashboard.status e =? s)%string) es)).

Definition with_grade (g : string) (es : list Dashboard.enrollment_row) : N :=
  N.of_nat
    (List.length
       (filter (fun e => match Dashboard.grade e with
                         | Some g' => (g' =? g)%string
                         | None => false
                         end) es)).

Definition times (k : string) (keys : list string) : N :=
  N.of_nat (List.length (filter (String.eqb k) keys)).

(** The grades that the loop of the dashboard counts, in the order of the
    rows. *)
Definition counted_grades (es : list Dashboard.enrollment_row) : list string :=
  flat_map (fun e => match Dashboard.grade e with
                     | Some g => if Dashboard.counted e then [g] else []
                     | None => []
                     end) es.

(** What a tally holds for a key that occurs [n] times. *)
Definition held (n : N) : option Dashboard.bucket :=
  if (n =? 0)%N then None else Some (Dashboard.Count n).

End Words.

(** ** The rows of a tenant and of the others *)

Module Tenancy.
Import JS Store.

Definition other_students (uid : string) (db : database) : list student :=
  filter (fun s => negb (s_user_id s =? uid)%string) (students db).

Definition other_courses (uid : string) (db : database) : list course :=
  filter (fun c => negb (c_user_id c =? uid)%string) (courses db).

Definition other_enrollments (uid : string) (db : database) : list enrollment :=
  filter (fun e => negb (e_user_id e =? uid)%string) (enrollments db).

(** The students and courses of the other tenants are the same in both
    databases. *)
Definition others_kept (uid : string) (db db' : database) : Prop :=
  other_students uid db' = other_students uid db
  /\ other_courses uid db' = other_courses uid db.

(** The enrollments that the enrollment export is to hold: those of the
    tenant whose student and whose course are rows of the tenant. *)
Definition with_own_rows (db : database) (uid : string) (e : enrollment) : bool :=
  (e_user_id e =? uid)%string
  && existsb (fun s => (s_id s =? e_student_id e) && (s_user_id s =? uid)%string)
       (students db)
  && existsb (fun c => (c_id c =? e_course_id e) && (c_user_id c =? uid)%string)
       (courses db).

(** A query without search and without filter. *)
Definition plain_students (q : Students.query) : Prop :=
  given (Students.search q) = false /\ given (Students.course q) = false.

Definition plain_courses (q : Courses.query) : Prop :=
  given (Courses.search q) = false /\ given (Courses.department q) = false.

End Tenancy.

(** * Properties *)

(** ** The JavaScript operations on known inputs *)

Section JSExamples.
Import JS.

Example toFixed2_rounds_the_double :
  toFixed2 1.005 = Some "1.00" /\ toFixed2 0.125 = Some "0.13"
  /\ toFixed2 123456.789 = Some "123456.79" /\ toFixed2 3 = Some "3.00".
Proof. repeat split; vm_compute; reflexivity. Qed.

Example toFixed2_sign_and_specials :
  toFixed2 (-0.001) = Some "-0.00" /\ toFixed2 (-0) = Some "0.00"
  /\ toFixed2 nan = Some "NaN" /\ toFixed2 infinity = Some "Infinity"
  /\ toFixed2 1e21 = None.
Proof. repeat split; vm_compute; reflexivity. Qed.

Example includes_finds_a_word :
  includes "duplicate key value" "duplicate" = true
  /\ includes "violates foreign key constraint" "unique" = false.
Proof. split; reflexivity. Qed.

Example unique_sorted_orders_by_code_unit :
  unique_sorted [Some "b"; Some "B"; Some "a"; Some "b"; Some "10"; Some "9"]
  = [Some "10"; Some "9"; Some "B"; Some "a"; Some "b"].
Proof. reflexivity. Qed.

Example join_puts_the_separator_between :
  join "," ["a"; "b"; "c"] = "a,b,c" /\ join "," ["a"] = "a"
  /\ join "," [] = EmptyString.
Proof. repeat split. Qed.

End JSExamples.

(** ** Dashboard *)

Section DashboardFacts.
Import JS Dashboard GradeScale.
Open Scope float_scope.

Lemma scale_grade_not_empty g p : scale_points g = Some p -> truthy_string g = true.
Proof.
  destruct g as [|a g]; [discriminate|reflexivity].
Qed.

Lemma scale_grade_has_points g p :
  scale_points g = Some p -> has_points g = true /\ points g = p.
Proof.
  unfold scale_points, has_points, points, get. intros ->. split; reflexivity.
Qed.

Lemma plain_grade_points g :
  inherited g = false -> scale_points g = None -> has_points g = false.
Proof.
  unfold scale_points, has_points, get. intros -> ->. reflexivity.
Qed.

(** Away from the inherited names the handler's test is membership in the
    Grade Scale. *)
Lemma counted_recognized e : plain_grade e -> counted e = recognized e.
Proof.
  unfold plain_grade, counted, recognized.
  destruct (grade e) as [g|]; [|reflexivity].
  intros Hg. destruct (scale_points g) as [p|] eqn:Hs.
  - rewrite (scale_grade_not_empty _ _ Hs).
    now destruct (scale_grade_has_points _ _ Hs) as [-> _].
  - rewrite (plain_grade_points _ Hg Hs). apply andb_false_r.
Qed.

Lemma visit_counted t e :
  counted e = true ->
  exists g, grade e = Some g /\
    visit t e =
      {| totalCredits := totalCredits t + credits_or_3 e;
         totalGradePoints := totalGradePoints t + points g * credits_or_3 e;
         gradeDistribution := bump (gradeDistribution t) g |}.
Proof.
  unfold counted, visit. destruct (grade e) as [g|]; [|discriminate].
  intros ->. now exists g.
Qed.

Lemma visit_skipped t e : counted e = false -> visit t e = t.
Proof.
  unfold counted, visit. destruct (grade e) as [g|]; [|reflexivity].
  now intros ->.
Qed.

Lemma row_points_recognized e g :
  grade e = Some g -> recognized e = true -> points g = row_points e.
Proof.
  unfold recognized, row_points. intros ->.
  destruct (scale_points g) as [p|] eqn:Hs; [|discriminate].
  intros _. apply (scale_grade_has_points _ _ Hs).
Qed.

(** The loop adds, to whatever the accumulators hold, the contributions of
    the recognized rows in list order. *)
Lemma fold_visit_sums es : Forall plain_grade es -> forall t,
  totalCredits (fold_left visit es t)
    = fold_left add (map credits_or_3 (filter recognized es)) (totalCredits t)
  /\ totalGradePoints (fold_left visit es t)
    = fold_left add
        (map (fun e => row_points e * credits_or_3 e) (filter recognized es))
        (totalGradePoints t).
Proof.
  induction 1 as [|e es He _ IH]; intros t; [split; reflexivity|].
  cbn [fold_left filter]. rewrite <- (counted_recognized e He).
  destruct (counted e) eqn:Hc.
  - destruct (visit_counted t e Hc) as (g & Hg & ->).
    rewrite (counted_recognized e He) in Hc.
    cbn [map fold_left]. rewrite <- (row_points_recognized e g Hg Hc).
    apply IH.
  - rewrite (visit_skipped t e Hc). apply IH.
Qed.

Lemma gpa_weighted es : Forall plain_grade es -> gpa (Some es) = weighted_gpa es.
Proof.
  intros H. unfold gpa, gpa_of, weighted_gpa, aggregate, sum.
  destruct (fold_visit_sums es H start) as [-> ->]. reflexivity.
Qed.

Lemma fold_visit_skipped es t :
  Forall (fun e => counted e = false) es -> fold_left visit es t = t.
Proof.
  induction 1 as [|e es He _ IH]; [reflexivity|].
  cbn [fold_left]. now rewrite (visit_skipped t e He).
Qed.

(** With no row whose grade is in the Grade Scale or names an inherited
    member, the GPA is the "no data" marker. *)
Lemma gpa_no_data es :
  Forall plain_grade es -> Forall (fun e => recognized e = false) es ->
  gpa (Some es) = Some no_data.
Proof.
  intros Hp Hr. unfold gpa, aggregate.
  rewrite fold_visit_skipped; [reflexivity|].
  rewrite Forall_forall in *. intros e He.
  rewrite counted_recognized; auto.
Qed.

Lemma gpa_no_rows : gpa None = Some no_data /\ gpa (Some []) = Some no_data.
Proof. split; reflexivity. Qed.

(** *** Rounding of [toFixed(2)] *)

(** For a magnitude [m * 2^e] with a negative exponent, [hundredths] is
    within one half of a hundredth: [n - 1/2 <= 100 * m * 2^e < n + 1/2]. *)
Lemma hundredths_nearest m e : (e < 0)%Z ->
  let n := hundredths m e in
  (2 ^ (- e) * (2 * n - 1) <= 200 * Z.pos m < 2 ^ (- e) * (2 * n + 1))%Z.
Proof.
  intros He n. subst n. unfold hundredths.
  destruct (0 <=? e)%Z eqn:E; [apply Z.leb_le in E; lia|].
  replace (1 - e)%Z with (Z.succ (- e)) by lia.
  rewrite Z.pow_succ_r by lia.
  set (p := (2 ^ (- e))%Z).
  assert (Hp : (0 < p)%Z) by (apply Z.pow_pos_nonneg; lia).
  set (a := (200 * Z.pos m + p)%Z).
  pose proof (Z.div_mod a (2 * p) ltac:(lia)) as Hd.
  pose proof (Z.mod_pos_bound a (2 * p) ltac:(lia)) as Hm.
  nia.
Qed.

Lemma hundredths_exact m e : (0 <= e)%Z ->
  hundredths m e = (100 * (Z.pos m * 2 ^ e))%Z.
Proof.
  intros He. unfold hundredths. apply Z.leb_le in He. now rewrite He.
Qed.

(** *** Grade distribution *)

Lemma own_set_same {A} (d : list (string * A)) k v : own (set d k v) k = Some v.
Proof.
  induction d as [|[k' v'] d IH]; cbn.
  - now rewrite String.eqb_refl.
  - destruct (k' =? k)%string eqn:E; cbn; now rewrite E.
Qed.

Lemma count_sum_set_new d k n :
  own d k = None -> count_sum (set d k (Count n)) = (count_sum d + n)%N.
Proof.
  induction d as [|[k' v'] d IH]; cbn; intros H.
  - lia.
  - destruct (k' =? k)%string; [discriminate|].
    cbn. rewrite (IH H). destruct v'; lia.
Qed.

Lemma count_sum_set_count d k n n' :
  own d k = Some (Count n) ->
  (count_sum (set d k (Count n')) + n = count_sum d + n')%N.
Proof.
  induction d as [|[k' v'] d IH]; cbn; intros H; [discriminate|].
  destruct (k' =? k)%string.
  - injection H as ->. cbn. lia.
  - cbn. specialize (IH H). destruct v'; lia.
Qed.

Lemma is_count_set d k n :
  Forall is_count d -> Forall is_count (set d k (Count n)).
Proof.
  induction 1 as [|[k' v'] d Hx Hd IH]; cbn.
  - repeat constructor.
  - destruct (k' =? k)%string; constructor; auto; exact I.
Qed.

Lemma own_is_count d k v : Forall is_count d -> own d k = Some v -> exists n, v = Count n.
Proof.
  induction 1 as [|[k' v'] d Hx _ IH]; cbn; [discriminate|].
  destruct (k' =? k)%string; auto.
  intros [= <-]. unfold is_count in Hx. cbn in Hx.
  destruct v'; [eauto|contradiction].
Qed.

(** A grade that is no inherited name adds one to the sum of the counts. *)
Lemma bump_plain d g :
  inherited g = false -> Forall is_count d ->
  Forall is_count (bump d g) /\ count_sum (bump d g) = (count_sum d + 1)%N.
Proof.
  intros Hg Hd. unfold bump, get. rewrite Hg.
  destruct (own d g) as [v|] eqn:Ho.
  - destruct (own_is_count d g v Hd Ho) as [n ->]. split.
    + now apply is_count_set.
    + pose proof (count_sum_set_count d g n (n + 1) Ho). lia.
  - split.
    + now apply is_count_set.
    + now apply count_sum_set_new.
Qed.

Lemma fold_visit_counts es : Forall plain_grade es -> forall t,
  Forall is_count (gradeDistribution t) ->
  Forall is_count (gradeDistribution (fold_left visit es t))
  /\ count_sum (gradeDistribution (fold_left visit es t))
     = (count_sum (gradeDistribution t)
        + N.of_nat (List.length (filter recognized es)))%N.
Proof.
  induction 1 as [|e es He _ IH]; intros t Ht; cbn [fold_left filter].
  - split; [assumption|cbn; lia].
  - rewrite <- (counted_recognized e He). destruct (counted e) eqn:Hc.
    + destruct (visit_counted t e Hc) as (g & Hg & ->).
      assert (Hi : inherited g = false)
        by (unfold plain_grade in He; now rewrite Hg in He).
      destruct (bump_plain (gradeDistribution t) g Hi Ht) as [Hb Hs].
      set (t' := {| totalCredits := _ |}).
      destruct (IH t' Hb) as [IH1 IH2]. split; [exact IH1|].
      rewrite IH2. subst t'. cbn [gradeDistribution List.length].
      rewrite Hs. lia.
    + rewrite (visit_skipped t e Hc). apply IH, Ht.
Qed.

(** On lists free of inherited names the counts add up to the number of
    rows whose grade is in the Grade Scale. *)
Lemma distribution_counts es : Forall plain_grade es ->
  count_sum (gradeDistribution (aggregate (Some es)))
  = N.of_nat (List.length (filter recognized es)).
Proof.
  intros H. unfold aggregate.
  destruct (fold_visit_counts es H start (Forall_nil _)) as [_ ->].
  reflexivity.
Qed.

End DashboardFacts.

Section DashboardClaims.
Import JS Dashboard GradeScale.
Open Scope float_scope.

Lemma credits_or_3_present e c x :
  courses e = Some c -> credits c = Some x -> truthy_number x = true ->
  credits_or_3 e = x.
Proof.
  unfold credits_or_3. now intros -> -> ->.
Qed.

(** C1, as the handler computes it. For every list of rows whose grades are
    not names inherited from [Object.prototype], the loop sums, over exactly
    the rows whose grade is one of the 13 entries of the Grade Scale and in
    list order, the credits of the row into [totalCredits] and
    [points * credits] into [totalGradePoints], each row on its own; the
    credits of a row are those of its course, and 3 when the course is absent
    or its credits are missing, zero or NaN. The GPA is [toFixed(2)] of the
    quotient when [totalCredits > 0] and the marker otherwise. One row with
    grade A and 3 credits and one with grade C and 3 credits give 3.00. *)
Theorem gpa_weighted_by_credits (es : list enrollment_row)
    (Hplain : Forall plain_grade es) :
  let rows := filter recognized es in
  totalCredits (aggregate (Some es)) = sum (map credits_or_3 rows)
  /\ totalGradePoints (aggregate (Some es))
     = sum (map (fun e => row_points e * credits_or_3 e) rows)
  /\ gpa (Some es) = weighted_gpa es
  /\ (forall e c x, courses e = Some c -> credits c = Some x ->
        truthy_number x = true -> credits_or_3 e = x)
  /\ gpa (Some [graded "A" 3; graded "C" 3]) = Some "3.00".
Proof.
  cbv zeta. unfold aggregate, sum.
  destruct (fold_visit_sums es Hplain start) as [Hc Hp].
  repeat split.
  - exact Hc.
  - exact Hp.
  - now apply gpa_weighted.
  - exact credits_or_3_present.
Qed.

Lemma gpa_weighted_by_credits_witness :
  Forall plain_grade [graded "A-" 3; graded "F" 17]
  /\ gpa (Some [graded "A-" 3; graded "F" 17])
     = weighted_gpa [graded "A-" 3; graded "F" 17].
Proof.
  assert (H : Forall plain_grade [graded "A-" 3; graded "F" 17])
    by (repeat constructor).
  split; [exact H|].
  exact (proj1 (proj2 (proj2 (gpa_weighted_by_credits _ H)))).
Defined.

(** C1 as stated fails: with the credit hours of the course taken as they
    are, a grade A on a course of 0 credits next to a grade F on a course of
    3 credits would give 0.00; the handler counts 3 credits for the first
    row and answers 2.00. *)
Lemma gpa_zero_credits_counted_as_three :
  let es := [graded "A" 0; graded "F" 3] in
  stated_gpa es = Some "0.00"
  /\ gpa (Some es) = Some "2.00"
  /\ gpa (Some es) <> stated_gpa es.
Proof.
  cbv zeta. repeat split; try (vm_compute; reflexivity).
  vm_compute. discriminate.
Qed.

(** C2 at a grade that names a member of [Object.prototype]: no row of the
    list has a grade of the Grade Scale, yet the row is counted with NaN
    points and the GPA is the text NaN, not the marker. *)
Theorem gpa_of_inherited_grade_name :
  let es := [graded "constructor" 3] in
  Forall (fun e => recognized e = false) es
  /\ totalCredits (aggregate (Some es)) = 3
  /\ gpa (Some es) = Some "NaN"
  /\ gpa (Some es) <> Some no_data.
Proof.
  cbv zeta. repeat split.
  - repeat constructor.
  - vm_compute. discriminate.
Qed.

(** C3 at the same grade: the distribution gets a bucket for a grade that
    the Grade Scale does not hold, and the bucket holds text, not a count. *)
Theorem distribution_of_inherited_grade_name :
  let es := [graded "toString" 3; graded "zzz" 3] in
  filter recognized es = []
  /\ gradeDistribution (aggregate (Some es)) = [("toString", Text 1)].
Proof.
  cbv zeta. split; reflexivity.
Qed.

(** C10. A row whose grade is in the Grade Scale and whose course is absent,
    or whose credits are missing or zero, adds 3 to [totalCredits] and
    [points * 3] to [totalGradePoints]. *)
Theorem missing_credits_count_as_three (t : totals) (e : enrollment_row)
    (g : string) (p : float)
    (Hgrade : grade e = Some g) (Hscale : scale_points g = Some p)
    (Hlacks : lacks_credits e) :
  totalCredits (visit t e) = totalCredits t + 3
  /\ totalGradePoints (visit t e) = totalGradePoints t + p * 3
  /\ gradeDistribution (visit t e) = bump (gradeDistribution t) g.
Proof.
  assert (Hc : credits_or_3 e = 3).
  { unfold lacks_credits in Hlacks. unfold credits_or_3.
    destruct (courses e) as [c|]; [|reflexivity].
    destruct (credits c) as [x|]; [|reflexivity].
    unfold truthy_number. now rewrite Hlacks. }
  unfold visit. rewrite Hgrade, (scale_grade_not_empty _ _ Hscale).
  destruct (scale_grade_has_points _ _ Hscale) as [-> ->].
  cbn. rewrite Hc. repeat split.
Qed.

Lemma missing_credits_count_as_three_witness :
  let e := {| grade := Some "B+"; status := "enrolled";
              courses := Some {| credits := Some 0 |} |} in
  totalCredits (visit start e) = 0 + 3
  /\ totalGradePoints (visit start e) = 0 + 3.3 * 3
  /\ gradeDistribution (visit start e) = bump [] "B+".
Proof.
  exact (missing_credits_count_as_three start
           {| grade := Some "B+"; status := "enrolled";
              courses := Some {| credits := Some 0 |} |}
           "B+" 3.3 eq_refl eq_refl eq_refl).
Defined.

End DashboardClaims.

(** ** Paged listings *)

Section ListingFacts.
Import JS Store.

Lemma range_from_beyond {A} (rows : list A) i from to :
  i + Z.of_nat (List.length rows) <= from -> range_from i from to rows = [].
Proof.
  revert i. induction rows as [|r rows IH]; intros i H; [reflexivity|].
  cbn [range_from]. cbn [List.length] in H.
  replace (from <=? i) with false by (symmetry; apply Z.leb_gt; lia).
  cbn. apply IH. lia.
Qed.

Lemma range_from_before {A} (rows : list A) i from to :
  to < i -> range_from i from to rows = [].
Proof.
  revert i. induction rows as [|r rows IH]; intros i H; [reflexivity|].
  cbn [range_from].
  replace (i <=? to) with false by (symmetry; apply Z.leb_gt; lia).
  rewrite andb_false_r. apply IH. lia.
Qed.

(** [Math_ceil_div n 10] is the ceiling of [n / 10]. *)
Lemma ceil_of_tenths n :
  10 * (Math_ceil_div n pageSize - 1) < n <= 10 * Math_ceil_div n pageSize.
Proof.
  unfold Math_ceil_div, pageSize.
  pose proof (Z.div_mod (- n) 10 ltac:(lia)).
  pose proof (Z.mod_pos_bound (- n) 10 ltac:(lia)). lia.
Qed.

Lemma beyond_last_page n p :
  Math_ceil_div n pageSize < p -> n <= (p - 1) * pageSize.
Proof.
  pose proof (ceil_of_tenths n). unfold pageSize in *. lia.
Qed.

(** What the three paged listings answer, given the rows the filters keep
    in the order of the listing. *)
Lemma paged_reply_select {A B} (shape : A -> B) failed (kept : list A) p :
  paged_reply shape failed
    (select_range kept (offset p) (offset p + pageSize - 1)) p
  = Json 200
      {| rows := map shape (range (offset p) (offset p + pageSize - 1) kept);
         total := Z.of_nat (List.length kept);
         page := page_number p;
         totalPages := Math_ceil_div (Z.of_nat (List.length kept)) pageSize |}.
Proof. reflexivity. Qed.

Lemma rows_beyond_last {A} (kept : list A) p :
  Math_ceil_div (Z.of_nat (List.length kept)) pageSize < page_number p ->
  range (offset p) (offset p + pageSize - 1) kept = [].
Proof.
  intros H. apply range_from_beyond. unfold offset.
  apply beyond_last_page in H. lia.
Qed.

Lemma last_position p : (p - 1) * 10 + 9 = (p - 1) * pageSize + pageSize - 1.
Proof. unfold pageSize. lia. Qed.

End ListingFacts.

Section ListingClaims.
Import JS Store.

Variable ilike : string -> string -> bool.

(** C4. Each of the three paged listings answers, for [n] rows that the
    filters keep, with the rows at the positions [(page - 1) * 10] to
    [(page - 1) * 10 + 9] of the listing, with [total = n] and with
    [totalPages = ceil(n / 10)]; a page beyond the last one has no rows, no
    error, and the same [total]. With 25 rows there are 3 pages and page 4
    is empty with [total = 25]. *)
Theorem page_beyond_last_is_empty (db : database) (uid : string) :
  (forall q,
     let n := Z.of_nat (List.length (Students.matching ilike db uid q)) in
     let p := page_number (Students.page q) in
     let found := range ((p - 1) * 10) ((p - 1) * 10 + 9)
                    (Students.matching ilike db uid q) in
     Students.paged ilike db uid q
     = Json 200 {| rows := found; total := n; page := p;
                   totalPages := Math_ceil_div n 10 |}
     /\ 10 * (Math_ceil_div n 10 - 1) < n <= 10 * Math_ceil_div n 10
     /\ (Math_ceil_div n 10 < p -> found = []))
  /\ (forall q,
     let n := Z.of_nat (List.length (Courses.matching ilike db uid q)) in
     let p := page_number (Courses.page q) in
     let found := range ((p - 1) * 10) ((p - 1) * 10 + 9)
                    (Courses.matching ilike db uid q) in
     Courses.paged ilike db uid q
     = Json 200 {| rows := found; total := n; page := p;
                   totalPages := Math_ceil_div n 10 |}
     /\ 10 * (Math_ceil_div n 10 - 1) < n <= 10 * Math_ceil_div n 10
     /\ (Math_ceil_div n 10 < p -> found = []))
  /\ (forall q,
     let n := Z.of_nat (List.length (Enrollments.matching ilike db uid q)) in
     let p := page_number (Enrollments.page q) in
     let found := range ((p - 1) * 10) ((p - 1) * 10 + 9)
                    (Enrollments.matching ilike db uid q) in
     Enrollments.get ilike db uid q
     = Json 200 {| rows := map Enrollments.flatten found; total := n;
                   page := p; totalPages := Math_ceil_div n 10 |}
     /\ 10 * (Math_ceil_div n 10 - 1) < n <= 10 * Math_ceil_div n 10
     /\ (Math_ceil_div n 10 < p -> found = []))
  /\ Students.paged Sample.anything (Sample.campus 25) Sample.tenant
       (Sample.students_page 4)
     = Json 200 {| rows := []; total := 25; page := 4; totalPages := 3 |}.
Proof.
  split; [|split; [|split; [|reflexivity]]]; intros q n p found.
  - subst found. rewrite (last_position p).
    split; [|split; [apply ceil_of_tenths|]].
    + unfold Students.paged. rewrite paged_reply_select, map_id. reflexivity.
    + intros H. exact (rows_beyond_last _ (Students.page q) H).
  - subst found. rewrite (last_position p).
    split; [|split; [apply ceil_of_tenths|]].
    + unfold Courses.paged. rewrite paged_reply_select, map_id. reflexivity.
    + intros H. exact (rows_beyond_last _ (Courses.page q) H).
  - subst found. rewrite (last_position p).
    split; [|split; [apply ceil_of_tenths|]].
    + unfold Enrollments.get. rewrite paged_reply_select. reflexivity.
    + intros H. exact (rows_beyond_last _ (Enrollments.page q) H).
Qed.

(** C9, as the handlers behave. No listing compares the page with 1. For
    any page, also one below 1 or between two whole numbers, the handler
    asks the store for the range from [(Number(page) - 1) * 10] to that
    plus 9, as computed: -10 to -1 for page 0, -5 to 4 for page 0.5, -20 to
    -11 for page -1, where page 1 and a missing page ask 0 to 9. It answers
    with what the store returns for that range: 500 on an error of the
    store, else the rows and the count of the store, with
    [page = Number(page)]. So the rows and the total are those of page 1
    exactly when the store answers the range asked as it answers 0 to 9. *)
Theorem page_below_one_is_asked_of_the_store (store : Listing.fetch)
    (db : database) (uid : string) (qs : Students.query) (qc : Courses.query)
    (qe : Enrollments.query) (page : option float) :
  let from := ((Listing.Number_page page - 1) * 10)%float in
  let to := (from + 10 - 1)%float in
  (let r := store _ (Students.matching ilike db uid qs) from to in
   let first := store _ (Students.matching ilike db uid qs) 0%float 9%float in
   Listing.students ilike store db uid qs page
   = match error r with
     | Some _ => Failure 500 "Failed to fetch students."
     | None =>
         Json 200
           {| Listing.n_rows := match data r with Some l => l | None => [] end;
              Listing.n_total := count r;
              Listing.n_page := Listing.Number_page page;
              Listing.n_totalPages := Math_ceil_div (count r) 10 |}
     end
   /\ (Listing.sent (Listing.students ilike store db uid qs page)
       = Listing.sent (Listing.students ilike store db uid qs (Some 1%float))
       <-> Listing.answered (fun s => s) r
           = Listing.answered (fun s => s) first))
  /\ (let r := store _ (Courses.matching ilike db uid qc) from to in
      let first := store _ (Courses.matching ilike db uid qc) 0%float 9%float in
      Listing.courses ilike store db uid qc page
      = match error r with
        | Some _ => Failure 500 "Failed to fetch courses."
        | None =>
            Json 200
              {| Listing.n_rows :=
                   match data r with Some l => l | None => [] end;
                 Listing.n_total := count r;
                 Listing.n_page := Listing.Number_page page;
                 Listing.n_totalPages := Math_ceil_div (count r) 10 |}
        end
      /\ (Listing.sent (Listing.courses ilike store db uid qc page)
          = Listing.sent (Listing.courses ilike store db uid qc (Some 1%float))
          <-> Listing.answered (fun c => c) r
              = Listing.answered (fun c => c) first))
  /\ (let r := store _ (Enrollments.matching ilike db uid qe) from to in
      let first :=
        store _ (Enrollments.matching ilike db uid qe) 0%float 9%float in
      Listing.enrollments ilike store db uid qe page
      = match error r with
        | Some _ => Failure 500 "Failed to fetch enrollments."
        | None =>
            Json 200
              {| Listing.n_rows :=
                   map Enrollments.flatten
                     (match data r with Some l => l | None => [] end);
                 Listing.n_total := count r;
                 Listing.n_page := Listing.Number_page page;
                 Listing.n_totalPages := Math_ceil_div (count r) 10 |}
        end
      /\ (Listing.sent (Listing.enrollments ilike store db uid qe page)
          = Listing.sent
              (Listing.enrollments ilike store db uid qe (Some 1%float))
          <-> Listing.answered Enrollments.flatten r
              = Listing.answered Enrollments.flatten first))
  /\ Listing.asked page = (from, to)
  /\ Listing.asked (Some 1%float) = (0%float, 9%float)
  /\ Listing.asked None = (0%float, 9%float)
  /\ Listing.asked (Some 0%float) = ((-10)%float, (-1)%float)
  /\ Listing.asked (Some 0.5%float) = ((-5)%float, 4%float)
  /\ Listing.asked (Some (-1)%float) = ((-20)%float, (-11)%float).
Proof.
  cbv zeta.
  assert (Hsent : forall A B (shape : A -> B) failed (kept : list A) p,
            Listing.sent (Listing.paged shape failed store kept p)
            = Listing.answered shape
                (store A kept (fst (Listing.asked p)) (snd (Listing.asked p)))).
  { intros A B shape failed kept p. unfold Listing.paged, Listing.answered.
    now destruct (error _). }
  split; [|split; [|split; [|repeat split]]].
  - split.
    + unfold Listing.students, Listing.paged. cbn [Listing.asked fst snd].
      destruct (error _); [reflexivity|]. now rewrite map_id.
    + unfold Listing.students. rewrite !Hsent. reflexivity.
  - split.
    + unfold Listing.courses, Listing.paged. cbn [Listing.asked fst snd].
      destruct (error _); [reflexivity|]. now rewrite map_id.
    + unfold Listing.courses. rewrite !Hsent. reflexivity.
  - split.
    + unfold Listing.enrollments, Listing.paged. cbn [Listing.asked fst snd].
      reflexivity.
    + unfold Listing.enrollments. rewrite !Hsent. reflexivity.
Qed.

End ListingClaims.

Lemma page_beyond_last_is_empty_witness :
  Enrollments.get Sample.anything (Sample.campus 12) Sample.tenant
    (Sample.enrollments_page 3)
  = Store.Json 200 {| Store.rows := []; Store.total := 12;
                      Store.page := 3; Store.totalPages := 2 |}
  /\ Store.range 20 29
       (Enrollments.matching Sample.anything (Sample.campus 12) Sample.tenant
          (Sample.enrollments_page 3)) = [].
Proof.
  split; [vm_compute; reflexivity|].
  exact (proj2 (proj2
           (proj1 (proj2 (proj2
              (page_beyond_last_is_empty Sample.anything (Sample.campus 12)
                 Sample.tenant)))
              (Sample.enrollments_page 3)))
           eq_refl).
Defined.

(** C9 as stated fails, whichever way the store reads a range that starts
    below zero. With three students and a store that refuses such a range,
    page 0 is answered with status 500 and page 1 with the three rows; with
    a store that reads every range by position, page 0 is answered with no
    rows, and, with twelve students, page 0.5 with five rows where page 1
    has ten. *)
Lemma page_below_one_is_not_page_one :
  Listing.students Sample.anything Listing.refusing (Sample.campus 3)
    Sample.tenant (Sample.students_page 1) (Some 0%float)
  = Store.Failure 500 "Failed to fetch students."
  /\ Listing.students Sample.anything Listing.refusing (Sample.campus 3)
       Sample.tenant (Sample.students_page 1) (Some 1%float)
     = Store.Json 200
         {| Listing.n_rows :=
              [Sample.a_student 3; Sample.a_student 2; Sample.a_student 1];
            Listing.n_total := 3; Listing.n_page := 1%float;
            Listing.n_totalPages := 1 |}
  /\ Listing.enrollments Sample.anything Listing.refusing (Sample.campus 1)
       Sample.tenant (Sample.enrollments_page 1) (Some (-1)%float)
     = Store.Failure 500 "Failed to fetch enrollments."
  /\ Listing.enrollments Sample.anything Listing.refusing (Sample.campus 1)
       Sample.tenant (Sample.enrollments_page 1) (Some 1%float)
     = Store.Json 200
         {| Listing.n_rows :=
              [Enrollments.flatten
                 {| Enrollments.of_enrollment := Sample.an_enrollment 1;
                    Enrollments.of_student := Sample.a_student 1;
                    Enrollments.of_course := Sample.a_course 1 |}];
            Listing.n_total := 1; Listing.n_page := 1%float;
            Listing.n_totalPages := 1 |}
  /\ Listing.students Sample.anything Listing.by_position (Sample.campus 3)
       Sample.tenant (Sample.students_page 1) (Some 0%float)
     = Store.Json 200
         {| Listing.n_rows := []; Listing.n_total := 3;
            Listing.n_page := 0%float; Listing.n_totalPages := 1 |}
  /\ Listing.students Sample.anything Listing.by_position (Sample.campus 3)
       Sample.tenant (Sample.students_page 1) (Some 1%float)
     = Store.Json 200
         {| Listing.n_rows :=
              [Sample.a_student 3; Sample.a_student 2; Sample.a_student 1];
            Listing.n_total := 3; Listing.n_page := 1%float;
            Listing.n_totalPages := 1 |}
  /\ Listing.students Sample.anything Listing.by_position (Sample.campus 12)
       Sample.tenant (Sample.students_page 1) (Some 0.5%float)
     = Store.Json 200
         {| Listing.n_rows := map Sample.a_student [12; 11; 10; 9; 8];
            Listing.n_total := 12; Listing.n_page := 0.5%float;
            Listing.n_totalPages := 2 |}
  /\ Listing.students Sample.anything Listing.by_position (Sample.campus 12)
       Sample.tenant (Sample.students_page 1) (Some 1%float)
     = Store.Json 200
         {| Listing.n_rows :=
              map Sample.a_student [12; 11; 10; 9; 8; 7; 6; 5; 4; 3];
            Listing.n_total := 12; Listing.n_page := 1%float;
            Listing.n_totalPages := 2 |}.
Proof.
  repeat split; vm_compute; reflexivity.
Qed.

(** For the whole pages from -100 to 100 the range asked is the one of
    [Store.offset]: the arithmetic on doubles is exact there. The pages
    from -100 to 0 ask for a range that ends below zero. *)
Example whole_pages_ask_their_offsets :
  forallb (fun p =>
             PrimFloat.Leibniz.eqb
               (fst (Listing.asked (Some (Listing.whole p))))
               (Listing.whole (Store.offset (Some p)))
             && PrimFloat.Leibniz.eqb
                  (snd (Listing.asked (Some (Listing.whole p))))
                  (Listing.whole (Store.offset (Some p) + Store.pageSize - 1)))
    (map (fun n => Z.of_nat n - 100) (seq 0 201)) = true
  /\ forallb (fun p =>
                PrimFloat.ltb
                  (snd (Listing.asked (Some (Listing.whole p)))) 0)
       (map (fun n => Z.of_nat n - 100) (seq 0 101)) = true.
Proof. split; vm_compute; reflexivity. Qed.

(** On the pages from 1 on, read by position, the listing over any store
    sends the rows and the total of the paged branch. *)
Example listing_by_position_agrees :
  Listing.sent
    (Listing.students Sample.anything Listing.by_position (Sample.campus 25)
       Sample.tenant (Sample.students_page 3) (Some 3%float))
  = Some (Store.range 20 29
            (Students.matching Sample.anything (Sample.campus 25) Sample.tenant
               (Sample.students_page 3)), 25)
  /\ Students.paged Sample.anything (Sample.campus 25) Sample.tenant
       (Sample.students_page 3)
     = Store.Json 200
         {| Store.rows :=
              Store.range 20 29
                (Students.matching Sample.anything (Sample.campus 25)
                   Sample.tenant (Sample.students_page 3));
            Store.total := 25; Store.page := 3; Store.totalPages := 3 |}.
Proof. split; vm_compute; reflexivity. Qed.

(** ** Updates and the duplicate enrollment *)

Section MutationFacts.
Import JS Store Contract.

Lemma Forall2_same {A} (R : A -> A -> Prop) (l : list A) :
  (forall x, R x x) -> Forall2 R l l.
Proof. intros H. induction l; constructor; auto. Qed.

Lemma Forall2_map_r {A} (R : A -> A -> Prop) (f : A -> A) (l : list A) :
  (forall x, R x (f x)) -> Forall2 R l (map f l).
Proof. intros H. induction l; cbn; constructor; auto. Qed.

Lemma truthy_defined v : truthy v = true -> defined v = true.
Proof. destruct v; cbn; congruence. Qed.

Lemma student_kept_same b s : student_kept b s s.
Proof. repeat split. Qed.

Lemma course_kept_same b c : course_kept b c c.
Proof. repeat split. Qed.

Lemma enrollment_kept_same b e : enrollment_kept b e e.
Proof. repeat split. Qed.

Lemma student_update_kept uid id b s :
  defined (Students.name b) = true -> defined (Students.email b) = true ->
  defined (Students.course_ b) = true ->
  student_kept b s (Students.update uid id b s).
Proof.
  intros Hn He Hc. unfold Students.update.
  destruct (Students.targets uid id s); [|apply student_kept_same].
  unfold student_kept. cbn. rewrite Hn, He, Hc.
  repeat split; discriminate.
Qed.

Lemma course_update_kept uid id b n c :
  defined (Courses.code b) = true -> defined (Courses.name b) = true ->
  defined (Courses.credits b) = true ->
  defined (Courses.department_ b) = true ->
  course_kept b c (Courses.update uid id b n c).
Proof.
  intros H1 H2 H3 H4. unfold Courses.update.
  destruct (Courses.targets uid id c); [|apply course_kept_same].
  unfold course_kept. cbn. rewrite H1, H2, H3, H4.
  repeat split; discriminate.
Qed.

Lemma truthy_false_updates v :
  defined v = false -> truthy v = false.
Proof. destruct v; cbn; congruence. Qed.

Lemma enrollment_update_kept uid id b e :
  enrollment_kept b e (Enrollments.update uid id (Enrollments.updates_of b) e).
Proof.
  unfold Enrollments.update.
  destruct (Enrollments.targets uid id e); [|apply enrollment_kept_same].
  unfold enrollment_kept, Enrollments.updates_of. cbn.
  repeat split; intros H; try rewrite H;
    try rewrite (truthy_false_updates _ H); reflexivity.
Qed.

(** An empty or null grade in the body clears the grade of the row the
    update reaches. *)
Lemma enrollment_update_clears uid id b e :
  defined (Enrollments.grade__ b) = true ->
  truthy (Enrollments.grade__ b) = false ->
  Enrollments.targets uid id e = true ->
  e_grade (Enrollments.update uid id (Enrollments.updates_of b) e) = None.
Proof.
  intros Hd Ht Hr. unfold Enrollments.update, Enrollments.updates_of.
  rewrite Hr. cbn. now rewrite Hd, Ht.
Qed.

Lemma student_update_elsewhere uid id b s :
  Students.targets uid id s = false -> Students.update uid id b s = s.
Proof. intros H. unfold Students.update. now rewrite H. Qed.

Lemma course_update_elsewhere uid id b n c :
  Courses.targets uid id c = false -> Courses.update uid id b n c = c.
Proof. intros H. unfold Courses.update. now rewrite H. Qed.

Lemma enrollment_update_elsewhere uid id u e :
  Enrollments.targets uid id e = false -> Enrollments.update uid id u e = e.
Proof. intros H. unfold Enrollments.update. now rewrite H. Qed.

(** What the update writes into the row it reaches. *)
Lemma enrollment_update_stores uid id b e :
  Enrollments.targets uid id e = true ->
  let e' := Enrollments.update uid id (Enrollments.updates_of b) e in
  (truthy (Enrollments.grade__ b) = true ->
   e_grade e' = Some (text_of (Enrollments.grade__ b)))
  /\ (defined (Enrollments.grade__ b) = true ->
      truthy (Enrollments.grade__ b) = false -> e_grade e' = None)
  /\ (if truthy (Enrollments.status__ b)
      then e_status e' = text_of (Enrollments.status__ b)
      else e_status e' = e_status e)
  /\ (if truthy (Enrollments.semester__ b)
      then e_semester e' = text_of (Enrollments.semester__ b)
      else e_semester e' = e_semester e).
Proof.
  intros Hr. cbv zeta. unfold Enrollments.update, Enrollments.updates_of.
  rewrite Hr. cbn. repeat split.
  - intros Ht. now rewrite (truthy_defined _ Ht), Ht.
  - intros Hd Ht. now rewrite Hd, Ht.
  - now destruct (truthy (Enrollments.status__ b)).
  - now destruct (truthy (Enrollments.semester__ b)).
Qed.

Lemma single_In {A} (l : list A) x : single l = Some x -> In x l.
Proof.
  destruct l as [|y [|z l]]; cbn; try discriminate.
  intros [= ->]. now left.
Qed.

Lemma single_targets {A} (f : A -> bool) (l : list A) x :
  single (filter f l) = Some x -> f x = true.
Proof.
  intros H. apply single_In in H. now apply filter_In in H.
Qed.

Lemma unique_violation_is_duplicate :
  includes Enrollments.unique_violation "duplicate" = true.
Proof. reflexivity. Qed.

End MutationFacts.

(** A request that is turned away leaves every table as it was. *)
Ltac rejected :=
  cbn; repeat split; try discriminate;
  apply Forall2_same; intros; split;
  first [ apply student_kept_same | apply course_kept_same
        | apply enrollment_kept_same | reflexivity ].

Section MutationClaims.
Import JS Store Contract.

Variable Number : value -> option Z.

(** C5. Whatever the request, an update of a student, of a course or of an
    enrollment leaves every row other than the one it addresses as it was,
    leaves the other tables alone, and changes in the addressed row only
    properties that the body carries: a property left out of the body keeps
    its value, as do the identifier, the owner, the references and the time
    stamps. A request that is answered with an error (400, 404, 500, the
    last one also when the store refuses a semester that repeats another
    enrollment) writes nothing. An update of a student or of a course that
    is carried out had every field in the body and stores them all. An
    update of an enrollment that is carried out stores the grade, the
    status and the semester that the body carries with a value; a status or
    a semester carried empty is kept as it was, and a grade that is carried
    but empty (or null) is stored as no grade. *)
Theorem update_keeps_omitted_fields (db : database) (uid : string) (id : Z)
    (bs : Students.body) (bc : Courses.body) (be : Enrollments.body) :
  (let db' := fst (Students.put db uid id bs) in
   Forall2 (fun s s' => student_kept bs s s'
                        /\ (Students.targets uid id s = false -> s' = s))
     (students db) (students db')
   /\ courses db' = courses db /\ enrollments db' = enrollments db
   /\ (forall status error,
         snd (Students.put db uid id bs) = Failure status error -> db' = db)
   /\ (forall status body,
         snd (Students.put db uid id bs) = Json status body ->
         Forall2 (fun s s' => Students.targets uid id s = true ->
                    s_name s' = text_of (Students.name bs)
                    /\ s_email s' = text_of (Students.email bs)
                    /\ s_course s' = text_of (Students.course_ bs))
           (students db) (students db')))
  /\ (let db' := fst (Courses.put Number db uid id bc) in
      Forall2 (fun c c' => course_kept bc c c'
                           /\ (Courses.targets uid id c = false -> c' = c))
        (courses db) (courses db')
      /\ students db' = students db /\ enrollments db' = enrollments db
      /\ (forall status error,
            snd (Courses.put Number db uid id bc) = Failure status error ->
            db' = db)
      /\ (forall status body,
            snd (Courses.put Number db uid id bc) = Json status body ->
            Forall2 (fun c c' => Courses.targets uid id c = true ->
                       c_code c' = text_of (Courses.code bc)
                       /\ c_name c' = text_of (Courses.name bc)
                       /\ Number (Courses.credits bc) = Some (c_credits c')
                       /\ c_department c' = text_of (Courses.department_ bc))
              (courses db) (courses db')))
  /\ (let db' := fst (Enrollments.put db uid id be) in
      Forall2 (fun e e' => enrollment_kept be e e'
                           /\ (Enrollments.targets uid id e = false -> e' = e))
        (enrollments db) (enrollments db')
      /\ students db' = students db /\ courses db' = courses db
      /\ (forall status error,
            snd (Enrollments.put db uid id be) = Failure status error ->
            db' = db)
      /\ (forall status body,
            snd (Enrollments.put db uid id be) = Json status body ->
            Forall2 (fun e e' => Enrollments.targets uid id e = true ->
                       (truthy (Enrollments.grade__ be) = true ->
                        e_grade e' = Some (text_of (Enrollments.grade__ be)))
                       /\ (defined (Enrollments.grade__ be) = true ->
                           truthy (Enrollments.grade__ be) = false ->
                           e_grade e' = None)
                       /\ (if truthy (Enrollments.status__ be)
                           then e_status e' = text_of (Enrollments.status__ be)
                           else e_status e' = e_status e)
                       /\ (if truthy (Enrollments.semester__ be)
                           then e_semester e'
                                = text_of (Enrollments.semester__ be)
                           else e_semester e' = e_semester e))
              (enrollments db) (enrollments db'))).
Proof.
  cbv zeta. split; [|split].
  - unfold Students.put.
    destruct (truthy (Students.name bs)) eqn:Hn; [|rejected].
    destruct (truthy (Students.email bs)) eqn:He; [|rejected].
    destruct (truthy (Students.course_ bs)) eqn:Hc; [|rejected].
    cbn [negb orb]. destruct (single _); [|rejected].
    cbn. repeat split; try discriminate.
    + apply Forall2_map_r. intros x. split.
      * apply student_update_kept; now apply truthy_defined.
      * apply student_update_elsewhere.
    + intros _ _ _. apply Forall2_map_r. intros x Hx.
      unfold Students.update. rewrite Hx. cbn. auto.
  - unfold Courses.put.
    destruct (truthy (Courses.code bc)) eqn:H1; [|rejected].
    destruct (truthy (Courses.name bc)) eqn:H2; [|rejected].
    destruct (truthy (Courses.credits bc)) eqn:H3; [|rejected].
    destruct (truthy (Courses.department_ bc)) eqn:H4; [|rejected].
    cbn [negb orb]. destruct (single _); [|rejected].
    destruct (Number (Courses.credits bc)) as [n|] eqn:Hnumber; [|rejected].
    cbn. repeat split; try discriminate.
    + apply Forall2_map_r. intros x. split.
      * apply course_update_kept; now apply truthy_defined.
      * apply course_update_elsewhere.
    + intros _ _ _. apply Forall2_map_r. intros x Hx.
      unfold Courses.update. rewrite Hx. cbn. auto.
  - unfold Enrollments.put.
    destruct (single _) as [e0|] eqn:Hsingle; [|rejected].
    destruct (Enrollments.repeats _ _ _); [rejected|].
    cbn. repeat split; try discriminate.
    + apply Forall2_map_r. intros x. split.
      * apply enrollment_update_kept.
      * apply enrollment_update_elsewhere.
    + intros _ _ _. apply Forall2_map_r. intros x Hx.
      apply (enrollment_update_stores uid id be x Hx).
Qed.

(** C6. A create request that carries the three required fields and whose
    student, course and semester are those of an enrollment the table
    holds is refused with status 400 and the "already enrolled" message,
    and the database is as it was. *)
Theorem duplicate_enrollment_refused (db : database) (uid now : string)
    (b : Enrollments.new_body) (sid cid : Z) (e : enrollment)
    (Hstudent : truthy (Enrollments.new_student_id b) = true)
    (Hcourse : truthy (Enrollments.new_course_id b) = true)
    (Hsemester : truthy (Enrollments.new_semester b) = true)
    (Hsid : Number (Enrollments.new_student_id b) = Some sid)
    (Hcid : Number (Enrollments.new_course_id b) = Some cid)
    (Hheld : In e (enrollments db))
    (Hsame : e_student_id e = sid /\ e_course_id e = cid
             /\ e_semester e = text_of (Enrollments.new_semester b)) :
  Enrollments.post Number db uid now b
  = (db, Failure 400
           "Student is already enrolled in this course for this semester.").
Proof.
  unfold Enrollments.post. rewrite Hstudent, Hcourse, Hsemester. cbn [negb orb].
  unfold Enrollments.insert. rewrite Hsid, Hcid.
  assert (Hex : existsb
                  (Enrollments.same_triple sid cid
                     (text_of (Enrollments.new_semester b)))
                  (enrollments db) = true).
  { apply existsb_exists. exists e. split; [exact Hheld|].
    destruct Hsame as (H1 & H2 & H3). unfold Enrollments.same_triple.
    rewrite H1, H2, H3, !Z.eqb_refl, String.eqb_refl. reflexivity. }
  rewrite Hex. cbn [error]. rewrite unique_violation_is_duplicate.
  reflexivity.
Qed.

End MutationClaims.

(** Enrollment 2 of the sample, graded B+, updated with an empty grade. *)
Lemma update_keeps_omitted_fields_witness :
  Store.e_grade (Sample.an_enrollment 2) = Some "B+"
  /\ snd (Enrollments.put (Sample.campus 2) Sample.tenant 2 Sample.clear_grade)
     = Store.Json 200
         {| Store.message := "Enrollment updated successfully!";
            Store.row := Some (Sample.cleared (Sample.an_enrollment 2)) |}
  /\ Forall2 (fun e e' => Enrollments.targets Sample.tenant 2 e = true ->
                          Store.e_grade e' = None)
       (Store.enrollments (Sample.campus 2))
       (Store.enrollments
          (fst (Enrollments.put (Sample.campus 2) Sample.tenant 2
                  Sample.clear_grade)))
  /\ Forall2 (fun e e' => Enrollments.targets Sample.tenant 2 e = false ->
                          e' = e)
       (Store.enrollments (Sample.campus 2))
       (Store.enrollments
          (fst (Enrollments.put (Sample.campus 2) Sample.tenant 2
                  Sample.clear_grade))).
Proof.
  pose proof (update_keeps_omitted_fields Sample.number_of (Sample.campus 2)
                Sample.tenant 2
                {| Students.name := JS.Str "Ada"; Students.email := JS.Undefined;
                   Students.course_ := JS.Undefined |}
                {| Courses.code := JS.Undefined; Courses.name := JS.Undefined;
                   Courses.credits := JS.Num 4;
                   Courses.department_ := JS.Undefined |}
                Sample.clear_grade) as (_ & _ & Hkept & _ & _ & _ & Hstored).
  split; [reflexivity|]. split; [reflexivity|]. split.
  - refine (Forall2_impl _ _ (Hstored 200 _ eq_refl)).
    intros e e' H Hr. exact (proj1 (proj2 (H Hr)) eq_refl eq_refl).
  - refine (Forall2_impl _ _ Hkept).
    intros e e' H. exact (proj2 H).
Defined.

(** A semester that repeats the student, course and semester of another
    row is refused by the store: 500, and nothing is written. *)
Example update_repeating_a_semester_is_refused :
  Enrollments.put Sample.two_semesters Sample.tenant 2 Sample.to_fall_2024
  = (Sample.two_semesters, Store.Failure 500 "Failed to update enrollment.")
  /\ snd (Enrollments.put Sample.two_semesters Sample.tenant 1
            Sample.to_fall_2024)
     = Store.Json 200
         {| Store.message := "Enrollment updated successfully!";
            Store.row := Some (Sample.cleared (Sample.an_enrollment 1)) |}.
Proof. split; reflexivity. Qed.

(** The example of the specification: student 1, course 2, Fall 2024,
    created twice. *)
Lemma duplicate_enrollment_refused_witness :
  let first := Enrollments.post Sample.number_of (Sample.campus 2)
                 Sample.tenant "2024-09-01" Sample.enroll_1_2 in
  snd first
  = Store.Json 201 {| Store.message := "Student enrolled successfully!";
                      Store.row := Some Sample.enrolled_1_2 |}
  /\ In Sample.enrolled_1_2 (Store.enrollments (fst first))
  /\ Enrollments.post Sample.number_of (fst first) Sample.tenant "2024-09-02"
       Sample.enroll_1_2
     = (fst first,
        Store.Failure 400
          "Student is already enrolled in this course for this semester.").
Proof.
  cbv zeta.
  assert (Hin : In Sample.enrolled_1_2
                  (Store.enrollments
                     (fst (Enrollments.post Sample.number_of (Sample.campus 2)
                             Sample.tenant "2024-09-01" Sample.enroll_1_2)))).
  { vm_compute. right. right. left. reflexivity. }
  split; [vm_compute; reflexivity|]. split; [exact Hin|].
  exact (duplicate_enrollment_refused Sample.number_of _ Sample.tenant
           "2024-09-02" Sample.enroll_1_2 1 2 Sample.enrolled_1_2
           eq_refl eq_refl eq_refl eq_refl eq_refl Hin
           (conj eq_refl (conj eq_refl eq_refl))).
Defined.

(** ** Distinct values for the filters *)

Section DistinctFacts.
Import JS Store.

Lemma same_value_eq v w : same_value v w = true <-> v = w.
Proof.
  destruct v as [a|], w as [b|]; cbn; split; try congruence.
  - intros H. apply String.eqb_eq in H. now subst.
  - intros [= ->]. apply String.eqb_refl.
Qed.

Lemma seen_In v seen : existsb (same_value v) seen = true <-> In v seen.
Proof.
  rewrite existsb_exists. split.
  - intros (w & Hw & E). apply same_value_eq in E. now subst.
  - intros H. exists v. split; [exact H|]. now apply same_value_eq.
Qed.

Lemma set_values_In seen values v :
  In v (set_values seen values) <-> In v values /\ ~ In v seen.
Proof.
  revert seen. induction values as [|x values IH]; intros seen; cbn.
  - tauto.
  - destruct (existsb (same_value x) seen) eqn:E.
    + apply seen_In in E. rewrite IH. split.
      * tauto.
      * intros [[->|H] Hn]; tauto.
    + assert (Hx : ~ In x seen) by (rewrite <- seen_In, E; discriminate).
      cbn. rewrite IH. cbn. split.
      * intros [<-|[H Hn]]; tauto.
      * intros [[<-|H] Hn]; [tauto|].
        destruct (same_value x v) eqn:Ev.
        -- apply same_value_eq in Ev. tauto.
        -- right. split; [exact H|]. intros [->|Hs]; [|tauto].
           assert (same_value v v = true) by now apply same_value_eq.
           congruence.
Qed.

Lemma set_values_NoDup seen values : NoDup (set_values seen values).
Proof.
  revert seen. induction values as [|x values IH]; intros seen; cbn.
  - constructor.
  - destruct (existsb (same_value x) seen); [apply IH|].
    constructor; [|apply IH].
    rewrite set_values_In. cbn. tauto.
Qed.

Lemma insert_by_perm {A} (le : A -> A -> bool) x l :
  Permutation (insert_by le x l) (x :: l).
Proof.
  induction l as [|y l IH]; cbn; [reflexivity|].
  destruct (le x y); [reflexivity|].
  rewrite IH. apply perm_swap.
Qed.

Lemma sort_by_perm {A} (le : A -> A -> bool) l : Permutation (sort_by le l) l.
Proof.
  induction l as [|x l IH]; cbn; [reflexivity|].
  rewrite insert_by_perm. now constructor.
Qed.

Lemma insert_by_sorted {A} (le : A -> A -> bool) x l :
  (forall a b, le a b = true \/ le b a = true) ->
  Sorted (fun a b => le a b = true) l ->
  Sorted (fun a b => le a b = true) (insert_by le x l).
Proof.
  intros Htotal. induction 1 as [|y l Hl IH Hy]; cbn.
  - repeat constructor.
  - destruct (le x y) eqn:E.
    + constructor; [now constructor|now constructor].
    + constructor; [exact IH|].
      assert (Hyx : le y x = true) by (destruct (Htotal x y); congruence).
      destruct Hy as [|z l Hz]; cbn.
      * now constructor.
      * destruct (le x z); now constructor.
Qed.

Lemma sort_by_sorted {A} (le : A -> A -> bool) l :
  (forall a b, le a b = true \/ le b a = true) ->
  Sorted (fun a b => le a b = true) (sort_by le l).
Proof.
  intros Htotal. induction l as [|x l IH]; cbn; [constructor|].
  now apply insert_by_sorted.
Qed.

Lemma default_le_total a b : default_le a b = true \/ default_le b a = true.
Proof. apply String.leb_total. Qed.

Lemma unique_sorted_In values v : In v (unique_sorted values) <-> In v values.
Proof.
  unfold unique_sorted. split.
  - intros H. apply (Permutation_in _ (sort_by_perm _ _)) in H.
    now apply set_values_In in H.
  - intros H. apply (Permutation_in _ (Permutation_sym (sort_by_perm _ _))).
    apply set_values_In. cbn. tauto.
Qed.

Lemma unique_sorted_NoDup values : NoDup (unique_sorted values).
Proof.
  unfold unique_sorted.
  apply (Permutation_NoDup (Permutation_sym (sort_by_perm _ _))).
  apply set_values_NoDup.
Qed.

Lemma leb_distinct_ltb s t :
  String.leb s t = true -> s <> t -> String.ltb s t = true.
Proof.
  unfold String.leb, String.ltb. intros H Hne.
  destruct (String.compare s t) eqn:E; try reflexivity; try discriminate.
  apply String.compare_eq_iff in E. contradiction.
Qed.

(** A sorted list of distinct strings ascends strictly. *)
Lemma sorted_distinct_strict (l : list (option string)) :
  Forall (fun v => v <> None) l -> NoDup l ->
  Sorted (fun a b => default_le a b = true) l ->
  Sorted (fun a b => String.ltb (to_string a) (to_string b) = true) l.
Proof.
  intros Hsome Hnd Hs. induction Hs as [|a l Hl IH Ha]; [constructor|].
  inversion Hsome as [|? ? Ha_some Hl_some]; subst.
  inversion Hnd as [|? ? Hnotin Hnd']; subst.
  constructor; [now apply IH|].
  destruct Ha as [|b l Hab]; constructor.
  apply leb_distinct_ltb; [exact Hab|].
  inversion Hl_some as [|? ? Hb_some _]; subst.
  destruct a as [s|], b as [t|]; try contradiction. cbn.
  intros ->. apply Hnotin. now left.
Qed.

End DistinctFacts.

Section DistinctClaims.
Import JS Store.

(** Over any values fetched, each of the two listings is ascending in the
    order of the string forms, has no value twice and holds exactly the
    values that occur. *)
Lemma distinct_values_of_fetched (fetched : option (list (option string))) :
  (let l := Courses.departments_of fetched in
   Sorted (fun a b => default_le a b = true) l /\ NoDup l
   /\ forall v, In v l <->
        In v (match fetched with Some d => d | None => [] end))
  /\ Enrollments.semesters_of fetched = Courses.departments_of fetched.
Proof.
  cbv zeta. split; [|reflexivity].
  unfold Courses.departments_of. split; [|split].
  - apply sort_by_sorted, default_le_total.
  - apply unique_sorted_NoDup.
  - intros v. apply unique_sorted_In.
Qed.

(** The handlers themselves filter nothing: a fetched list that held
    [null] would be listed with it. The columns [department] and [semester]
    are NOT NULL, so the store hands no such list over. *)
Example distinct_values_of_fetched_null :
  Courses.departments_of
    (Some [Some "Math"; None; Some "Math"; Some "Art"])
  = [Some "Art"; Some "Math"; None]
  /\ Enrollments.semesters_of (Some [None; Some "Fall 2024"; None])
     = [Some "Fall 2024"; None].
Proof. split; reflexivity. Qed.

(** C7. For every tenant and every state of the tables, repeated values
    included, the list of departments and the list of semesters ascend
    strictly (so they are sorted ascending and hold no value twice), hold
    no null, and hold exactly the departments of the courses of that tenant
    and the semesters of the enrollments of that tenant. The columns
    [department] and [semester] are NOT NULL, so no state of the tables
    carries a null there. *)
Theorem distinct_values_sorted (db : database) (uid : string) :
  (let l := Courses.departments db uid in
   Sorted (fun a b => String.ltb (to_string a) (to_string b) = true) l
   /\ Sorted (fun a b => default_le a b = true) l
   /\ NoDup l
   /\ Forall (fun v => v <> None) l
   /\ forall v, In v l <->
        exists c, In c (courses db) /\ c_user_id c = uid
                  /\ v = Some (c_department c))
  /\ (let l := Enrollments.semesters db uid in
      Sorted (fun a b => String.ltb (to_string a) (to_string b) = true) l
      /\ Sorted (fun a b => default_le a b = true) l
      /\ NoDup l
      /\ Forall (fun v => v <> None) l
      /\ forall v, In v l <->
           exists e, In e (enrollments db) /\ e_user_id e = uid
                     /\ v = Some (e_semester e)).
Proof.
  cbv zeta. split.
  - unfold Courses.departments, Courses.departments_of. cbn [data select_all].
    assert (Hin : forall v,
      In v (unique_sorted
              (map (fun c => Some (c_department c))
                 (filter (fun c => (c_user_id c =? uid)%string) (courses db))))
      <-> exists c, In c (courses db) /\ c_user_id c = uid
                    /\ v = Some (c_department c)).
    { intros v. rewrite unique_sorted_In, in_map_iff. split.
      - intros (c & <- & Hc). apply filter_In in Hc. destruct Hc as [Hc Hu].
        apply String.eqb_eq in Hu. eauto.
      - intros (c & Hc & Hu & ->). exists c. split; [reflexivity|].
        apply filter_In. split; [exact Hc|]. now apply String.eqb_eq. }
    assert (Hsome : Forall (fun v : option string => v <> None)
              (unique_sorted
                 (map (fun c => Some (c_department c))
                    (filter (fun c => (c_user_id c =? uid)%string)
                       (courses db))))).
    { apply Forall_forall. intros v Hv. apply Hin in Hv.
      destruct Hv as (c & _ & _ & ->). discriminate. }
    repeat apply conj; try assumption.
    + apply sorted_distinct_strict.
      * exact Hsome.
      * apply unique_sorted_NoDup.
      * apply sort_by_sorted, default_le_total.
    + apply sort_by_sorted, default_le_total.
    + apply unique_sorted_NoDup.
  - unfold Enrollments.semesters, Enrollments.semesters_of.
    cbn [data select_all].
    assert (Hin : forall v,
      In v (unique_sorted
              (map (fun e => Some (e_semester e))
                 (filter (fun e => (e_user_id e =? uid)%string)
                    (enrollments db))))
      <-> exists e, In e (enrollments db) /\ e_user_id e = uid
                    /\ v = Some (e_semester e)).
    { intros v. rewrite unique_sorted_In, in_map_iff. split.
      - intros (e & <- & He). apply filter_In in He. destruct He as [He Hu].
        apply String.eqb_eq in Hu. eauto.
      - intros (e & He & Hu & ->). exists e. split; [reflexivity|].
        apply filter_In. split; [exact He|]. now apply String.eqb_eq. }
    assert (Hsome : Forall (fun v : option string => v <> None)
              (unique_sorted
                 (map (fun e => Some (e_semester e))
                    (filter (fun e => (e_user_id e =? uid)%string)
                       (enrollments db))))).
    { apply Forall_forall. intros v Hv. apply Hin in Hv.
      destruct Hv as (e & _ & _ & ->). discriminate. }
    repeat apply conj; try assumption.
    + apply sorted_distinct_strict.
      * exact Hsome.
      * apply unique_sorted_NoDup.
      * apply sort_by_sorted, default_le_total.
    + apply sort_by_sorted, default_le_total.
    + apply unique_sorted_NoDup.
Qed.

End DistinctClaims.

(** ** CSV exports *)

Section ExportFacts.
Import JS Store Contract.

Lemma append_assoc (a b c : string) : ((a ++ b) ++ c = a ++ (b ++ c))%string.
Proof. induction a as [|x a IH]; cbn; [reflexivity|now rewrite IH]. Qed.

Lemma append_empty_r (a : string) : (a ++ EmptyString = a)%string.
Proof. induction a as [|x a IH]; cbn; [reflexivity|now rewrite IH]. Qed.

Lemma length_append (a b : string) :
  String.length (a ++ b) = (String.length a + String.length b)%nat.
Proof. induction a as [|x a IH]; cbn; [reflexivity|now rewrite IH]. Qed.

(** Joining with line feeds is the header, then a line feed before every
    line. *)
Lemma join_newline_blob header lines :
  join newline (header :: lines) = blob header lines.
Proof.
  unfold blob. revert header. induction lines as [|l lines IH]; intros header.
  - cbn. now rewrite append_empty_r.
  - change (join newline (header :: l :: lines))
      with (header ++ newline ++ join newline (l :: lines))%string.
    rewrite IH. cbn [map String.concat].
    destruct lines as [|l' lines].
    + cbn. now rewrite !append_empty_r.
    + cbn [map String.concat]. cbn [append]. rewrite !append_assoc.
      reflexivity.
Qed.

Lemma student_line s : Students.export_line s = join "," (student_fields s).
Proof.
  unfold Students.export_line, student_fields, quoted. cbn [join].
  rewrite !append_assoc. reflexivity.
Qed.

Lemma grade_or_empty (g : option string) :
  match g with
  | Some t => if truthy_string t then t else EmptyString
  | None => EmptyString
  end
  = match g with Some t => t | None => EmptyString end.
Proof. destruct g as [[|x t]|]; reflexivity. Qed.

Lemma enrollment_line j :
  Enrollments.export_line j = join "," (enrollment_fields j).
Proof.
  unfold Enrollments.export_line, enrollment_fields, quoted. cbn [join].
  rewrite grade_or_empty, !append_assoc. reflexivity.
Qed.

End ExportFacts.

Section ExportClaims.
Import JS Store Contract.

(** C8. Each export is one text: the literal header, then a line feed and
    a line for every record in order, the fields of a line joined by
    commas. A text field is the text as it is between two double quotes,
    embedded quotes and commas included; the identifier and the credit
    hours are decimal numbers without quotes; an absent grade is two double
    quotes with nothing between. *)
Theorem export_is_quoted_csv (db : database) (uid : string) :
  Students.export db uid
  = blob "ID,Name,Email,Course,Created At"
      (map (fun s => join "," (student_fields s)) (exported_students db uid))
  /\ Enrollments.export db uid
     = blob "ID,Student Name,Student Email,Course Code,Course Name,Credits,Grade,Semester,Status,Enrolled At"
         (map (fun j => join "," (enrollment_fields j))
            (exported_enrollments db uid))
  /\ (forall text, quoted text = (dquote ++ text ++ dquote)%string
                   /\ String.length (quoted text) = (String.length text + 2)%nat)
  /\ (forall j, e_grade (Enrollments.of_enrollment j) = None ->
        nth 6 (enrollment_fields j) EmptyString = (dquote ++ dquote)%string)
  /\ (forall j, nth 5 (enrollment_fields j) EmptyString
                = decimal (c_credits (Enrollments.of_course j)))
  /\ Students.export_line
       {| s_id := 1; s_name := "A, B"; s_email := "a@b.com"; s_course := "CS";
          s_created_at := "2024-01-01"; s_user_id := uid |}
     = ("1," ++ dquote ++ "A, B" ++ dquote ++ "," ++ dquote ++ "a@b.com"
        ++ dquote ++ "," ++ dquote ++ "CS" ++ dquote ++ "," ++ dquote
        ++ "2024-01-01" ++ dquote)%string.
Proof.
  split; [|split; [|split; [|split; [|split]]]].
  - unfold Students.export. rewrite join_newline_blob.
    unfold exported_students. f_equal. apply map_ext, student_line.
  - unfold Enrollments.export. rewrite join_newline_blob.
    unfold exported_enrollments. f_equal. apply map_ext, enrollment_line.
  - intros text. split; [reflexivity|].
    unfold quoted. rewrite !length_append. cbn. lia.
  - intros j H. cbn. now rewrite H.
  - reflexivity.
  - reflexivity.
Qed.

End ExportClaims.

(** * Further properties of the handlers and of the front end *)

(** ** The middleware and the public routes *)

Section AuthFacts.
Import JS Store Auth Words.

Lemma split_not_empty sep s : exists part parts, split sep s = part :: parts.
Proof.
  induction s as [|c s IH]; cbn; [eauto|].
  destruct (Ascii.eqb c sep); [eauto|].
  destruct IH as (part & parts & ->). eauto.
Qed.

Lemma split_without_sep sep s : occurs sep s = false -> split sep s = [s].
Proof.
  induction s as [|c s IH]; cbn; [reflexivity|].
  destruct (Ascii.eqb c sep); cbn; [discriminate|].
  intros H. now rewrite (IH H).
Qed.

Lemma token_of_bearer t :
  occurs " " t = false -> token_of ("Bearer " ++ t) = Some t.
Proof.
  intros H. unfold token_of. cbn. now rewrite (split_without_sep _ _ H).
Qed.

Lemma prefix_bearer t : prefix "Bearer " ("Bearer " ++ t) = true.
Proof. cbn. now destruct t. Qed.

End AuthFacts.

Section AuthExtras.
Import JS Store Auth Words.

Variable user : Type.
Variable getUser : string -> option user.
Variable A : Type.

(** X1. The handler behind [requireAuth] runs only for a header that
    starts with [Bearer ] and whose second space-separated part the
    provider resolves to a user, and it runs with that user; every other
    request is answered 401 with one of the two messages. *)
Theorem requireAuth_lets_only_resolved_users_through
    (authorization : option string) (next : user -> reply A) :
  requireAuth user getUser A authorization next = Failure 401 not_authenticated
  \/ requireAuth user getUser A authorization next = Failure 401 invalid_token
  \/ exists authHeader token u,
       authorization = Some authHeader
       /\ prefix "Bearer " authHeader = true
       /\ token_of authHeader = Some token
       /\ getUser token = Some u
       /\ requireAuth user getUser A authorization next = next u.
Proof.
  unfold requireAuth. destruct authorization as [h|]; [|now left].
  destruct (truthy_string h); cbn [negb orb]; [|now left].
  destruct (prefix "Bearer " h) eqn:Hp; cbn [negb]; [|now left].
  destruct (token_of h) as [t|] eqn:Ht; [|right; now left].
  destruct (getUser t) as [u|] eqn:Hu; [|right; now left].
  right. right. exists h, t, u. repeat split; assumption.
Qed.

(** X2. The header that the front end builds from a token without a space
    brings exactly that token to the provider: the request goes through
    when the provider knows the token and is answered 401 otherwise. *)
Theorem authHeaders_token_reaches_provider (token : string)
    (next : user -> reply A) (Hplain : occurs " " token = false) :
  requireAuth user getUser A (Some (Client.authHeaders token)) next
  = match getUser token with
    | Some u => next u
    | None => Failure 401 invalid_token
    end.
Proof.
  unfold requireAuth, Client.authHeaders.
  rewrite prefix_bearer, (token_of_bearer _ Hplain). reflexivity.
Qed.

End AuthExtras.

Lemma authHeaders_token_reaches_provider_witness :
  Auth.requireAuth string
    (fun t => if (t =? "eyJhbGciOi.abc.def")%string then Some Sample.tenant else None)
    string (Some (Client.authHeaders "eyJhbGciOi.abc.def"))
    (fun u => Store.Json 200 u)
  = Store.Json 200 Sample.tenant.
Proof.
  exact (authHeaders_token_reaches_provider string
           (fun t => if (t =? "eyJhbGciOi.abc.def")%string
                     then Some Sample.tenant else None)
           string "eyJhbGciOi.abc.def" (fun u => Store.Json 200 u) eq_refl).
Defined.

Section SignupExtras.
Import JS Store Auth.

Variable S : Type.

(** X3. A signup without an email, without a password, or with a password
    that is a string of fewer than 6 characters is answered 400 whatever
    the provider would say; an account is reported created only when the
    provider accepted these very credentials. *)
Theorem signup_checks_before_the_provider (b : credentials)
    (Hbad : truthy (email b) = false \/ truthy (password b) = false
            \/ shorter_than_6 (password b) = true) :
  (forall signUp signUp' : value -> value -> string + S,
     signup S signUp b = signup S signUp' b)
  /\ (forall signUp, exists msg, signup S signUp b = Failure 400 msg)
  /\ (forall signUp (b' : credentials) r,
        signup S signUp b' = Json 201 r ->
        truthy (email b') = true /\ truthy (password b') = true
        /\ shorter_than_6 (password b') = false
        /\ signUp (email b') (password b') = inr (session r)).
Proof.
  assert (Hfail : forall signUp,
            signup S signUp b = Failure 400 "Email and password are required."
            \/ signup S signUp b
               = Failure 400 "Password must be at least 6 characters.").
  { intros signUp. unfold signup.
    destruct (truthy (email b)); cbn [negb orb]; [|now left].
    destruct (truthy (password b)); cbn [negb orb]; [|now left].
    destruct Hbad as [H|[H|H]]; try discriminate. rewrite H. now right. }
  split; [|split].
  - intros p p'. unfold signup.
    destruct (truthy (email b)); cbn [negb orb]; [|reflexivity].
    destruct (truthy (password b)); cbn [negb orb]; [|reflexivity].
    destruct Hbad as [H|[H|H]]; try discriminate. now rewrite H.
  - intros p. destruct (Hfail p) as [-> | ->]; eauto.
  - intros p b' r. unfold signup.
    destruct (truthy (email b')); cbn [negb orb]; [|discriminate].
    destruct (truthy (password b')); cbn [negb orb]; [|discriminate].
    destruct (shorter_than_6 (password b')); [discriminate|].
    destruct (p (email b') (password b')) as [msg|s] eqn:Hp; [discriminate|].
    intros [= <-]. repeat split. 
Qed.

End SignupExtras.

Lemma signup_checks_before_the_provider_witness :
  exists msg,
    Auth.signup nat (fun _ _ => inr 7%nat)
      {| Auth.email := JS.Str "a@b.com"; Auth.password := JS.Str "12345" |}
    = Store.Failure 400 msg.
Proof.
  exact (proj1 (proj2
           (signup_checks_before_the_provider nat
              {| Auth.email := JS.Str "a@b.com"; Auth.password := JS.Str "12345" |}
              (or_intror (or_intror eq_refl))))
           (fun _ _ => inr 7%nat)).
Defined.

(** ** The front end *)

Section ClientExtras.
Import JS Store Client Words.

Lemma occurs_append c a b : occurs c (a ++ b) = occurs c a || occurs c b.
Proof.
  induction a as [|x a IH]; cbn; [reflexivity|].
  now rewrite IH, orb_assoc.
Qed.

Lemma replace_all_removes c by_ s :
  occurs c by_ = false -> occurs c (replace_all c by_ s) = false.
Proof.
  intros Hby. induction s as [|x s IH]; cbn; [reflexivity|].
  destruct (Ascii.eqb x c) eqn:E.
  - now rewrite occurs_append, Hby, IH.
  - cbn. now rewrite E, IH.
Qed.

Lemma replace_all_absent c by_ s : occurs c s = false -> replace_all c by_ s = s.
Proof.
  induction s as [|x s IH]; cbn; [reflexivity|].
  destruct (Ascii.eqb x c); cbn; [discriminate|].
  intros H. now rewrite (IH H).
Qed.

(** X4. The text that [escapeAttr] returns holds no double quote, and a
    text without single or double quotes comes back as it is. *)
Theorem escapeAttr_leaves_no_double_quote (text : option string) :
  occurs (ascii_of_nat 34) (escapeAttr text) = false
  /\ (forall t, text = Some t -> occurs (ascii_of_nat 34) t = false ->
        occurs (ascii_of_nat 39) t = false -> escapeAttr text = t).
Proof.
  split.
  - unfold escapeAttr. destruct text as [t|]; [|reflexivity].
    destruct (truthy_string t); [|reflexivity].
    now apply replace_all_removes.
  - intros t -> H34 H39. unfold escapeAttr.
    destruct t as [|x t]; [reflexivity|]. cbn [truthy_string String.eqb negb].
    rewrite (replace_all_absent (ascii_of_nat 39) _ _ H39).
    now apply replace_all_absent.
Qed.

(** X5. Whatever the current page and the step, the page that a paging
    button asks for lies between 1 and the number of pages that the front
    end keeps for a listing of [n] rows, so it is never below 1 and, when
    the listing has rows, never beyond the last page of the server: the
    number kept is [totalPages], and 1 for an empty listing. *)
Theorem changePage_stays_within_the_pages (n : nat)
    (currentPage delta : Z) :
  let last := shown_pages (Math_ceil_div (Z.of_nat n) pageSize) in
  1 <= stuChangePage currentPage last delta <= last
  /\ crsChangePage currentPage last delta
     = stuChangePage currentPage last delta
  /\ enrChangePage currentPage last delta
     = stuChangePage currentPage last delta
  /\ last = Z.max 1 (Math_ceil_div (Z.of_nat n) pageSize).
Proof.
  cbv zeta. unfold stuChangePage, crsChangePage, enrChangePage, changePage.
  unfold shown_pages, Math_ceil_div, pageSize.
  pose proof (Z.div_mod (- Z.of_nat n) 10 ltac:(lia)) as Hd.
  pose proof (Z.mod_pos_bound (- Z.of_nat n) 10 ltac:(lia)) as Hm.
  repeat split; try reflexivity.
  - destruct (Z.eqb_spec (- (- Z.of_nat n / 10)) 0);
      destruct (Z.ltb_spec (currentPage + delta) 1);
      repeat match goal with
             | |- context [?a <? ?b] => destruct (Z.ltb_spec a b)
             end; lia.
  - destruct (Z.eqb_spec (- (- Z.of_nat n / 10)) 0);
      destruct (Z.ltb_spec (currentPage + delta) 1);
      repeat match goal with
             | |- context [?a <? ?b] => destruct (Z.ltb_spec a b)
             end; lia.
  - destruct (Z.eqb_spec (- (- Z.of_nat n / 10)) 0); lia.
Qed.

End ClientExtras.

(** ** The other aggregations of the dashboard *)

Section AnalyticsFacts.
Import JS Dashboard GradeScale Analytics Words.

Lemma own_set_other {A} (d : list (string * A)) k k' v :
  k' <> k -> own (set d k' v) k = own d k.
Proof.
  intros Hne. induction d as [|[x w] d IH]; cbn.
  - destruct (String.eqb_spec k' k); [contradiction|reflexivity].
  - destruct (String.eqb_spec x k'); cbn.
    + subst x. destruct (String.eqb_spec k' k); [contradiction|reflexivity].
    + destruct (String.eqb_spec x k); [reflexivity|exact IH].
Qed.

Lemma own_set_here {A} (d : list (string * A)) k v : own (set d k v) k = Some v.
Proof.
  induction d as [|[x w] d IH]; cbn.
  - now rewrite String.eqb_refl.
  - destruct (x =? k)%string eqn:E; cbn; now rewrite E.
Qed.

Lemma fold_left_snoc {A B} (f : A -> B -> A) l x a :
  fold_left f (l ++ [x]) a = f (fold_left f l a) x.
Proof. now rewrite fold_left_app. Qed.

Lemma times_snoc k keys x :
  times k (keys ++ [x])
  = (times k keys + if (k =? x)%string then 1 else 0)%N.
Proof.
  unfold times. rewrite filter_app, length_app. cbn.
  destruct (k =? x)%string; cbn; lia.
Qed.

Lemma own_bump_plain d x k n :
  inherited x = false -> own d x = held n ->
  own (bump d x) k
  = if (k =? x)%string then Some (Count (n + 1)) else own d k.
Proof.
  intros Hx Hd. unfold bump, get. rewrite Hx, Hd. unfold held.
  destruct (String.eqb_spec k x) as [->|Hne].
  - destruct (N.eqb_spec n 0) as [->|_]; now rewrite own_set_here.
  - destruct (n =? 0)%N; apply own_set_other; congruence.
Qed.

(** A tally over keys that are no inherited names holds, for every key,
    the number of its occurrences, and nothing for a key that does not
    occur. *)
Lemma tally_times keys :
  Forall (fun k => inherited k = false) keys ->
  forall k, own (tally keys) k = held (times k keys).
Proof.
  induction keys as [|x keys IH] using rev_ind; intros Hplain k.
  - reflexivity.
  - apply Forall_app in Hplain. destruct Hplain as [Hkeys Hx].
    inversion Hx as [|? ? Hx' _]; subst.
    specialize (IH Hkeys).
    unfold tally. rewrite fold_left_snoc. fold (tally keys).
    rewrite (own_bump_plain _ x k _ Hx' (IH x)), times_snoc.
    destruct (String.eqb_spec k x) as [->|Hne].
    + unfold held.
      destruct (N.eqb_spec (times x keys + 1) 0); [lia|reflexivity].
    + now rewrite N.add_0_r, IH.
Qed.

Lemma with_status_snoc s es e :
  with_status s (es ++ [e])
  = (with_status s es + if (status e =? s)%string then 1 else 0)%N.
Proof.
  unfold with_status. rewrite filter_app, length_app. cbn.
  destruct (status e =? s)%string; cbn; lia.
Qed.

(** The counter of one of the three statuses is the number of rows with
    that status, whatever other statuses the rows carry. *)
Lemma statusCounts_counter es s :
  In s ["enrolled"; "completed"; "dropped"] ->
  own (statusCounts (Some es)) s = Some (Counted (with_status s es)).
Proof.
  intros Hs. induction es as [|e es IH] using rev_ind.
  - cbn in Hs. destruct Hs as [<-|[<-|[<-|[]]]]; reflexivity.
  - unfold statusCounts in *. rewrite fold_left_snoc, with_status_snoc.
    set (c := fold_left _ es no_status) in *.
    unfold count_status, get.
    destruct (String.eqb_spec (status e) s) as [E|Hne].
    + rewrite E, IH, own_set_here. reflexivity.
    + rewrite N.add_0_r, <- IH.
      destruct (own c (status e)) as [[n|]|];
        [apply own_set_other; congruence
        |apply own_set_other; congruence|].
      destruct (inherited (status e)); [|reflexivity].
      destruct (status e =? "__proto__")%string; [reflexivity|].
      apply own_set_other; congruence.
Qed.

End AnalyticsFacts.

Section AnalyticsExtras.
Import JS Dashboard GradeScale Analytics Words.

(** X6. For course codes, departments and programme labels that are no
    names inherited from [Object.prototype], [coursePopularity],
    [departmentCounts] and the [courseCounts] of the legacy statistics hold
    for every key the number of rows with that key, and no entry for a key
    without rows; a fetch that brought nothing gives the empty object. *)
Theorem tallies_count_rows_per_key (labels : list course_label)
    (departments labels' : list string)
    (Hcodes : Forall (fun k => inherited k = false) (map code labels))
    (Hdepartments : Forall (fun k => inherited k = false) departments)
    (Hlabels : Forall (fun k => inherited k = false) labels') :
  (forall k, own (coursePopularity (Some labels)) k
             = held (times k (map code labels)))
  /\ (forall k, own (departmentCounts (Some departments)) k
                = held (times k departments))
  /\ (forall k, own (courseCounts (Some labels')) k = held (times k labels'))
  /\ coursePopularity None = [] /\ departmentCounts None = []
  /\ courseCounts None = [].
Proof.
  repeat split; intros k; now apply tally_times.
Qed.

(** X7. [statusCounts] always has the three counters, and each of them is
    the number of rows with that status: rows with any other status,
    inherited names included, leave the three counters alone. *)
Theorem statusCounts_count_each_status (es : list enrollment_row) :
  own (statusCounts (Some es)) "enrolled"
  = Some (Counted (with_status "enrolled" es))
  /\ own (statusCounts (Some es)) "completed"
     = Some (Counted (with_status "completed" es))
  /\ own (statusCounts (Some es)) "dropped"
     = Some (Counted (with_status "dropped" es))
  /\ statusCounts None = no_status.
Proof.
  repeat split; apply statusCounts_counter; cbn; tauto.
Qed.

End AnalyticsExtras.

Lemma tallies_count_rows_per_key_witness :
  Dashboard.own
    (Analytics.coursePopularity
       (Some [ {| Analytics.code := "CS101"; Analytics.name := "Programming" |};
               {| Analytics.code := "CS201"; Analytics.name := "Algorithms" |};
               {| Analytics.code := "CS101"; Analytics.name := "Programming" |} ]))
    "CS101"
  = Some (Dashboard.Count 2).
Proof.
  exact (proj1
           (tallies_count_rows_per_key
              [ {| Analytics.code := "CS101"; Analytics.name := "Programming" |};
                {| Analytics.code := "CS201"; Analytics.name := "Algorithms" |};
                {| Analytics.code := "CS101"; Analytics.name := "Programming" |} ]
              ["Computer Science"] ["Data Science"]
              ltac:(repeat constructor) ltac:(repeat constructor)
              ltac:(repeat constructor))
           "CS101").
Defined.

(** ** Grades: the distribution per grade, the marker, the badges *)

Section GradeFacts.
Import JS Dashboard GradeScale Analytics Words.

Lemma distribution_is_a_tally es t :
  gradeDistribution (fold_left visit es t)
  = fold_left bump (counted_grades es) (gradeDistribution t).
Proof.
  revert t. induction es as [|e es IH]; intros t; [reflexivity|].
  cbn [fold_left counted_grades flat_map]. rewrite fold_left_app, IH.
  f_equal. unfold visit, counted.
  destruct (grade e) as [g|]; [|reflexivity].
  destruct (truthy_string g && has_points g); reflexivity.
Qed.

Lemma counted_grades_plain es :
  Forall plain_grade es ->
  Forall (fun k => inherited k = false) (counted_grades es).
Proof.
  induction 1 as [|e es He _ IH]; cbn; [constructor|].
  apply Forall_app. split; [|exact IH].
  unfold plain_grade in He. destruct (grade e) as [g|]; [|constructor].
  destruct (counted e); repeat constructor. exact He.
Qed.

Lemma counted_grades_times es g :
  Forall plain_grade es ->
  times g (counted_grades es)
  = match scale_points g with
    | Some _ => with_grade g es
    | None => 0%N
    end.
Proof.
  unfold times, with_grade. intros H.
  induction H as [|e es He _ IH]; [now destruct (scale_points g)|].
  cbn [counted_grades flat_map filter]. rewrite filter_app, length_app.
  fold (counted_grades es).
  pose proof (counted_recognized e He) as Hc. unfold recognized in Hc.
  destruct (grade e) as [g'|] eqn:Hg.
  - rewrite Hc. destruct (String.eqb_spec g' g) as [->|Hne].
    + destruct (scale_points g); cbn [filter List.length];
        rewrite ?String.eqb_refl; cbn [filter List.length]; lia.
    + assert (Hgg : (g =? g')%string = false)
        by (apply String.eqb_neq; congruence).
      destruct (scale_points g'); cbn [filter List.length]; rewrite ?Hgg;
        destruct (scale_points g); cbn [filter List.length]; lia.
  - destruct (scale_points g); cbn [filter List.length]; lia.
Qed.

Lemma own_gradePoints_keys g p :
  scale_points g = Some p ->
  In g ["A+"; "A"; "A-"; "B+"; "B"; "B-"; "C+"; "C"; "C-"; "D+"; "D"; "D-"; "F"].
Proof.
  unfold scale_points, gradePoints. cbn [own].
  repeat match goal with
         | |- context [(?k =? g)%string] =>
             destruct (String.eqb_spec k g);
             [subst g; cbn; tauto|]
         end.
  discriminate.
Qed.

End GradeFacts.

Section GradeExtras.
Import JS Dashboard GradeScale Analytics Words.

(** X8. Over rows whose grades are no names inherited from
    [Object.prototype], the grade distribution holds, for each grade of the
    Grade Scale, the number of rows with exactly that grade, no entry for a
    grade of the scale without rows, and no entry for any other text. *)
Theorem gradeDistribution_counts_each_grade (es : list enrollment_row)
    (Hplain : Forall plain_grade es) (g : string) :
  own (gradeDistribution (aggregate (Some es))) g
  = match scale_points g with
    | Some _ => held (with_grade g es)
    | None => None
    end.
Proof.
  unfold aggregate. rewrite distribution_is_a_tally. cbn [gradeDistribution start].
  fold (tally (counted_grades es)).
  rewrite (tally_times _ (counted_grades_plain es Hplain)),
    (counted_grades_times es g Hplain).
  now destruct (scale_points g).
Qed.

(** X9. Over rows whose grades are no names inherited from
    [Object.prototype] and none of which has a grade of the Grade Scale,
    and when the fetch brought nothing, the GPA of the dashboard is the
    marker for "no data" and both totals stay 0. *)
Theorem gpa_is_the_marker_without_grades (es : list enrollment_row)
    (Hplain : Forall plain_grade es)
    (Hnone : Forall (fun e => recognized e = false) es) :
  gpa (Some es) = Some no_data
  /\ aggregate (Some es) = start
  /\ gpa None = Some no_data.
Proof.
  split; [now apply gpa_no_data|]. split; [|reflexivity].
  unfold aggregate. apply fold_visit_skipped.
  rewrite Forall_forall in *. intros e He.
  rewrite counted_recognized; auto.
Qed.

(** X10. An entry of the recent activity never shows an empty grade: it
    shows the grade of the row, and Pending when the row has none or an
    empty one. The badge that the front end picks for it is the letter of a
    grade of the Grade Scale, and the pending one for an ungraded row. *)
Theorem recentActivity_shows_a_grade_or_Pending (e : recent_row) :
  a_grade (as_activity e) <> EmptyString
  /\ (forall g p, r_grade e = Some g -> scale_points g = Some p ->
        a_grade (as_activity e) = g
        /\ In (Client.getGradeLetter (Some (a_grade (as_activity e))))
             ["a"; "b"; "c"; "d"; "f"])
  /\ (r_grade e = None \/ r_grade e = Some EmptyString ->
        a_grade (as_activity e) = "Pending"
        /\ Client.getGradeLetter (Some (a_grade (as_activity e))) = "pending")
  /\ (forall rows, List.length (recentActivity (Some rows)) = List.length rows)
  /\ recentActivity None = [].
Proof.
  split; [|split; [|split; [|split]]].
  - unfold as_activity. cbn. destruct (r_grade e) as [[|c g]|]; discriminate.
  - intros g p Hg Hs. unfold as_activity. cbn. rewrite Hg.
    rewrite (scale_grade_not_empty _ _ Hs).
    split; [reflexivity|].
    apply own_gradePoints_keys in Hs. cbn in Hs.
    repeat (destruct Hs as [<-|Hs]; [cbn; tauto|]). contradiction.
  - intros [H|H]; unfold as_activity; cbn; rewrite H; split; reflexivity.
  - intros rows. apply length_map.
  - reflexivity.
Qed.

End GradeExtras.

Lemma gradeDistribution_counts_each_grade_witness :
  Dashboard.own
    (Dashboard.gradeDistribution
       (Dashboard.aggregate
          (Some [GradeScale.graded "A" 3; GradeScale.graded "zzz" 3;
                 GradeScale.graded "A" 4])))
    "A"
  = Some (Dashboard.Count 2).
Proof.
  exact (gradeDistribution_counts_each_grade
           [GradeScale.graded "A" 3; GradeScale.graded "zzz" 3;
            GradeScale.graded "A" 4]
           ltac:(repeat constructor) "A").
Defined.

Lemma gpa_is_the_marker_without_grades_witness :
  Dashboard.gpa
    (Some [ {| Dashboard.grade := None; Dashboard.status := "enrolled";
               Dashboard.courses := Some {| Dashboard.credits := Some 3%float |} |};
            GradeScale.graded "Pass" 3 ])
  = Some Dashboard.no_data.
Proof.
  exact (proj1
           (gpa_is_the_marker_without_grades
              [ {| Dashboard.grade := None; Dashboard.status := "enrolled";
                   Dashboard.courses :=
                     Some {| Dashboard.credits := Some 3%float |} |};
                GradeScale.graded "Pass" 3 ]
              ltac:(repeat constructor) ltac:(repeat constructor))).
Defined.

Lemma recentActivity_shows_a_grade_or_Pending_witness :
  let e := {| Analytics.r_grade := Some "B+";
              Analytics.r_semester := "Fall 2024";
              Analytics.r_enrolled_at := "2024-09-01";
              Analytics.r_student_name := "Ahmed Khan";
              Analytics.r_course_code := "CS101";
              Analytics.r_course_name := "Introduction to Programming" |} in
  Analytics.a_grade (Analytics.as_activity e) = "B+"
  /\ In (Client.getGradeLetter (Some (Analytics.a_grade (Analytics.as_activity e))))
       ["a"; "b"; "c"; "d"; "f"].
Proof.
  exact (proj1 (proj2
           (recentActivity_shows_a_grade_or_Pending
              {| Analytics.r_grade := Some "B+";
                 Analytics.r_semester := "Fall 2024";
                 Analytics.r_enrolled_at := "2024-09-01";
                 Analytics.r_student_name := "Ahmed Khan";
                 Analytics.r_course_code := "CS101";
                 Analytics.r_course_name := "Introduction to Programming" |}))
           "B+" 3.3%float eq_refl eq_refl).
Defined.

(** ** Paged listings: tenants, page sizes, order, and walking the pages *)

Section PagingFacts.
Import JS Store Paging.

Lemma range_from_In {A} (rows : list A) i from to x :
  In x (range_from i from to rows) -> In x rows.
Proof.
  revert i. induction rows as [|r rows IH]; intros i; cbn; [tauto|].
  destruct ((from <=? i) && (i <=? to)); cbn; intros H.
  - destruct H as [->|H]; [now left|right; eauto].
  - right. eauto.
Qed.

Lemma sort_by_In {A} (le : A -> A -> bool) l x : In x (sort_by le l) <-> In x l.
Proof.
  split; apply Permutation_in;
    [apply sort_by_perm|apply Permutation_sym, sort_by_perm].
Qed.

(** From its first position on, a range is a prefix. *)
Lemma range_from_prefix {A} (rows : list A) i from to :
  from <= i -> range_from i from to rows = firstn (Z.to_nat (to - i + 1)) rows.
Proof.
  revert i. induction rows as [|r rows IH]; intros i Hi.
  - now rewrite firstn_nil.
  - cbn [range_from].
    replace (from <=? i) with true by (symmetry; apply Z.leb_le; lia).
    cbn [andb]. destruct (Z.leb_spec i to).
    + rewrite IH by lia.
      replace (Z.to_nat (to - i + 1)) with (S (Z.to_nat (to - (i + 1) + 1)))
        by lia.
      reflexivity.
    + rewrite range_from_before by lia.
      replace (Z.to_nat (to - i + 1)) with 0%nat by lia. reflexivity.
Qed.

(** Before its first position, a range skips rows. *)
Lemma range_from_skip {A} (k : nat) (rows : list A) i to :
  range_from i (i + Z.of_nat k) to rows
  = range_from (i + Z.of_nat k) (i + Z.of_nat k) to (skipn k rows).
Proof.
  revert i rows. induction k as [|k IH]; intros i rows.
  - now rewrite Z.add_0_r.
  - destruct rows as [|r rows]; [reflexivity|].
    cbn [range_from skipn].
    replace (i + Z.of_nat (S k) <=? i) with false
      by (symmetry; apply Z.leb_gt; lia).
    cbn [andb].
    replace (i + Z.of_nat (S k)) with (i + 1 + Z.of_nat k) by lia.
    apply IH.
Qed.

(** The rows of page [k + 1]: ten rows after the first [10 * k]. *)
Lemma range_page {A} (rows : list A) (k : nat) :
  range (Z.of_nat k * pageSize) (Z.of_nat k * pageSize + pageSize - 1) rows
  = firstn 10 (skipn (10 * k) rows).
Proof.
  unfold range, pageSize.
  replace (Z.of_nat k * 10) with (0 + Z.of_nat (10 * k)) by lia.
  rewrite range_from_skip, range_from_prefix by lia.
  f_equal. lia.
Qed.

Lemma firstn_plus {A} (n m : nat) (l : list A) :
  firstn (n + m) l = (firstn n l ++ firstn m (skipn n l))%list.
Proof.
  revert l. induction n as [|n IH]; intros l; [reflexivity|].
  destruct l as [|x l]; cbn; [now rewrite firstn_nil|].
  now rewrite IH.
Qed.

(** The first [m] chunks of ten make up the first [10 * m] rows. *)
Lemma chunks_of_ten {A} (l : list A) (m : nat) :
  List.concat (map (fun k => firstn 10 (skipn (10 * k) l)) (seq 0 m))
  = firstn (10 * m) l.
Proof.
  induction m as [|m IH]; [reflexivity|].
  rewrite seq_S, map_app, concat_app, IH. cbn [map List.concat].
  rewrite app_nil_r.
  replace (10 * S m)%nat with (10 * m + 10)%nat by lia.
  now rewrite firstn_plus.
Qed.

(** Walking the pages 1 to [ceil(n / 10)] of a list of [n] rows meets every
    row once, in the order of the list. *)
Lemma pages_make_the_list {A} (l : list A) :
  List.concat
    (map (fun p => range ((p - 1) * pageSize) ((p - 1) * pageSize + pageSize - 1) l)
       (pages (Math_ceil_div (Z.of_nat (List.length l)) pageSize)))
  = l.
Proof.
  unfold pages. rewrite <- seq_shift, !map_map.
  erewrite map_ext.
  2:{ intros k. replace (Z.of_nat (S k) - 1) with (Z.of_nat k) by lia.
      apply range_page. }
  rewrite chunks_of_ten. apply firstn_all2.
  pose proof (ceil_of_tenths (Z.of_nat (List.length l))). lia.
Qed.

Lemma length_range_page {A} (rows : list A) (p : Z) :
  1 <= p ->
  Z.of_nat
    (List.length
       (range ((p - 1) * pageSize) ((p - 1) * pageSize + pageSize - 1) rows))
  = Z.max 0 (Z.min 10 (Z.of_nat (List.length rows) - 10 * (p - 1))).
Proof.
  intros Hp. replace (p - 1) with (Z.of_nat (Z.to_nat (p - 1))) by lia.
  rewrite range_page, length_firstn, length_skipn. lia.
Qed.

Lemma firstn_In_list {A} n (l : list A) x : In x (firstn n l) -> In x l.
Proof.
  intros H. rewrite <- (firstn_skipn n l). apply in_or_app. now left.
Qed.

Lemma StronglySorted_sublist {A} (R : A -> A -> Prop) i from to (l : list A) :
  StronglySorted R l -> StronglySorted R (range_from i from to l).
Proof.
  intros H. revert i. induction H as [|x l Hl IH Hx]; intros i; cbn.
  - constructor.
  - destruct ((from <=? i) && (i <=? to)); [|apply IH].
    constructor; [apply IH|].
    rewrite Forall_forall in *. intros y Hy. apply Hx.
    now apply range_from_In in Hy.
Qed.

Lemma StronglySorted_map {A B} (R : B -> B -> Prop) (f : A -> B) (l : list A) :
  StronglySorted (fun a b => R (f a) (f b)) l -> StronglySorted R (map f l).
Proof.
  induction 1 as [|x l Hl IH Hx]; cbn; constructor; [exact IH|].
  rewrite Forall_forall in *. intros y Hy.
  apply in_map_iff in Hy. destruct Hy as (z & <- & Hz). now apply Hx.
Qed.

(** Sorting by a key in descending order gives a list that descends. *)
Lemma sort_by_descending {A} (key : A -> Z) (l : list A) :
  StronglySorted (fun a b => key b <= key a)
    (sort_by (fun a b => key b <=? key a) l).
Proof.
  apply Sorted_StronglySorted.
  - intros a b c Hab Hbc. lia.
  - assert (H : Sorted (fun a b => (key b <=? key a) = true)
                  (sort_by (fun a b => key b <=? key a) l)).
    { apply sort_by_sorted. intros a b.
      destruct (Z.leb_spec (key b) (key a)); [now left|right].
      apply Z.leb_le. lia. }
    induction H as [|x l' Hs IH Hhd]; constructor; [exact IH|].
    destruct Hhd; constructor. now apply Z.leb_le.
Qed.

Lemma keep_some_In {A} (l : list (option A)) x :
  In x (Enrollments.keep_some l) <-> In (Some x) l.
Proof.
  induction l as [|[y|] l IH]; cbn; [tauto| |].
  - rewrite IH. split; intros [H|H]; auto; left; congruence.
  - rewrite IH. split; [auto|]. intros [H|H]; [discriminate|exact H].
Qed.

(** An enrollment of the joined rows belongs to the tenant, and so do the
    student and the course it refers to. *)
Lemma joined_rows_In db uid j :
  In j (Enrollments.joined_rows db uid) ->
  In (Enrollments.of_enrollment j) (enrollments db)
  /\ e_user_id (Enrollments.of_enrollment j) = uid
  /\ In (Enrollments.of_student j) (students db)
  /\ s_user_id (Enrollments.of_student j) = uid
  /\ s_id (Enrollments.of_student j)
     = e_student_id (Enrollments.of_enrollment j)
  /\ In (Enrollments.of_course j) (courses db)
  /\ c_user_id (Enrollments.of_course j) = uid
  /\ c_id (Enrollments.of_course j) = e_course_id (Enrollments.of_enrollment j).
Proof.
  unfold Enrollments.joined_rows. rewrite keep_some_In, in_map_iff.
  intros (e & Hj & He). apply filter_In in He. destruct He as [He Hu].
  apply String.eqb_eq in Hu. unfold Enrollments.inner_join in Hj.
  destruct (find _ (students db)) as [s|] eqn:Hs; [|discriminate].
  destruct (find _ (courses db)) as [c|] eqn:Hc; [|discriminate].
  injection Hj as <-. cbn.
  apply find_some in Hs. apply find_some in Hc.
  destruct Hs as [Hs Hs'], Hc as [Hc Hc'].
  apply andb_true_iff in Hs', Hc'.
  destruct Hs' as [Hs1 Hs2], Hc' as [Hc1 Hc2].
  apply Z.eqb_eq in Hs1, Hc1. apply String.eqb_eq in Hs2, Hc2.
  repeat split; assumption.
Qed.

End PagingFacts.

Section PagingExtras.
Import JS Store Paging.

Variable ilike : string -> string -> bool.

Lemma students_page_rows db uid q :
  page_rows (Students.paged ilike db uid q)
  = range (offset (Students.page q)) (offset (Students.page q) + pageSize - 1)
      (Students.matching ilike db uid q).
Proof.
  unfold Students.paged. rewrite paged_reply_select. cbn. apply map_id.
Qed.

Lemma courses_page_rows db uid q :
  page_rows (Courses.paged ilike db uid q)
  = range (offset (Courses.page q)) (offset (Courses.page q) + pageSize - 1)
      (Courses.matching ilike db uid q).
Proof.
  unfold Courses.paged. rewrite paged_reply_select. cbn. apply map_id.
Qed.

Lemma enrollments_page_rows db uid q :
  page_rows (Enrollments.get ilike db uid q)
  = map Enrollments.flatten
      (range (offset (Enrollments.page q))
         (offset (Enrollments.page q) + pageSize - 1)
         (Enrollments.matching ilike db uid q)).
Proof.
  unfold Enrollments.get. now rewrite paged_reply_select.
Qed.

(** A row of the enrollment listing is the flat form of an enrollment of
    the tenant joined with the student and the course it refers to. *)
Lemma enrollment_row_origin db uid q r :
  In r (page_rows (Enrollments.get ilike db uid q)) ->
  exists e s c,
    In e (enrollments db) /\ e_user_id e = uid
    /\ In s (students db) /\ s_user_id s = uid
    /\ In c (courses db) /\ c_user_id c = uid
    /\ s_id s = e_student_id e /\ c_id c = e_course_id e
    /\ r = Enrollments.flatten
             {| Enrollments.of_enrollment := e;
                Enrollments.of_student := s;
                Enrollments.of_course := c |}.
Proof.
  rewrite enrollments_page_rows, in_map_iff.
  intros (j & <- & H). apply range_from_In in H.
  unfold Enrollments.matching in H. apply sort_by_In, filter_In in H.
  destruct H as [H _]. apply joined_rows_In in H.
  destruct H as (H1 & H2 & H3 & H4 & H5 & H6 & H7 & H8).
  exists (Enrollments.of_enrollment j), (Enrollments.of_student j),
    (Enrollments.of_course j).
  destruct j. cbn in *. repeat split; assumption.
Qed.

(** X11. Whatever the search, the filters and the page, a listing returns
    only rows of the tenant that asks: students and courses of the tables
    owned by the tenant, and enrollments owned by the tenant together with
    a student and a course of the tenant that carry the identifiers the
    enrollment refers to. *)
Theorem listings_return_only_the_tenants_rows (db : database) (uid : string) :
  (forall q s, In s (page_rows (Students.paged ilike db uid q)) ->
     In s (students db) /\ s_user_id s = uid)
  /\ (forall q c, In c (page_rows (Courses.paged ilike db uid q)) ->
        In c (courses db) /\ c_user_id c = uid)
  /\ (forall q r, In r (page_rows (Enrollments.get ilike db uid q)) ->
        exists e s c,
          In e (enrollments db) /\ e_user_id e = uid
          /\ In s (students db) /\ s_user_id s = uid
          /\ In c (courses db) /\ c_user_id c = uid
          /\ s_id s = e_student_id e /\ c_id c = e_course_id e
          /\ r = Enrollments.flatten
                   {| Enrollments.of_enrollment := e;
                      Enrollments.of_student := s;
                      Enrollments.of_course := c |}).
Proof.
  split; [|split].
  - intros q s. rewrite students_page_rows. intros H.
    apply range_from_In in H. unfold Students.matching in H.
    apply sort_by_In, filter_In in H. destruct H as [H Hk]. split; [exact H|].
    unfold Students.kept in Hk. apply andb_true_iff in Hk.
    destruct Hk as [Hk _]. apply andb_true_iff in Hk. destruct Hk as [Hk _].
    now apply String.eqb_eq.
  - intros q c. rewrite courses_page_rows. intros H.
    apply range_from_In in H. unfold Courses.matching in H.
    apply sort_by_In, filter_In in H. destruct H as [H Hk]. split; [exact H|].
    unfold Courses.kept in Hk. apply andb_true_iff in Hk.
    destruct Hk as [Hk _]. apply andb_true_iff in Hk. destruct Hk as [Hk _].
    now apply String.eqb_eq.
  - intros q r. apply enrollment_row_origin.
Qed.

(** X12. Page [p >= 1] of a listing whose filters keep [n] rows has
    [min(10, n - 10 * (p - 1))] rows, and none when that is negative: ten
    on every page before the last, the remainder on the last. *)
Theorem page_has_ten_rows_or_the_rest (db : database) (uid : string)
    (qs : Students.query) (qc : Courses.query) (qe : Enrollments.query)
    (p : Z) (Hp : 1 <= p) :
  Z.of_nat (List.length
              (page_rows (Students.paged ilike db uid (students_at qs p))))
  = Z.max 0 (Z.min 10
      (Z.of_nat (List.length (Students.matching ilike db uid qs))
       - 10 * (p - 1)))
  /\ Z.of_nat (List.length
                 (page_rows (Courses.paged ilike db uid (courses_at qc p))))
     = Z.max 0 (Z.min 10
         (Z.of_nat (List.length (Courses.matching ilike db uid qc))
          - 10 * (p - 1)))
  /\ Z.of_nat (List.length
                 (page_rows (Enrollments.get ilike db uid (enrollments_at qe p))))
     = Z.max 0 (Z.min 10
         (Z.of_nat (List.length (Enrollments.matching ilike db uid qe))
          - 10 * (p - 1))).
Proof.
  rewrite students_page_rows, courses_page_rows, enrollments_page_rows.
  rewrite length_map. unfold offset. cbn [Students.page Courses.page
    Enrollments.page students_at courses_at enrollments_at page_number].
  repeat split; apply (length_range_page _ p Hp).
Qed.

(** X13. Asking for the pages 1 to [totalPages] of a listing, one after
    the other and with the same search and filters, gives every row that
    the filters keep exactly once and in the order of the listing. *)
Theorem pages_together_are_the_listing (db : database) (uid : string)
    (qs : Students.query) (qc : Courses.query) (qe : Enrollments.query) :
  List.concat
    (map (fun p => page_rows (Students.paged ilike db uid (students_at qs p)))
       (pages (Math_ceil_div
                 (Z.of_nat (List.length (Students.matching ilike db uid qs)))
                 pageSize)))
  = Students.matching ilike db uid qs
  /\ List.concat
       (map (fun p => page_rows (Courses.paged ilike db uid (courses_at qc p)))
          (pages (Math_ceil_div
                    (Z.of_nat (List.length (Courses.matching ilike db uid qc)))
                    pageSize)))
     = Courses.matching ilike db uid qc
  /\ List.concat
       (map (fun p => page_rows
                        (Enrollments.get ilike db uid (enrollments_at qe p)))
          (pages (Math_ceil_div
                    (Z.of_nat (List.length (Enrollments.matching ilike db uid qe)))
                    pageSize)))
     = map Enrollments.flatten (Enrollments.matching ilike db uid qe).
Proof.
  split; [|split].
  - erewrite map_ext; [apply pages_make_the_list|].
    intros p. now rewrite students_page_rows.
  - erewrite map_ext; [apply pages_make_the_list|].
    intros p. now rewrite courses_page_rows.
  - rewrite (map_ext _
               (fun p => map Enrollments.flatten
                  (range ((p - 1) * pageSize) ((p - 1) * pageSize + pageSize - 1)
                     (Enrollments.matching ilike db uid qe)))).
    2:{ intros p. rewrite enrollments_page_rows. reflexivity. }
    rewrite <- (map_map _ (map Enrollments.flatten)), <- concat_map.
    f_equal. apply pages_make_the_list.
Qed.

(** X14. The rows of a page come newest first: their identifiers descend. *)
Theorem page_rows_descend_by_id (db : database) (uid : string)
    (qs : Students.query) (qc : Courses.query) (qe : Enrollments.query) :
  StronglySorted (fun a b => s_id b <= s_id a)
    (page_rows (Students.paged ilike db uid qs))
  /\ StronglySorted (fun a b => c_id b <= c_id a)
       (page_rows (Courses.paged ilike db uid qc))
  /\ StronglySorted (fun a b => Enrollments.id b <= Enrollments.id a)
       (page_rows (Enrollments.get ilike db uid qe)).
Proof.
  rewrite students_page_rows, courses_page_rows, enrollments_page_rows.
  split; [|split].
  - apply StronglySorted_sublist, sort_by_descending.
  - apply StronglySorted_sublist, sort_by_descending.
  - apply StronglySorted_map, StronglySorted_sublist.
    apply (sort_by_descending (fun j => e_id (Enrollments.of_enrollment j))).
Qed.

(** X15. With [all=true] the student and course routes leave search,
    filter and page aside and answer with every row of the tenant once:
    the students by name and the courses by code, ascending. *)
Theorem all_true_lists_every_row_of_the_tenant (db : database) (uid : string)
    (qs : Students.query) (qc : Courses.query)
    (Hs : Students.all qs = Some "true") (Hc : Courses.all qc = Some "true") :
  Students.get ilike db uid qs = inl (Json 200 (Students.everyone db uid))
  /\ Permutation (Students.everyone db uid)
       (map (fun s => (s_id s, s_name s, s_email s))
          (filter (fun s => (s_user_id s =? uid)%string) (students db)))
  /\ Sorted (fun a b => String.leb (snd (fst a)) (snd (fst b)) = true)
       (Students.everyone db uid)
  /\ Courses.get ilike db uid qc = inl (Json 200 (Courses.everything db uid))
  /\ Permutation (Courses.everything db uid)
       (map (fun c => (c_id c, c_code c, c_name c, c_credits c))
          (filter (fun c => (c_user_id c =? uid)%string) (courses db)))
  /\ Sorted (fun a b => String.leb (snd (fst (fst a))) (snd (fst (fst b))) = true)
       (Courses.everything db uid).
Proof.
  assert (Hmap : forall (X Y : Type) (f : X -> Y) (R : Y -> Y -> Prop) l,
            Sorted (fun a b => R (f a) (f b)) l -> Sorted R (map f l)).
  { intros X Y f R l H. induction H as [|x l Hl IH Hx]; cbn; constructor.
    - exact IH.
    - destruct Hx; cbn; constructor. assumption. }
  split; [|split; [|split; [|split; [|split]]]].
  - unfold Students.get. now rewrite Hs.
  - unfold Students.everyone. apply Permutation_map, sort_by_perm.
  - unfold Students.everyone. apply Hmap. cbn.
    apply (sort_by_sorted (fun a b => String.leb (s_name a) (s_name b))).
    intros a b. apply String.leb_total.
  - unfold Courses.get. now rewrite Hc.
  - unfold Courses.everything. apply Permutation_map, sort_by_perm.
  - unfold Courses.everything. apply Hmap. cbn.
    apply (sort_by_sorted (fun a b => String.leb (c_code a) (c_code b))).
    intros a b. apply String.leb_total.
Qed.

End PagingExtras.

Lemma listings_return_only_the_tenants_rows_witness :
  In (Sample.a_student 2) (Store.students (Sample.campus 3))
  /\ Store.s_user_id (Sample.a_student 2) = Sample.tenant.
Proof.
  exact (proj1
           (listings_return_only_the_tenants_rows Sample.anything
              (Sample.campus 3) Sample.tenant)
           (Sample.students_page 1) (Sample.a_student 2)
           ltac:(vm_compute; tauto)).
Defined.

Lemma page_has_ten_rows_or_the_rest_witness :
  Z.of_nat
    (List.length
       (Paging.page_rows
          (Students.paged Sample.anything (Sample.campus 25) Sample.tenant
             (Paging.students_at (Sample.students_page 1) 3))))
  = 5.
Proof.
  exact (proj1
           (page_has_ten_rows_or_the_rest Sample.anything (Sample.campus 25)
              Sample.tenant (Sample.students_page 1) (Sample.courses_page 1)
              (Sample.enrollments_page 1) 3 ltac:(lia))).
Defined.

Lemma all_true_lists_every_row_of_the_tenant_witness :
  Students.get Sample.anything (Sample.campus 2) Sample.tenant
    {| Students.search := Some "zzz"; Students.course := None;
       Students.page := Some 7; Students.all := Some "true" |}
  = inl (Store.Json 200
           (Students.everyone (Sample.campus 2) Sample.tenant)).
Proof.
  exact (proj1
           (all_true_lists_every_row_of_the_tenant Sample.anything
              (Sample.campus 2) Sample.tenant
              {| Students.search := Some "zzz"; Students.course := None;
                 Students.page := Some 7; Students.all := Some "true" |}
              {| Courses.search := None; Courses.department := None;
                 Courses.page := None; Courses.all := Some "true" |}
              eq_refl eq_refl)).
Defined.

(** ** Creating, deleting and clearing *)

Section RowsFacts.
Import JS Store Rows Tenancy Paging.

Lemma filter_map_untouched {A} (keep : A -> bool) (f : A -> A) (l : list A) :
  (forall x, keep x = true -> f x = x) ->
  (forall x, keep (f x) = keep x) ->
  filter keep (map f l) = filter keep l.
Proof.
  intros Hf Hk. induction l as [|x l IH]; cbn; [reflexivity|].
  rewrite Hk. destruct (keep x) eqn:E; [|exact IH].
  now rewrite (Hf x E), IH.
Qed.

Lemma filter_filter_untouched {A} (keep drop : A -> bool) (l : list A) :
  (forall x, keep x = true -> drop x = true) ->
  filter keep (filter drop l) = filter keep l.
Proof.
  intros H. induction l as [|x l IH]; cbn; [reflexivity|].
  destruct (drop x) eqn:Ed; cbn.
  - now rewrite IH.
  - destruct (keep x) eqn:Ek; [|exact IH].
    rewrite (H x Ek) in Ed. discriminate.
Qed.

Lemma filter_snoc {A} (keep : A -> bool) (l : list A) x :
  keep x = false -> filter keep (l ++ [x]) = filter keep l.
Proof.
  intros H. rewrite filter_app. cbn. rewrite H. apply app_nil_r.
Qed.

Lemma filter_none {A} (f : A -> bool) (l : list A) :
  (forall x, In x l -> f x = false) -> filter f l = [].
Proof.
  induction l as [|x l IH]; cbn; intros H; [reflexivity|].
  rewrite (H x (or_introl eq_refl)). apply IH. intros y Hy. apply H. now right.
Qed.

Lemma other_owner uid owner :
  negb (owner =? uid)%string = true -> (owner =? uid)%string = false.
Proof. now destruct (owner =? uid)%string. Qed.

Lemma student_update_other uid id b s :
  negb (s_user_id s =? uid)%string = true -> Students.update uid id b s = s.
Proof.
  intros H. unfold Students.update, Students.targets.
  now rewrite (other_owner _ _ H), andb_false_r.
Qed.

Lemma student_update_owner uid id b s :
  s_user_id (Students.update uid id b s) = s_user_id s.
Proof.
  unfold Students.update. now destruct (Students.targets uid id s).
Qed.

Lemma course_update_other uid id b n c :
  negb (c_user_id c =? uid)%string = true -> Courses.update uid id b n c = c.
Proof.
  intros H. unfold Courses.update, Courses.targets.
  now rewrite (other_owner _ _ H), andb_false_r.
Qed.

Lemma course_update_owner uid id b n c :
  c_user_id (Courses.update uid id b n c) = c_user_id c.
Proof.
  unfold Courses.update. now destruct (Courses.targets uid id c).
Qed.

Lemma enrollment_update_other uid id u e :
  negb (e_user_id e =? uid)%string = true -> Enrollments.update uid id u e = e.
Proof.
  intros H. unfold Enrollments.update, Enrollments.targets.
  now rewrite (other_owner _ _ H), andb_false_r.
Qed.

Lemma enrollment_update_owner uid id u e :
  e_user_id (Enrollments.update uid id u e) = e_user_id e.
Proof.
  unfold Enrollments.update. now destruct (Enrollments.targets uid id e).
Qed.

Lemma others_kept_refl uid db : others_kept uid db db.
Proof. split; reflexivity. Qed.

End RowsFacts.

Section RowsExtras.
Import JS Store Rows Tenancy Paging.

Variable ilike : string -> string -> bool.
Variable Number : value -> option Z.

(** X16. A request to create a student or a course either fails and
    leaves the database as it was, or answers 201 with the new row: the
    row is owned by the caller, carries the texts of the body, is added at
    the end of its table, and is in the listing of that tenant for every
    query without search and filter. *)
Theorem created_rows_are_stored_and_listed (db : database) (uid : string)
    (next_id : Z) (now : string) (bs : Students.body) (bc : Courses.body) :
  (match post_student db uid next_id now bs with
   | (db', Failure _ _) => db' = db
   | (db', Json status body) =>
       status = 201
       /\ exists s, row body = Some s
          /\ s_id s = next_id /\ s_user_id s = uid /\ s_created_at s = now
          /\ s_name s = text_of (Students.name bs)
          /\ s_email s = text_of (Students.email bs)
          /\ s_course s = text_of (Students.course_ bs)
          /\ students db' = (students db ++ [s])%list
          /\ courses db' = courses db /\ enrollments db' = enrollments db
          /\ forall q, plain_students q ->
               In s (Students.matching ilike db' uid q)
   end)
  /\ (match post_course Number db uid next_id now bc with
      | (db', Failure _ _) => db' = db
      | (db', Json status body) =>
          status = 201
          /\ exists c, row body = Some c
             /\ c_id c = next_id /\ c_user_id c = uid /\ c_created_at c = now
             /\ c_code c = text_of (Courses.code bc)
             /\ c_name c = text_of (Courses.name bc)
             /\ Number (Courses.credits bc) = Some (c_credits c)
             /\ c_department c = text_of (Courses.department_ bc)
             /\ courses db' = (courses db ++ [c])%list
             /\ students db' = students db /\ enrollments db' = enrollments db
             /\ forall q, plain_courses q ->
                  In c (Courses.matching ilike db' uid q)
      end).
Proof.
  split.
  - unfold post_student.
    destruct (negb (truthy (Students.name bs)) || _ || _); [reflexivity|].
    destruct (existsb _ (students db)); [reflexivity|].
    split; [reflexivity|]. eexists. repeat split.
    intros q [Hq1 Hq2]. unfold Students.matching.
    apply sort_by_In, filter_In. cbn [students]. split.
    + apply in_or_app. right. now left.
    + unfold Students.kept, eq_if_given. cbn [s_user_id].
      now rewrite Hq1, Hq2, String.eqb_refl.
  - unfold post_course.
    destruct (negb (truthy (Courses.code bc)) || _ || _ || _); [reflexivity|].
    destruct (Number (Courses.credits bc)) as [n|]; [|reflexivity].
    destruct (existsb _ (courses db)); [reflexivity|].
    split; [reflexivity|]. eexists. repeat split.
    intros q [Hq1 Hq2]. unfold Courses.matching.
    apply sort_by_In, filter_In. cbn [courses]. split.
    + apply in_or_app. right. now left.
    + unfold Courses.kept, eq_if_given. cbn [c_user_id].
      now rewrite Hq1, Hq2, String.eqb_refl.
Qed.

(** X17. An update or a delete of a student for an identifier under which
    the caller owns no student, be it absent or owned by another tenant, is
    answered with 404 and leaves the database as it was, whatever the
    caller owns in the other tables; so it is for a course and for an
    enrollment, each by its own table. For the student and course updates
    this holds for a body that carries every field. *)
Theorem foreign_or_absent_ids_are_not_found (db : database) (uid : string)
    (id : Z) (bs : Students.body) (bc : Courses.body) (be : Enrollments.body) :
  (filter (Students.targets uid id) (students db) = [] ->
   delete_student db uid id = (db, Failure 404 "Student not found.")
   /\ (truthy (Students.name bs) = true -> truthy (Students.email bs) = true ->
       truthy (Students.course_ bs) = true ->
       Students.put db uid id bs = (db, Failure 404 "Student not found.")))
  /\ (filter (Courses.targets uid id) (courses db) = [] ->
      delete_course db uid id = (db, Failure 404 "Course not found.")
      /\ (truthy (Courses.code bc) = true -> truthy (Courses.name bc) = true ->
          truthy (Courses.credits bc) = true ->
          truthy (Courses.department_ bc) = true ->
          Courses.put Number db uid id bc
          = (db, Failure 404 "Course not found.")))
  /\ (filter (Enrollments.targets uid id) (enrollments db) = [] ->
      delete_enrollment db uid id = (db, Failure 404 "Enrollment not found.")
      /\ Enrollments.put db uid id be
         = (db, Failure 404 "Enrollment not found.")).
Proof.
  repeat apply conj.
  - intros Hs. split.
    + unfold delete_student. now rewrite Hs.
    + intros H1 H2 H3. unfold Students.put. now rewrite Hs, H1, H2, H3.
  - intros Hc. split.
    + unfold delete_course. now rewrite Hc.
    + intros H1 H2 H3 H4. unfold Courses.put. now rewrite Hc, H1, H2, H3, H4.
  - intros He. split.
    + unfold delete_enrollment. now rewrite He.
    + unfold Enrollments.put. now rewrite He.
Qed.

(** X18. After a student or a course is deleted, no student or course of
    the caller has that identifier, no enrollment refers to it, and no page
    of the enrollment listing shows it. Nothing else goes: the table of the
    deleted row holds the rows it held apart from that one, the enrollments
    are those that were there and refer to another row, and the third table
    is as it was. A delete that fails changes nothing. *)
Theorem deleted_rows_take_their_enrollments (db : database) (uid : string)
    (id : Z) :
  (match delete_student db uid id with
   | (db', Failure _ _) => db' = db
   | (db', Json _ _) =>
       filter (Students.targets uid id) (students db') = []
       /\ Forall (fun e => e_student_id e <> id) (enrollments db')
       /\ (forall s, In s (students db) -> s_id s <> id -> In s (students db'))
       /\ courses db' = courses db
       /\ (forall q r, In r (page_rows (Enrollments.get ilike db' uid q)) ->
             Enrollments.student_id r <> id)
       /\ (forall e, In e (enrollments db')
                     <-> In e (enrollments db) /\ e_student_id e <> id)
       /\ (forall s, In s (students db')
                     <-> In s (students db)
                         /\ ~ (s_id s = id /\ s_user_id s = uid))
       /\ enrollments db'
          = filter (fun e => negb (e_student_id e =? id)) (enrollments db)
       /\ students db'
          = filter (fun s => negb ((s_id s =? id) && (s_user_id s =? uid)%string))
              (students db)
   end)
  /\ (match delete_course db uid id with
      | (db', Failure _ _) => db' = db
      | (db', Json _ _) =>
          filter (Courses.targets uid id) (courses db') = []
          /\ Forall (fun e => e_course_id e <> id) (enrollments db')
          /\ (forall c, In c (courses db) -> c_id c <> id -> In c (courses db'))
          /\ students db' = students db
          /\ (forall q r, In r (page_rows (Enrollments.get ilike db' uid q)) ->
                Enrollments.course_id r <> id)
          /\ (forall e, In e (enrollments db')
                        <-> In e (enrollments db) /\ e_course_id e <> id)
          /\ (forall c, In c (courses db')
                        <-> In c (courses db)
                            /\ ~ (c_id c = id /\ c_user_id c = uid))
          /\ enrollments db'
             = filter (fun e => negb (e_course_id e =? id)) (enrollments db)
          /\ courses db'
             = filter (fun c => negb ((c_id c =? id) && (c_user_id c =? uid)%string))
                 (courses db)
      end).
Proof.
  split.
  - unfold delete_student. destruct (single _) as [found|]; [|reflexivity].
    cbn [students courses enrollments].
    assert (Hrefs : Forall (fun e => e_student_id e <> id)
                      (filter (fun e => negb (e_student_id e =? id))
                         (enrollments db))).
    { apply Forall_forall. intros e He. apply filter_In in He.
      destruct He as [_ He]. intros E. rewrite E, Z.eqb_refl in He.
      discriminate. }
    repeat apply conj; try reflexivity; try exact Hrefs.
    + apply filter_none. intros s Hs. apply filter_In in Hs.
      destruct Hs as [_ Hs]. now destruct (Students.targets uid id s).
    + intros s Hs Hne. apply filter_In. split; [exact Hs|].
      unfold Students.targets.
      destruct (Z.eqb_spec (s_id s) id); [contradiction|reflexivity].
    + intros q r Hr.
      destruct (enrollment_row_origin ilike _ uid q r Hr)
        as (e & s & c & He & _ & _ & _ & _ & _ & Hse & _ & ->).
      cbn. rewrite Hse. rewrite Forall_forall in Hrefs. now apply Hrefs.
    + intros e. rewrite filter_In. split.
      * intros [H Hne]. split; [exact H|].
        intros E. rewrite E, Z.eqb_refl in Hne. discriminate.
      * intros [H Hne]. split; [exact H|].
        destruct (Z.eqb_spec (e_student_id e) id); [contradiction|reflexivity].
    + intros s. rewrite filter_In. unfold Students.targets. split.
      * intros [H Hne]. split; [exact H|].
        intros [E1 E2].
        rewrite E1, E2, Z.eqb_refl, String.eqb_refl in Hne. discriminate.
      * intros [H Hne]. split; [exact H|].
        destruct (Z.eqb_spec (s_id s) id) as [E1|]; [|reflexivity].
        destruct (String.eqb_spec (s_user_id s) uid) as [E2|];
          [|reflexivity].
        exfalso. apply Hne. now split.
  - unfold delete_course. destruct (single _) as [found|]; [|reflexivity].
    cbn [students courses enrollments].
    assert (Hrefs : Forall (fun e => e_course_id e <> id)
                      (filter (fun e => negb (e_course_id e =? id))
                         (enrollments db))).
    { apply Forall_forall. intros e He. apply filter_In in He.
      destruct He as [_ He]. intros E. rewrite E, Z.eqb_refl in He.
      discriminate. }
    repeat apply conj; try reflexivity; try exact Hrefs.
    + apply filter_none. intros c Hc. apply filter_In in Hc.
      destruct Hc as [_ Hc]. now destruct (Courses.targets uid id c).
    + intros c Hc Hne. apply filter_In. split; [exact Hc|].
      unfold Courses.targets.
      destruct (Z.eqb_spec (c_id c) id); [contradiction|reflexivity].
    + intros q r Hr.
      destruct (enrollment_row_origin ilike _ uid q r Hr)
        as (e & s & c & He & _ & _ & _ & _ & _ & _ & Hce & ->).
      cbn. rewrite Hce. rewrite Forall_forall in Hrefs. now apply Hrefs.
    + intros e. rewrite filter_In. split.
      * intros [H Hne]. split; [exact H|].
        intros E. rewrite E, Z.eqb_refl in Hne. discriminate.
      * intros [H Hne]. split; [exact H|].
        destruct (Z.eqb_spec (e_course_id e) id); [contradiction|reflexivity].
    + intros c. rewrite filter_In. unfold Courses.targets. split.
      * intros [H Hne]. split; [exact H|].
        intros [E1 E2].
        rewrite E1, E2, Z.eqb_refl, String.eqb_refl in Hne. discriminate.
      * intros [H Hne]. split; [exact H|].
        destruct (Z.eqb_spec (c_id c) id) as [E1|]; [|reflexivity].
        destruct (String.eqb_spec (c_user_id c) uid) as [E2|];
          [|reflexivity].
        exfalso. apply Hne. now split.
Qed.

End RowsExtras.

(** ** Tenants and the enrollment table under mutation *)

Section TenancyFacts.
Import JS Store Rows Tenancy Paging.

Lemma targets_need_the_owner_s uid id s :
  negb (s_user_id s =? uid)%string = true ->
  negb (Students.targets uid id s) = true.
Proof.
  intros H. unfold Students.targets.
  now rewrite (other_owner _ _ H), andb_false_r.
Qed.

Lemma targets_need_the_owner_c uid id c :
  negb (c_user_id c =? uid)%string = true ->
  negb (Courses.targets uid id c) = true.
Proof.
  intros H. unfold Courses.targets.
  now rewrite (other_owner _ _ H), andb_false_r.
Qed.

Lemma targets_need_the_owner_e uid id e :
  negb (e_user_id e =? uid)%string = true ->
  negb (Enrollments.targets uid id e) = true.
Proof.
  intros H. unfold Enrollments.targets.
  now rewrite (other_owner _ _ H), andb_false_r.
Qed.

Lemma own_row_is_not_other uid : negb (uid =? uid)%string = false.
Proof. now rewrite String.eqb_refl. Qed.

Lemma same_triple_iff sid cid sem e :
  Enrollments.same_triple sid cid sem e = true <-> triple e = (sid, cid, sem).
Proof.
  unfold Enrollments.same_triple, triple.
  rewrite !andb_true_iff, !Z.eqb_eq, String.eqb_eq. split.
  - intros [[-> ->] ->]. reflexivity.
  - intros [= -> -> ->]. auto.
Qed.

Lemma fresh_triple sid cid sem l :
  existsb (Enrollments.same_triple sid cid sem) l = false ->
  ~ In (sid, cid, sem) (map triple l).
Proof.
  intros H Hin. apply in_map_iff in Hin. destruct Hin as (e & He & Hl).
  assert (existsb (Enrollments.same_triple sid cid sem) l = true).
  { apply existsb_exists. exists e. split; [exact Hl|].
    now apply same_triple_iff. }
  congruence.
Qed.

Lemma NoDup_snoc {A} (l : list A) x : NoDup l -> ~ In x l -> NoDup (l ++ [x]).
Proof.
  intros Hl Hx. apply (Permutation_NoDup (Permutation_cons_append l x)).
  now constructor.
Qed.

Lemma existsb_found {A} (f : A -> bool) (l : list A) :
  existsb f l = true -> exists x, In x l /\ f x = true.
Proof. apply existsb_exists. Qed.

End TenancyFacts.

Section TenancyExtras.
Import JS Store Rows Tenancy Paging.

Variable ilike : string -> string -> bool.
Variable Number : value -> option Z.

(** X19. No update, create or delete of one tenant changes a student or a
    course of another tenant; the updates, the creates and the delete of an
    enrollment also leave the enrollments of the other tenants as they
    were. *)
Theorem mutations_leave_other_tenants_rows (db : database) (uid : string)
    (id next_id : Z) (now : string) (bs : Students.body) (bc : Courses.body)
    (be : Enrollments.body) (nb : Enrollments.new_body) :
  (others_kept uid db (fst (Students.put db uid id bs))
   /\ other_enrollments uid (fst (Students.put db uid id bs))
      = other_enrollments uid db)
  /\ (others_kept uid db (fst (Courses.put Number db uid id bc))
      /\ other_enrollments uid (fst (Courses.put Number db uid id bc))
         = other_enrollments uid db)
  /\ (others_kept uid db (fst (Enrollments.put db uid id be))
      /\ other_enrollments uid (fst (Enrollments.put db uid id be))
         = other_enrollments uid db)
  /\ (others_kept uid db (fst (Enrollments.post Number db uid now nb))
      /\ other_enrollments uid (fst (Enrollments.post Number db uid now nb))
         = other_enrollments uid db)
  /\ (others_kept uid db (fst (post_student db uid next_id now bs))
      /\ other_enrollments uid (fst (post_student db uid next_id now bs))
         = other_enrollments uid db)
  /\ (others_kept uid db (fst (post_course Number db uid next_id now bc))
      /\ other_enrollments uid (fst (post_course Number db uid next_id now bc))
         = other_enrollments uid db)
  /\ (others_kept uid db (fst (delete_enrollment db uid id))
      /\ other_enrollments uid (fst (delete_enrollment db uid id))
         = other_enrollments uid db)
  /\ others_kept uid db (fst (delete_student db uid id))
  /\ others_kept uid db (fst (delete_course db uid id))
  /\ others_kept uid db (fst (clear db uid)).
Proof.
  unfold others_kept, other_students, other_courses, other_enrollments.
  repeat apply conj.
  all: try (unfold Students.put;
            destruct (negb (truthy (Students.name bs)) || _ || _);
            [reflexivity|]; destruct (single _) as [found|]; [|reflexivity];
            cbn [fst students courses enrollments]).
  all: try (unfold Courses.put;
            destruct (negb (truthy (Courses.code bc)) || _ || _ || _);
            [reflexivity|]; destruct (single _) as [found|]; [|reflexivity];
            destruct (Number (Courses.credits bc)); [|reflexivity];
            cbn [fst students courses enrollments]).
  all: try (unfold Enrollments.put;
            destruct (single _) as [found|]; [|reflexivity];
            destruct (Enrollments.repeats _ _ _); [reflexivity|];
            cbn [fst students courses enrollments]).
  all: try (unfold Enrollments.post;
            destruct (negb (truthy (Enrollments.new_student_id nb)) || _ || _);
            [reflexivity|]; unfold Enrollments.insert;
            destruct (Number (Enrollments.new_student_id nb));
            [|reflexivity];
            destruct (Number (Enrollments.new_course_id nb)); [|reflexivity];
            destruct (existsb _ (enrollments db)); [reflexivity|];
            destruct (existsb _ (students db) && _); [|reflexivity];
            cbn [fst students courses enrollments error]).
  all: try (unfold post_student;
            destruct (negb (truthy (Students.name bs)) || _ || _);
            [reflexivity|]; destruct (existsb _ (students db));
            [reflexivity|]; cbn [fst students courses enrollments]).
  all: try (unfold post_course;
            destruct (negb (truthy (Courses.code bc)) || _ || _ || _);
            [reflexivity|]; destruct (Number (Courses.credits bc));
            [|reflexivity]; destruct (existsb _ (courses db));
            [reflexivity|]; cbn [fst students courses enrollments]).
  all: try (unfold delete_enrollment;
            destruct (single _) as [found|]; [|reflexivity];
            cbn [fst students courses enrollments]).
  all: try (unfold delete_student;
            destruct (single _) as [found|]; [|reflexivity];
            cbn [fst students courses enrollments]).
  all: try (unfold delete_course;
            destruct (single _) as [found|]; [|reflexivity];
            cbn [fst students courses enrollments]).
  all: try (unfold clear; cbn [fst students courses enrollments]).
  all: try reflexivity.
  all: try (apply filter_map_untouched;
            [ intros x Hx;
              first [ now apply student_update_other
                    | now apply course_update_other
                    | now apply enrollment_update_other ]
            | intros x;
              first [ now rewrite student_update_owner
                    | now rewrite course_update_owner
                    | now rewrite enrollment_update_owner ] ]).
  all: try (apply filter_snoc; cbn; apply own_row_is_not_other).
  all: try (apply filter_filter_untouched; intros x Hx;
            first [ now apply targets_need_the_owner_s
                  | now apply targets_need_the_owner_c
                  | now apply targets_need_the_owner_e
                  | exact Hx ]).
Qed.

(** X20. After POST /api/clear the tenant has no row left: every page of
    the three listings is empty with [total = 0] and [totalPages = 0], the
    department and semester lists are empty, and both exports are the
    header alone. *)
Theorem cleared_tenant_has_nothing (db : database) (uid : string)
    (qs : Students.query) (qc : Courses.query) (qe : Enrollments.query) :
  let db' := fst (clear db uid) in
  snd (clear db uid) = Json 200 "All data cleared successfully."
  /\ Students.paged ilike db' uid qs
     = Json 200 {| rows := []; total := 0;
                   page := page_number (Students.page qs); totalPages := 0 |}
  /\ Courses.paged ilike db' uid qc
     = Json 200 {| rows := []; total := 0;
                   page := page_number (Courses.page qc); totalPages := 0 |}
  /\ Enrollments.get ilike db' uid qe
     = Json 200 {| rows := []; total := 0;
                   page := page_number (Enrollments.page qe); totalPages := 0 |}
  /\ Courses.departments db' uid = []
  /\ Enrollments.semesters db' uid = []
  /\ Students.export db' uid = Students.export_header
  /\ Enrollments.export db' uid = Enrollments.export_header.
Proof.
  cbv zeta.
  assert (Hs : forall f : student -> bool,
            (forall s, f s = true -> (s_user_id s =? uid)%string = true) ->
            filter f (students (fst (clear db uid))) = []).
  { intros f Hf. apply filter_none. intros s Hin. cbn in Hin.
    apply filter_In in Hin. destruct Hin as [_ Hin].
    destruct (f s) eqn:E; [|reflexivity]. rewrite (Hf s E) in Hin.
    discriminate. }
  assert (Hc : forall f : course -> bool,
            (forall c, f c = true -> (c_user_id c =? uid)%string = true) ->
            filter f (courses (fst (clear db uid))) = []).
  { intros f Hf. apply filter_none. intros c Hin. cbn in Hin.
    apply filter_In in Hin. destruct Hin as [_ Hin].
    destruct (f c) eqn:E; [|reflexivity]. rewrite (Hf c E) in Hin.
    discriminate. }
  assert (He : filter (fun e => (e_user_id e =? uid)%string)
                 (enrollments (fst (clear db uid))) = []).
  { apply filter_none. intros e Hin. cbn in Hin.
    apply filter_In in Hin. destruct Hin as [Hin _].
    apply filter_In in Hin. destruct Hin as [Hin _].
    apply filter_In in Hin. destruct Hin as [_ Hin].
    now destruct (e_user_id e =? uid)%string. }
  assert (Hmatch_s : Students.matching ilike (fst (clear db uid)) uid qs = []).
  { unfold Students.matching. rewrite Hs; [reflexivity|].
    intros s H. unfold Students.kept in H.
    apply andb_true_iff in H. destruct H as [H _].
    apply andb_true_iff in H. now destruct H. }
  assert (Hmatch_c : Courses.matching ilike (fst (clear db uid)) uid qc = []).
  { unfold Courses.matching. rewrite Hc; [reflexivity|].
    intros c H. unfold Courses.kept in H.
    apply andb_true_iff in H. destruct H as [H _].
    apply andb_true_iff in H. now destruct H. }
  assert (Hjoined : Enrollments.joined_rows (fst (clear db uid)) uid = []).
  { unfold Enrollments.joined_rows. now rewrite He. }
  assert (Hmatch_e : Enrollments.matching ilike (fst (clear db uid)) uid qe = []).
  { unfold Enrollments.matching. now rewrite Hjoined. }
  repeat apply conj.
  - reflexivity.
  - unfold Students.paged. now rewrite paged_reply_select, Hmatch_s.
  - unfold Courses.paged. now rewrite paged_reply_select, Hmatch_c.
  - unfold Enrollments.get. now rewrite paged_reply_select, Hmatch_e.
  - unfold Courses.departments. rewrite Hc; [reflexivity|]. auto.
  - unfold Enrollments.semesters. now rewrite He.
  - unfold Students.export. rewrite Hs; [reflexivity|]. auto.
  - unfold Enrollments.export. now rewrite Hjoined.
Qed.

(** X21. A create request for an enrollment either fails and leaves the
    three tables as they were, or answers 201 with the new row, added at
    the end of the enrollments: the row belongs to the caller, carries the
    time of the insert, is [enrolled] unless the body carries a status, has
    no grade unless the body carries one, refers to a student and a course
    that exist, and repeats no (student, course, semester) of the table.
    So a table in which no triple occurs twice stays so. *)
Theorem created_enrollment_repeats_no_triple (db : database)
    (uid now : string) (nb : Enrollments.new_body) :
  (unique_triples db ->
   unique_triples (fst (Enrollments.post Number db uid now nb)))
  /\ match Enrollments.post Number db uid now nb with
     | (db', Failure _ _) =>
         students db' = students db /\ courses db' = courses db
         /\ enrollments db' = enrollments db
     | (db', Json status body) =>
         status = 201
         /\ exists e, row body = Some e
            /\ e_user_id e = uid
            /\ e_enrolled_at e = now
            /\ e_status e
               = (if truthy (Enrollments.new_status nb)
                  then text_of (Enrollments.new_status nb) else "enrolled")
            /\ e_grade e
               = (if truthy (Enrollments.new_grade nb)
                  then Some (text_of (Enrollments.new_grade nb)) else None)
            /\ Number (Enrollments.new_student_id nb) = Some (e_student_id e)
            /\ Number (Enrollments.new_course_id nb) = Some (e_course_id e)
            /\ e_semester e = text_of (Enrollments.new_semester nb)
            /\ (exists s, In s (students db) /\ s_id s = e_student_id e)
            /\ (exists c, In c (courses db) /\ c_id c = e_course_id e)
            /\ ~ In (triple e) (map triple (enrollments db))
            /\ enrollments db' = (enrollments db ++ [e])%list
            /\ students db' = students db /\ courses db' = courses db
     end.
Proof.
  unfold unique_triples, Enrollments.post.
  destruct (negb (truthy (Enrollments.new_student_id nb)) || _ || _);
    [split; [trivial|repeat split]|].
  unfold Enrollments.insert.
  destruct (Number (Enrollments.new_student_id nb)) as [sid|];
    [|split; [trivial|repeat split]].
  destruct (Number (Enrollments.new_course_id nb)) as [cid|];
    [|split; [trivial|repeat split]].
  destruct (existsb (Enrollments.same_triple _ _ _) (enrollments db)) eqn:Hdup;
    [split; [trivial|repeat split]|].
  destruct (existsb _ (students db)) eqn:Hstu;
    [|split; [trivial|repeat split]].
  destruct (existsb _ (courses db)) eqn:Hcrs;
    [|split; [trivial|repeat split]].
  cbn [andb error data fst hd_error].
  apply fresh_triple in Hdup.
  apply existsb_found in Hstu, Hcrs.
  destruct Hstu as (s & Hs & Hsid), Hcrs as (c & Hc & Hcid).
  apply Z.eqb_eq in Hsid, Hcid.
  split.
  - intros Hnodup. cbn [enrollments]. rewrite map_app. now apply NoDup_snoc.
  - split; [reflexivity|]. eexists. split; [reflexivity|]. cbn.
    repeat split; eauto.
Qed.

End TenancyExtras.

(** The tenant owns course 1 and enrollment 1, and student 1 belongs to
    another tenant: the student is not found, the course is. *)
Lemma foreign_or_absent_ids_are_not_found_witness :
  Rows.delete_student Sample.shared_number Sample.tenant 1
  = (Sample.shared_number, Store.Failure 404 "Student not found.")
  /\ Students.put Sample.shared_number Sample.tenant 1
       {| Students.name := JS.Str "Ada"; Students.email := JS.Str "a@b.c";
          Students.course_ := JS.Str "CS" |}
     = (Sample.shared_number, Store.Failure 404 "Student not found.")
  /\ snd (Rows.delete_course Sample.shared_number Sample.tenant 1)
     = Store.Json 200 "Course deleted successfully!".
Proof.
  pose proof (proj1
                (foreign_or_absent_ids_are_not_found Sample.number_of
                   Sample.shared_number Sample.tenant 1
                   {| Students.name := JS.Str "Ada";
                      Students.email := JS.Str "a@b.c";
                      Students.course_ := JS.Str "CS" |}
                   {| Courses.code := JS.Str "CS1"; Courses.name := JS.Str "One";
                      Courses.credits := JS.Num 3;
                      Courses.department_ := JS.Str "CS" |}
                   Sample.clear_grade) eq_refl) as [Hdelete Hput].
  split; [exact Hdelete|]. split; [exact (Hput eq_refl eq_refl eq_refl)|].
  reflexivity.
Defined.

Lemma created_enrollment_repeats_no_triple_witness :
  Paging.unique_triples (Sample.campus 2)
  /\ Paging.unique_triples
       (fst (Enrollments.post Sample.number_of (Sample.campus 2) Sample.tenant
               "2024-09-01" Sample.enroll_1_2)).
Proof.
  assert (H : Paging.unique_triples (Sample.campus 2)).
  { unfold Paging.unique_triples. cbn.
    repeat constructor; cbn; intuition discriminate. }
  split; [exact H|].
  exact (proj1
           (created_enrollment_repeats_no_triple Sample.number_of
              (Sample.campus 2) Sample.tenant "2024-09-01" Sample.enroll_1_2) H).
Defined.

(** ** Exports: what a line cannot tell apart, and whose rows it holds *)

Section ExportExtras.
Import JS Store Contract.

Lemma sort_by_ascending {A} (key : A -> Z) (l : list A) :
  StronglySorted (fun a b => key a <= key b)
    (sort_by (fun a b => key a <=? key b) l).
Proof.
  apply Sorted_StronglySorted.
  - intros a b c Hab Hbc. lia.
  - assert (H : Sorted (fun a b => (key a <=? key b) = true)
                  (sort_by (fun a b => key a <=? key b) l)).
    { apply sort_by_sorted. intros a b.
      destruct (Z.leb_spec (key a) (key b)); [now left|right].
      apply Z.leb_le. lia. }
    induction H as [|x l' Hs IH Hhd]; constructor; [exact IH|].
    destruct Hhd; constructor. now apply Z.leb_le.
Qed.

(** X22. The export does not escape quotes: a student whose name ends
    with a quote, a comma, a quote and some text gives the same line as the
    student whose email starts with that text, a quote, a comma and a
    quote, so the two cannot be told apart in the file. *)
Theorem export_line_is_ambiguous (id : Z) (a b c course created uid : string) :
  Students.export_line
    {| s_id := id; s_name := a ++ dquote ++ "," ++ dquote ++ b; s_email := c;
       s_course := course; s_created_at := created; s_user_id := uid |}
  = Students.export_line
      {| s_id := id; s_name := a; s_email := b ++ dquote ++ "," ++ dquote ++ c;
         s_course := course; s_created_at := created; s_user_id := uid |}.
Proof.
  unfold Students.export_line. cbn [s_id s_name s_email s_course s_created_at].
  rewrite !append_assoc. reflexivity.
Qed.

Lemma existsb_find {A} (f : A -> bool) (l : list A) :
  existsb f l = match find f l with Some _ => true | None => false end.
Proof.
  induction l as [|x l IH]; cbn; [reflexivity|].
  destruct (f x); [reflexivity|exact IH].
Qed.

(** The enrollments of the joined rows are the enrollments of the tenant
    that have their student and their course among the rows of the tenant,
    each once and in the order of the table. *)
Lemma joined_rows_enrollments db uid :
  map Enrollments.of_enrollment (Enrollments.joined_rows db uid)
  = filter (Tenancy.with_own_rows db uid) (enrollments db).
Proof.
  unfold Enrollments.joined_rows.
  generalize (enrollments db) as l.
  induction l as [|e l IH]; [reflexivity|].
  cbn [filter]. unfold Tenancy.with_own_rows at 1.
  destruct (e_user_id e =? uid)%string; [|exact IH].
  cbn [map Enrollments.keep_some andb]. rewrite !existsb_find.
  unfold Enrollments.inner_join at 1.
  destruct (find _ (students db)) as [s|];
    [|destruct (find _ (courses db)); exact IH].
  destruct (find _ (courses db)) as [c|]; [|exact IH].
  cbn [map Enrollments.keep_some Enrollments.of_enrollment]. now rewrite IH.
Qed.

(** X23. The lines of the two exports are those of the rows of the tenant
    that asks, each row once and in ascending order of the identifier. The
    student export has a line for every student of the tenant. The
    enrollment export has a line for every enrollment of the tenant whose
    student and whose course are rows of the tenant, and for no other; the
    line is made with a student and a course of the tenant that have the
    identifiers the enrollment refers to. *)
Theorem exports_hold_the_tenants_rows (db : database) (uid : string) :
  Students.export db uid
  = blob Students.export_header
      (map Students.export_line (exported_students db uid))
  /\ Permutation (exported_students db uid)
       (filter (fun s => (s_user_id s =? uid)%string) (students db))
  /\ StronglySorted (fun a b => s_id a <= s_id b) (exported_students db uid)
  /\ Enrollments.export db uid
     = blob Enrollments.export_header
         (map Enrollments.export_line (exported_enrollments db uid))
  /\ Permutation
       (map Enrollments.of_enrollment (exported_enrollments db uid))
       (filter (Tenancy.with_own_rows db uid) (enrollments db))
  /\ StronglySorted
       (fun a b => e_id (Enrollments.of_enrollment a)
                   <= e_id (Enrollments.of_enrollment b))
       (exported_enrollments db uid)
  /\ Forall (fun j => e_user_id (Enrollments.of_enrollment j) = uid
                      /\ In (Enrollments.of_enrollment j) (enrollments db)
                      /\ In (Enrollments.of_student j) (students db)
                      /\ s_user_id (Enrollments.of_student j) = uid
                      /\ s_id (Enrollments.of_student j)
                         = e_student_id (Enrollments.of_enrollment j)
                      /\ In (Enrollments.of_course j) (courses db)
                      /\ c_user_id (Enrollments.of_course j) = uid
                      /\ c_id (Enrollments.of_course j)
                         = e_course_id (Enrollments.of_enrollment j))
       (exported_enrollments db uid)
  /\ (forall e, In e (enrollments db) -> e_user_id e = uid ->
        (exists s, In s (students db) /\ s_id s = e_student_id e
                   /\ s_user_id s = uid) ->
        (exists c, In c (courses db) /\ c_id c = e_course_id e
                   /\ c_user_id c = uid) ->
        exists j, In j (exported_enrollments db uid)
                  /\ Enrollments.of_enrollment j = e)
  /\ (forall s, In s (students db) -> s_user_id s = uid ->
        In s (exported_students db uid)).
Proof.
  assert (Hperm : Permutation
            (map Enrollments.of_enrollment (exported_enrollments db uid))
            (filter (Tenancy.with_own_rows db uid) (enrollments db))).
  { rewrite <- joined_rows_enrollments. apply Permutation_map.
    apply sort_by_perm. }
  repeat apply conj.
  - unfold Students.export. now rewrite join_newline_blob.
  - apply sort_by_perm.
  - apply sort_by_ascending.
  - unfold Enrollments.export. now rewrite join_newline_blob.
  - exact Hperm.
  - apply (sort_by_ascending (fun j => e_id (Enrollments.of_enrollment j))).
  - apply Forall_forall. intros j Hj. unfold exported_enrollments in Hj.
    apply sort_by_In, joined_rows_In in Hj. tauto.
  - intros e He Hu (s & Hs & Hsid & Hsu) (c & Hc & Hcid & Hcu).
    assert (Hin : In e (filter (Tenancy.with_own_rows db uid) (enrollments db))).
    { apply filter_In. split; [exact He|]. unfold Tenancy.with_own_rows.
      rewrite !andb_true_iff. repeat split.
      - now apply String.eqb_eq.
      - apply existsb_exists. exists s. split; [exact Hs|].
        rewrite Hsid, Hsu, Z.eqb_refl, String.eqb_refl. reflexivity.
      - apply existsb_exists. exists c. split; [exact Hc|].
        rewrite Hcid, Hcu, Z.eqb_refl, String.eqb_refl. reflexivity. }
    apply (Permutation_in _ (Permutation_sym Hperm)) in Hin.
    apply in_map_iff in Hin. destruct Hin as (j & Hj & Hin). eauto.
  - intros s Hs Hu. unfold exported_students. apply sort_by_In.
    apply filter_In. split; [exact Hs|]. now apply String.eqb_eq.
Qed.

End ExportExtras.

Lemma escapeAttr_leaves_no_double_quote_witness :
  Client.escapeAttr (Some "Fall 2024") = "Fall 2024".
Proof.
  exact (proj2 (escapeAttr_leaves_no_double_quote (Some "Fall 2024"))
           "Fall 2024" eq_refl eq_refl eq_refl).
Defined.

Lemma created_rows_are_stored_and_listed_witness :
  exists s,
    Store.s_id s = 3 /\ Store.s_name s = "Ada Lovelace"
    /\ In s (Students.matching Sample.anything
               (fst (Rows.post_student (Sample.campus 2) Sample.tenant 3
                       "2024-10-01"
                       {| Students.name := JS.Str "Ada Lovelace";
                          Students.email := JS.Str "ada@university.edu";
                          Students.course_ := JS.Str "Mathematics" |}))
               Sample.tenant (Sample.students_page 1)).
Proof.
  pose proof (proj1
                (created_rows_are_stored_and_listed Sample.anything
                   Sample.number_of (Sample.campus 2) Sample.tenant 3
                   "2024-10-01"
                   {| Students.name := JS.Str "Ada Lovelace";
                      Students.email := JS.Str "ada@university.edu";
                      Students.course_ := JS.Str "Mathematics" |}
                   {| Courses.code := JS.Str "MA101";
                      Courses.name := JS.Str "Analysis";
                      Courses.credits := JS.Num 4;
                      Courses.department_ := JS.Str "Mathematics" |})) as H.
  cbv beta iota delta [Rows.post_student JS.truthy Students.name Students.email
    Students.course_ negb orb String.eqb Ascii.eqb Bool.eqb] in H.
  change (existsb (fun s => Store.s_id s =? 3)
            (Store.students (Sample.campus 2))) with false in H.
  cbv beta iota in H.
  destruct H as (_ & s & _ & Hid & _ & _ & Hname & _ & _ & _ & _ & _ & Hlisted).
  exists s. split; [exact Hid|]. split; [exact Hname|].
  apply Hlisted. split; reflexivity.
Defined.

(** Student 1 of the sample goes with enrollment 1; enrollment 2 and
    student 2 stay. *)
Lemma deleted_rows_take_their_enrollments_witness :
  Forall (fun e => Store.e_student_id e <> 1)
    (Store.enrollments
       (fst (Rows.delete_student (Sample.campus 2) Sample.tenant 1)))
  /\ In (Sample.an_enrollment 2)
       (Store.enrollments
          (fst (Rows.delete_student (Sample.campus 2) Sample.tenant 1)))
  /\ In (Sample.a_student 2)
       (Store.students
          (fst (Rows.delete_student (Sample.campus 2) Sample.tenant 1))).
Proof.
  pose proof (proj1
                (deleted_rows_take_their_enrollments Sample.anything
                   (Sample.campus 2) Sample.tenant 1)) as H.
  change (Rows.delete_student (Sample.campus 2) Sample.tenant 1)
    with (fst (Rows.delete_student (Sample.campus 2) Sample.tenant 1),
          @Store.Json string 200 "Student deleted successfully!") in H.
  cbv iota in H.
  destruct H as (_ & Hrefs & _ & _ & _ & Henrollments & Hstudents & _).
  split; [exact Hrefs|]. split.
  - apply Henrollments. split; [|discriminate].
    right. left. reflexivity.
  - apply Hstudents. split; [right; left; reflexivity|].
    intros [E _]. discriminate.
Defined.

(** Enrollment 2 of the sample, with student 2 and course 2 of the tenant,
    has its line in the export. *)
Lemma exports_hold_the_tenants_rows_witness :
  exists j, In j (Contract.exported_enrollments (Sample.campus 2) Sample.tenant)
            /\ Enrollments.of_enrollment j = Sample.an_enrollment 2.
Proof.
  destruct (exports_hold_the_tenants_rows (Sample.campus 2) Sample.tenant)
    as (_ & _ & _ & _ & _ & _ & _ & Hline & _).
  apply Hline.
  - right. left. reflexivity.
  - reflexivity.
  - exists (Sample.a_student 2). split; [right; left; reflexivity|].
    split; reflexivity.
  - exists (Sample.a_course 2). split; [right; left; reflexivity|].
    split; reflexivity.
Defined.
